(** * proc: process CPU / RSS / VSS self-monitoring

    A shallow embedding of the two sampling engines of package [proc]:

    - [proc_linux] (src/proc_linux.go): the /proc/<pid>/stat parser, the
      self-rescheduling [periodic] sampler and [Usage];
    - [proc_windows] (src/proc_windows.go): the performance-counter session
      ([initCounters], [getCounterArrayData], [Usage], [getProcessExeName]).

    Go's [int64] is a [Z] with its wrap-around written out ([Int64]), [float64]
    is Rocq's primitive binary64 float ([Float64]), a [[]byte] is a
    [list byte], a Go [error] is the text of its message, and a run-time panic
    (index out of range, integer division by zero) is the [Panic] outcome.
    The operating system is an explicit argument: a record of what each system
    call answers. *)

From Stdlib Require Import ZArith Lia List String Ascii Strings.Byte Bool.
From Stdlib Require Import DecimalString DecimalPos.
From Stdlib Require Import Floats.PrimFloat Floats.SpecFloat Floats.FloatOps.
From stdpp Require Import base tactics option list.
Import ListNotations.

Local Open Scope string_scope.
Local Open Scope list_scope.
Local Open Scope Z_scope.

(** ** Machine integers *)

Module Int64.

Definition min_int : Z := - 2 ^ 63.
Definition max_int : Z := 2 ^ 63 - 1.

Definition in_range (z : Z) : Prop := min_int <= z <= max_int.

(** Two's-complement reduction of a mathematical integer to 64 bits. *)
Definition wrap (z : Z) : Z := (z + 2 ^ 63) mod 2 ^ 64 - 2 ^ 63.

Definition add (x y : Z) : Z := wrap (x + y).
Definition sub (x y : Z) : Z := wrap (x - y).
Definition mul (x y : Z) : Z := wrap (x * y).

(** Go's [/] truncates toward zero; [min_int / -1] wraps to [min_int].
    The divisor is not zero here: the caller raises the panic. *)
Definition quot (x y : Z) : Z := wrap (Z.quot x y).

(** [x << n] on int64. *)
Definition shl (x : Z) (n : Z) : Z := wrap (Z.shiftl x n).

End Int64.

(** [uint32(x)] of an unsigned machine word. *)
Definition uint32 (z : Z) : Z := z mod 2 ^ 32.

(** ** Floating point *)

Module Float64.

(** [float64(n)] for an int64 [n]: the nearest binary64, ties to even. *)
Definition of_int64 (z : Z) : float :=
  SF2Prim (binary_normalize prec emax z 0 false).

(** [int64(f)]: truncation toward zero.  Go leaves the result of converting
    a NaN, an infinity or an out-of-range value to the implementation; the
    value taken here is the one of amd64 (the "integer indefinite"
    [min_int]). *)
Definition to_int64 (f : float) : Z :=
  match Prim2SF f with
  | S754_zero _ => 0
  | S754_finite s m e =>
      let mag := if 0 <=? e then Z.pos m * 2 ^ e else Z.pos m / 2 ^ (- e) in
      let v := if s then - mag else mag in
      if (Int64.min_int <=? v) && (v <=? Int64.max_int) then v
      else Int64.min_int
  | S754_infinity _ | S754_nan => Int64.min_int
  end.

Definition ten : float := 10%float.

End Float64.

(** ** Outcomes of a Go function *)

(** A Go [error] is identified with its message. *)
Definition error : Type := string.

(** What the OS hands back: a value or an error. *)
Inductive result (A : Type) : Type :=
  | Success (a : A)
  | Failure (e : error).
Arguments Success {A} a.
Arguments Failure {A} e.

Inductive panic : Type :=
  | IndexOutOfRange (i : Z) (len : nat)
  | DivideByZero.

(** A call either returns (normally, whatever its Go results are) or the
    goroutine panics; nothing in the package recovers, so a panic ends the
    host process. *)
Inductive exec (A : Type) : Type :=
  | Return (a : A)
  | Panic (p : panic).
Arguments Return {A} a.
Arguments Panic {A} p.

Definition bind {A B : Type} (m : exec A) (k : A -> exec B) : exec B :=
  match m with
  | Return a => k a
  | Panic p => Panic p
  end.

Notation "x <- m ;; k" := (bind m (fun x => k))
  (at level 20, m at level 99, k at level 200, only parsing).

(** [s[i]]: a slice index expression, with Go's bounds check. *)
Definition index {A : Type} (s : list A) (i : nat) : exec A :=
  match s !! i with
  | Some a => Return a
  | None => Panic (IndexOutOfRange (Z.of_nat i) (length s))
  end.

(** [x / y] on int64, with Go's zero check. *)
Definition div64 (x y : Z) : exec Z :=
  if y =? 0 then Panic DivideByZero else Return (Int64.quot x y).

Definition is_panic {A : Type} (m : exec A) : bool :=
  match m with
  | Return _ => false
  | Panic _ => true
  end.

(** [%d] of an integer. *)
Definition itoa (z : Z) : string := NilZero.string_of_int (Z.to_int z).

(** ** Bytes *)

Definition byte_val (b : byte) : Z := Z.of_N (Byte.to_N b).

Definition bytes_of_string (s : string) : list byte := list_byte_of_string s.

Module bytes.

(** [asciiSpace]: '\t', '\n', '\v', '\f', '\r', ' '. *)
Definition asciiSpace (b : byte) : bool :=
  let c := byte_val b in
  ((9 <=? c) && (c <=? 13)) || (c =? 32).

(** Width in bytes of the white-space rune that starts the slice, 0 when
    none does.  [bytes.Fields] splits around [unicode.IsSpace] runes of the
    UTF-8 decoding: the six ASCII ones, U+0085, U+00A0, U+1680,
    U+2000..U+200A, U+2028, U+2029, U+202F, U+205F and U+3000.  A byte that
    starts no such encoding is part of a field (an invalid encoding decodes
    to U+FFFD, one byte wide, which is not white space). *)
Definition spaceWidth (s : list byte) : nat :=
  match s with
  | [] => 0%nat
  | b :: rest =>
      if asciiSpace b then 1%nat
      else match byte_val b, map byte_val rest with
           | 194, d :: _ => if (d =? 133) || (d =? 160) then 2%nat else 0%nat
           | 225, 154 :: 128 :: _ => 3%nat
           | 226, 128 :: d :: _ =>
               if ((128 <=? d) && (d <=? 138)) || (d =? 168) || (d =? 169)
                  || (d =? 175)
               then 3%nat else 0%nat
           | 226, 129 :: 159 :: _ => 3%nat
           | 227, 128 :: 128 :: _ => 3%nat
           | _, _ => 0%nat
           end
  end.

(** The fields of [s] from a position on: [skip] bytes of a white-space
    rune are still to be passed over, [cur] is the field being read. *)
Fixpoint fieldsFrom (s : list byte) (skip : nat) (cur : list byte)
  : list (list byte) :=
  match s with
  | [] => match cur with [] => [] | _ => [cur] end
  | b :: rest =>
      match skip with
      | S k => fieldsFrom rest k cur
      | O =>
          match spaceWidth s with
          | O => fieldsFrom rest 0 (cur ++ [b])
          | S k =>
              match cur with
              | [] => fieldsFrom rest k []
              | _ => cur :: fieldsFrom rest k []
              end
          end
      end
  end.

(** [bytes.Fields]: the maximal runs of bytes between white space. *)
Definition Fields (s : list byte) : list (list byte) := fieldsFrom s 0 [].

End bytes.

(** ** Library functions: [strings], [time] *)

Module strings.

(** [c] is one of the characters of [cutset]. *)
Fixpoint contains (c : ascii) (cutset : string) : bool :=
  match cutset with
  | EmptyString => false
  | String d rest => Ascii.eqb c d || contains c rest
  end.

(** [strings.TrimRight s cutset]: [s] without its longest suffix made of
    characters of [cutset] (an ASCII cutset is matched byte by byte). *)
Fixpoint TrimRight (s cutset : string) : string :=
  match s with
  | EmptyString => EmptyString
  | String c rest =>
      match TrimRight rest cutset with
      | EmptyString =>
          if contains c cutset then EmptyString else String c EmptyString
      | kept => String c kept
      end
  end.

End strings.

Module time.

Definition Second : Z := 1000000000.

(** [time.Since t] read when the monotonic clock shows [now]: a Duration,
    saturated to the int64 range. *)
Definition Since (now t : Z) : Z :=
  Z.max Int64.min_int (Z.min Int64.max_int (now - t)).

End time.

(** ** The kernel-stat-file backend (src/proc_linux.go) *)

Module proc_linux.

(** What the kernel answers during one run of [periodic] or [Usage]. *)
Record OS : Type := {
  Getpid : Z;
  (** [ioutil.ReadFile] *)
  ReadFile : string -> result (list byte);
  (** [syscall.Sysinfo]: on success the [Uptime] field, an int64 *)
  Sysinfo : result Z
}.

(** The package-level variables. *)
Record globals : Type := {
  procStatFile : string;
  ticks : Z;
  lastTotal : Z;
  lastSeconds : Z;
  ipcpu : Z
}.

Definition utimePos : nat := 13.
Definition stimePos : nat := 14.
Definition startPos : nat := 21.
Definition vssPos : nat := 22.
Definition rssPos : nat := 23.

Definition asciiZero : Z := 48.
Definition asciiNine : Z := 57.

(** The loop of [parseInt64] over the bytes left, [n] the value so far. *)
Fixpoint parseDigits (d : list byte) (n : Z) : Z :=
  match d with
  | [] => n
  | dec :: rest =>
      if (byte_val dec <? asciiZero) || (asciiNine <? byte_val dec) then -1
      else parseDigits rest
             (Int64.add (Int64.mul n 10) (Int64.sub (byte_val dec) asciiZero))
  end.

(** parseInt64 expects decimal positive numbers; -1 signals an error. *)
Definition parseInt64 (d : list byte) : Z :=
  match d with
  | [] => -1
  | _ => parseDigits d 0
  end.

(** A timer armed by [time.AfterFunc]: the delay in nanoseconds and the
    function to call; [periodic] is the only function ever armed. *)
Inductive task : Type := Periodic.
Definition timer : Type := (Z * task)%type.

(** Sampling function to keep pcpu relevant.  Returns the new globals and
    the timers armed during the run. *)
Definition periodic (os : OS) (g : globals) : exec (globals * list timer) :=
  match ReadFile os (procStatFile g) with
  | Failure _ => Return (g, [])
  | Success contents =>
      let fields := bytes.Fields contents in
      f_start <- index fields startPos ;;
      let pstart := parseInt64 f_start in
      f_utime <- index fields utimePos ;;
      let utime := parseInt64 f_utime in
      f_stime <- index fields stimePos ;;
      let stime := parseInt64 f_stime in
      let total := Int64.add utime stime in
      match Sysinfo os with
      | Failure _ => Return (g, [])
      | Success uptime =>
          q <- div64 pstart (ticks g) ;;
          let seconds := Int64.sub uptime q in
          let lt := lastTotal g in
          let ls := lastSeconds g in
          let g1 := {| procStatFile := procStatFile g; ticks := ticks g;
                       lastTotal := total; lastSeconds := seconds;
                       ipcpu := ipcpu g |} in
          let total := Int64.sub total lt in
          let seconds := Int64.sub seconds ls in
          g2 <- (if 0 <? seconds then
                   a <- div64 (Int64.mul total 1000) (ticks g1) ;;
                   b <- div64 a seconds ;;
                   Return {| procStatFile := procStatFile g1;
                             ticks := ticks g1;
                             lastTotal := lastTotal g1;
                             lastSeconds := lastSeconds g1;
                             ipcpu := b |}
                 else Return g1) ;;
          Return (g2, [(1 * time.Second, Periodic)])
      end
  end.

(** [init]: fixes the clock rate, builds the stat path and takes the first
    sample. *)
Definition init (os : OS) : exec (globals * list timer) :=
  let g := {| procStatFile := ("/proc/" ++ itoa (Getpid os) ++ "/stat")%string;
              ticks := 100; lastTotal := 0; lastSeconds := 0; ipcpu := 0 |} in
  periodic os g.

(** The three locations [Usage] writes through its pointer arguments; the
    pointers are taken to be valid and distinct, as in
    [Usage(&pcpu, &rss, &vss)]. *)
Record outputs : Type := {
  pcpu : float;
  rss : Z;
  vss : Z
}.

(** Usage returns CPU and Memory usage: the error returned ([None] is
    [nil]) and the contents of the three locations afterwards. *)
Definition Usage (os : OS) (g : globals) (out : outputs)
  : exec (option error * outputs) :=
  match ReadFile os (procStatFile g) with
  | Failure err => Return (Some err, out)
  | Success contents =>
      let fields := bytes.Fields contents in
      f_rss <- index fields rssPos ;;
      let out := {| pcpu := pcpu out;
                    rss := Int64.shl (parseInt64 f_rss) 12;
                    vss := vss out |} in
      f_vss <- index fields vssPos ;;
      let out := {| pcpu := pcpu out; rss := rss out;
                    vss := parseInt64 f_vss |} in
      let out := {| pcpu := PrimFloat.div (Float64.of_int64 (ipcpu g))
                                          Float64.ten;
                    rss := rss out; vss := vss out |} in
      Return (None, out)
  end.

End proc_linux.

(** ** The performance-counter backend (src/proc_windows.go) *)

Module proc_windows.

Definition PDH_HQUERY : Type := Z.
Definition PDH_HCOUNTER : Type := Z.

Definition PDH_FMT_DOUBLE : Z := 0x00000200.
Definition PDH_INVALID_DATA : Z := 0xC0000BC6.
Definition PDH_MORE_DATA : Z := 0x800007D2.

(** maxQuerySize represents the maximum servers that can be queried
    simultaneously running on a machine. *)
Definition maxQuerySize : Z := 512.

Record PDH_FMT_COUNTER_VALUE_DOUBLE : Type := {
  CStatus : Z;
  DoubleValue : float
}.

Record PDH_FMT_COUNTER_VALUE_ITEM_DOUBLE : Type := {
  SzName : Z;
  FmtValue : PDH_FMT_COUNTER_VALUE_DOUBLE
}.

Definition zero_item : PDH_FMT_COUNTER_VALUE_ITEM_DOUBLE :=
  {| SzName := 0; FmtValue := {| CStatus := 0; DoubleValue := 0%float |} |}.

(** The calls made into pdh.dll, in the order they are made. *)
Inductive call : Type :=
  | PdhOpenQuery
  | PdhAddCounterW (hQuery : PDH_HQUERY) (szFullCounterPath : string)
  | PdhCollectQueryData (hQuery : PDH_HQUERY)
  | PdhGetFormattedCounterArrayW (hCounter : PDH_HCOUNTER)
      (bufferSize bufferCount : Z).

(** The host, over its own state [W].  Each pdh entry point returns its
    status word and what it stores through its out-pointers:
    - [OpenQuery cur]: the status and the content of the query handle
      afterwards ([cur] before);
    - [AddCounter q path cur]: likewise for the counter handle;
    - [GetFormattedCounterArray c size count]: the status, the buffer size
      and item count afterwards, and the items stored from the start of
      the item buffer.
    pdh.dll and its entry points are taken to load.  [Args0] is
    [os.Args[0]] and [Base] is [filepath.Base] of the target. *)
Record OS (W : Type) : Type := {
  Getpid : Z;
  Args0 : string;
  Base : string -> string;
  Now : W -> Z;
  Sleep : Z -> W -> W;
  OpenQuery : PDH_HQUERY -> W -> (Z * PDH_HQUERY) * W;
  AddCounter : PDH_HQUERY -> string -> PDH_HCOUNTER -> W
               -> (Z * PDH_HCOUNTER) * W;
  CollectQueryData : PDH_HQUERY -> W -> Z * W;
  GetFormattedCounterArray :
    PDH_HCOUNTER -> Z -> Z -> W
    -> (Z * Z * Z * list PDH_FMT_COUNTER_VALUE_ITEM_DOUBLE) * W
}.
Arguments Getpid {W} _.
Arguments Args0 {W} _.
Arguments Base {W} _ _.
Arguments Now {W} _ _.
Arguments Sleep {W} _ _ _.
Arguments OpenQuery {W} _ _ _.
Arguments AddCounter {W} _ _ _ _ _.
Arguments CollectQueryData {W} _ _ _.
Arguments GetFormattedCounterArray {W} _ _ _ _ _.

(** The package-level variables.  [counterResults], an array of
    [maxQuerySize] items, is kept as the prefix written so far: the
    entries past the end of the list hold the zero value. *)
Record globals : Type := {
  pcHandle : PDH_HQUERY;
  pidCounter : PDH_HCOUNTER;
  cpuCounter : PDH_HCOUNTER;
  rssCounter : PDH_HCOUNTER;
  vssCounter : PDH_HCOUNTER;
  prevCPU : float;
  prevRss : Z;
  prevVss : Z;
  lastSampleTime : Z;
  processPid : Z;
  initialSample : bool;
  counterResults : list PDH_FMT_COUNTER_VALUE_ITEM_DOUBLE
}.

Definition initial_globals : globals :=
  {| pcHandle := 0; pidCounter := 0; cpuCounter := 0; rssCounter := 0;
     vssCounter := 0; prevCPU := 0%float; prevRss := 0; prevVss := 0;
     lastSampleTime := 0; processPid := 0; initialSample := true;
     counterResults := [] |}.

(** The three locations [Usage] writes through its pointer arguments, taken
    to be valid and distinct. *)
Record outputs : Type := {
  pcpu : float;
  rss : Z;
  vss : Z
}.

Definition set_pcHandle (h : PDH_HQUERY) (g : globals) : globals :=
  {| pcHandle := h; pidCounter := pidCounter g; cpuCounter := cpuCounter g;
     rssCounter := rssCounter g; vssCounter := vssCounter g;
     prevCPU := prevCPU g; prevRss := prevRss g; prevVss := prevVss g;
     lastSampleTime := lastSampleTime g; processPid := processPid g;
     initialSample := initialSample g; counterResults := counterResults g |}.

Definition set_pidCounter (h : PDH_HCOUNTER) (g : globals) : globals :=
  {| pcHandle := pcHandle g; pidCounter := h; cpuCounter := cpuCounter g;
     rssCounter := rssCounter g; vssCounter := vssCounter g;
     prevCPU := prevCPU g; prevRss := prevRss g; prevVss := prevVss g;
     lastSampleTime := lastSampleTime g; processPid := processPid g;
     initialSample := initialSample g; counterResults := counterResults g |}.

Definition set_cpuCounter (h : PDH_HCOUNTER) (g : globals) : globals :=
  {| pcHandle := pcHandle g; pidCounter := pidCounter g; cpuCounter := h;
     rssCounter := rssCounter g; vssCounter := vssCounter g;
     prevCPU := prevCPU g; prevRss := prevRss g; prevVss := prevVss g;
     lastSampleTime := lastSampleTime g; processPid := processPid g;
     initialSample := initialSample g; counterResults := counterResults g |}.

Definition set_rssCounter (h : PDH_HCOUNTER) (g : globals) : globals :=
  {| pcHandle := pcHandle g; pidCounter := pidCounter g;
     cpuCounter := cpuCounter g; rssCounter := h;
     vssCounter := vssCounter g;
     prevCPU := prevCPU g; prevRss := prevRss g; prevVss := prevVss g;
     lastSampleTime := lastSampleTime g; processPid := processPid g;
     initialSample := initialSample g; counterResults := counterResults g |}.

Definition set_vssCounter (h : PDH_HCOUNTER) (g : globals) : globals :=
  {| pcHandle := pcHandle g; pidCounter := pidCounter g;
     cpuCounter := cpuCounter g; rssCounter := rssCounter g;
     vssCounter := h;
     prevCPU := prevCPU g; prevRss := prevRss g; prevVss := prevVss g;
     lastSampleTime := lastSampleTime g; processPid := processPid g;
     initialSample := initialSample g; counterResults := counterResults g |}.

(** [prevCPU], [prevRss] and [prevVss] are assigned together. *)
Definition set_prev (c : float) (r v : Z) (g : globals) : globals :=
  {| pcHandle := pcHandle g; pidCounter := pidCounter g;
     cpuCounter := cpuCounter g; rssCounter := rssCounter g;
     vssCounter := vssCounter g;
     prevCPU := c; prevRss := r; prevVss := v;
     lastSampleTime := lastSampleTime g; processPid := processPid g;
     initialSample := initialSample g; counterResults := counterResults g |}.

Definition set_lastSampleTime (t : Z) (g : globals) : globals :=
  {| pcHandle := pcHandle g; pidCounter := pidCounter g;
     cpuCounter := cpuCounter g; rssCounter := rssCounter g;
     vssCounter := vssCounter g;
     prevCPU := prevCPU g; prevRss := prevRss g; prevVss := prevVss g;
     lastSampleTime := t; processPid := processPid g;
     initialSample := initialSample g; counterResults := counterResults g |}.

Definition set_processPid (p : Z) (g : globals) : globals :=
  {| pcHandle := pcHandle g; pidCounter := pidCounter g;
     cpuCounter := cpuCounter g; rssCounter := rssCounter g;
     vssCounter := vssCounter g;
     prevCPU := prevCPU g; prevRss := prevRss g; prevVss := prevVss g;
     lastSampleTime := lastSampleTime g; processPid := p;
     initialSample := initialSample g; counterResults := counterResults g |}.

Definition set_initialSample (b : bool) (g : globals) : globals :=
  {| pcHandle := pcHandle g; pidCounter := pidCounter g;
     cpuCounter := cpuCounter g; rssCounter := rssCounter g;
     vssCounter := vssCounter g;
     prevCPU := prevCPU g; prevRss := prevRss g; prevVss := prevVss g;
     lastSampleTime := lastSampleTime g; processPid := processPid g;
     initialSample := b; counterResults := counterResults g |}.

Definition set_counterResults
    (b : list PDH_FMT_COUNTER_VALUE_ITEM_DOUBLE) (g : globals) : globals :=
  {| pcHandle := pcHandle g; pidCounter := pidCounter g;
     cpuCounter := cpuCounter g; rssCounter := rssCounter g;
     vssCounter := vssCounter g;
     prevCPU := prevCPU g; prevRss := prevRss g; prevVss := prevVss g;
     lastSampleTime := lastSampleTime g; processPid := processPid g;
     initialSample := initialSample g; counterResults := b |}.

(** The array after the host stored [items] from its start: what lies past
    the array is not part of it. *)
Definition store_items
    (items buf : list PDH_FMT_COUNTER_VALUE_ITEM_DOUBLE)
  : list PDH_FMT_COUNTER_VALUE_ITEM_DOUBLE :=
  firstn (Z.to_nat maxQuerySize) (items ++ skipn (length items) buf).

(** [counterResults[i]] for an int [i], with the bounds check of an array
    of [maxQuerySize] entries. *)
Definition item_at (buf : list PDH_FMT_COUNTER_VALUE_ITEM_DOUBLE) (i : Z)
  : exec PDH_FMT_COUNTER_VALUE_ITEM_DOUBLE :=
  if (0 <=? i) && (i <? maxQuerySize)
  then Return (nth (Z.to_nat i) buf zero_item)
  else Panic (IndexOutOfRange i (Z.to_nat maxQuerySize)).

(** The copy loop of [getCounterArrayData]: [rv[i] =
    counterResults[i].FmtValue.DoubleValue] for [i] from [i0], [n] times. *)
Fixpoint copy_values (buf : list PDH_FMT_COUNTER_VALUE_ITEM_DOUBLE)
    (i0 : Z) (n : nat) : exec (list float) :=
  match n with
  | O => Return []
  | S n' =>
      it <- item_at buf i0 ;;
      rest <- copy_values buf (i0 + 1) n' ;;
      Return (DoubleValue (FmtValue it) :: rest)
  end.

(** The search loop of [Usage] from index [i] on: the first index whose
    entry, converted to int, is [pid]; [-1] when there is none. *)
Fixpoint find_pid (pidAry : list float) (pid : Z) (i : Z) : Z :=
  match pidAry with
  | [] => -1
  | v :: rest =>
      if Float64.to_int64 v =? pid then i else find_pid rest pid (i + 1)
  end.

(** [a[idx]] for an int [idx]. *)
Definition at_int {A : Type} (a : list A) (idx : Z) : exec A :=
  if idx <? 0 then Panic (IndexOutOfRange idx (length a))
  else index a (Z.to_nat idx).

Section Host.

Context {W : Type} (os : OS W).

(** What a call of the package runs on: the package variables, the
    caller's three locations, the host, and the pdh calls made so far
    (latest last).  [pcQueryLock] serializes the calls of [Usage]; they
    are taken here one after the other. *)
Record machine : Type := {
  vars : globals;
  out : outputs;
  world : W;
  calls : list call
}.

Definition St (A : Type) : Type := machine -> exec (A * machine).

Definition ret {A : Type} (a : A) : St A := fun m => Return (a, m).

Definition bindS {A B : Type} (c : St A) (k : A -> St B) : St B :=
  fun m => match c m with
           | Return (a, m') => k a m'
           | Panic p => Panic p
           end.

Definition lift {A : Type} (e : exec A) : St A :=
  fun m => match e with
           | Return a => Return (a, m)
           | Panic p => Panic p
           end.

Definition get : St globals := fun m => Return (vars m, m).

Definition modify (f : globals -> globals) : St unit :=
  fun m => Return (tt, {| vars := f (vars m); out := out m;
                          world := world m; calls := calls m |}).

Definition getOut : St outputs := fun m => Return (out m, m).

Definition putOut (o : outputs) : St unit :=
  fun m => Return (tt, {| vars := vars m; out := o;
                          world := world m; calls := calls m |}).

(** A call into pdh.dll: logged, and answered by the host. *)
Definition syscall {A : Type} (c : call) (f : W -> A * W) : St A :=
  fun m => let '(a, w) := f (world m) in
           Return (a, {| vars := vars m; out := out m; world := w;
                         calls := calls m ++ [c] |}).

Definition now : St Z := fun m => Return (Now os (world m), m).

Definition sleep (d : Z) : St unit :=
  fun m => Return (tt, {| vars := vars m; out := out m;
                          world := Sleep os d (world m);
                          calls := calls m |}).

Notation "'do' p <~ c ;; k" := (bindS c (fun p => k))
  (at level 10, p pattern, c at level 99, k at level 200, only parsing).

(** [if err != nil { return err }] around the rest of a function. *)
Definition check (c : St (option error)) (k : St (option error))
  : St (option error) :=
  do err <~ c ;;
  match err with
  | Some e => ret (Some e)
  | None => k
  end.

Definition pdhAddCounter (hQuery : PDH_HQUERY) (szFullCounterPath : string)
    (phCounter : PDH_HCOUNTER) : St (option error * PDH_HCOUNTER) :=
  do (r0, h) <~ syscall (PdhAddCounterW hQuery szFullCounterPath)
                (AddCounter os hQuery szFullCounterPath phCounter) ;;
  if negb (r0 =? 0)
  then ret (Some ("pdhAddCounter failed. " ++ itoa r0)%string, h)
  else ret (None, h).

(** [pdhOpenQuery(&source, 0, &pcHandle)] *)
Definition pdhOpenQuery : St (option error) :=
  do g <~ get ;;
  do (r0, h) <~ syscall PdhOpenQuery (OpenQuery os (pcHandle g)) ;;
  do _ <~ modify (set_pcHandle h) ;;
  if negb (r0 =? 0)
  then ret (Some ("pdhOpenQuery failed - " ++ itoa r0)%string)
  else ret None.

Definition pdhCollectQueryData (hQuery : PDH_HQUERY) : St (option error) :=
  do r0 <~ syscall (PdhCollectQueryData hQuery)
          (CollectQueryData os hQuery) ;;
  if negb (r0 =? 0)
  then ret (Some ("pdhCollectQueryData failed - " ++ itoa r0)%string)
  else ret None.

(** The status as a uint32, and the size, the count and the items the
    host stored. *)
Definition pdhGetFormattedCounterArrayDouble (hCounter : PDH_HCOUNTER)
    (lpdwBufferSize lpdwBufferCount : Z)
  : St (Z * Z * Z * list PDH_FMT_COUNTER_VALUE_ITEM_DOUBLE) :=
  do (r, size, count, items) <~
     syscall (PdhGetFormattedCounterArrayW hCounter lpdwBufferSize
                lpdwBufferCount)
             (GetFormattedCounterArray os hCounter lpdwBufferSize
                lpdwBufferCount) ;;
  ret (uint32 r, uint32 size, uint32 count, items).

Definition getCounterArrayData (counter : PDH_HCOUNTER)
  : St (list float * option error) :=
  (* the probe, into a one-item buffer of its own *)
  do (r, bufSize, bufCount, _) <~
     pdhGetFormattedCounterArrayDouble counter 0 0 ;;
  if r =? PDH_MORE_DATA then
    let bufCount := if maxQuerySize <? bufCount then maxQuerySize
                    else bufCount in
    do (r, bufSize, bufCount, items) <~
       pdhGetFormattedCounterArrayDouble counter bufSize bufCount ;;
    do _ <~ modify (fun g =>
           set_counterResults (store_items items (counterResults g)) g) ;;
    if r =? 0 then
      do g <~ get ;;
      do rv <~ lift (copy_values (counterResults g) 0 (Z.to_nat bufCount)) ;;
      ret (rv, None)
    else
      ret ([], Some ("getCounterArrayData failed - " ++ itoa r)%string)
  else if negb (r =? 0) then
    ret ([], Some ("getCounterArrayData failed - " ++ itoa r)%string)
  else
    ret ([], None).

(** getProcessExeName returns the name of the process image, as expected
    by the performance counter API. *)
Definition getProcessExeName : string :=
  strings.TrimRight (Base os (Args0 os)) ".exe".

(** initialize counters *)
Definition initCounters : St (option error) :=
  do _ <~ modify (set_processPid (Getpid os)) ;;
  check pdhOpenQuery (
  let name := (getProcessExeName ++ "*")%string in
  let pidQuery := ("\Process(" ++ name ++ ")\ID Process")%string in
  let cpuQuery := ("\Process(" ++ name ++ ")\% Processor Time")%string in
  let rssQuery :=
    ("\Process(" ++ name ++ ")\Working Set - Private")%string in
  let vssQuery := ("\Process(" ++ name ++ ")\Virtual Bytes")%string in
  let add path (cur : globals -> PDH_HCOUNTER)
          (set : PDH_HCOUNTER -> globals -> globals) : St (option error) :=
    do g <~ get ;;
    do (err, h) <~ pdhAddCounter (pcHandle g) path (cur g) ;;
    do _ <~ modify (set h) ;;
    ret err in
  check (add pidQuery pidCounter set_pidCounter) (
  check (add cpuQuery cpuCounter set_cpuCounter) (
  check (add rssQuery rssCounter set_rssCounter) (
  check (add vssQuery vssCounter set_vssCounter) (
  do g <~ get ;;
  check (pdhCollectQueryData (pcHandle g)) (
  do _ <~ sleep 50 ;;
  ret None)))))).

(** Lines 199-238 of [Usage]: a fresh collection.  The deferred function
    stores the sample time when the body returns, with or without an
    error. *)
Definition sample : St (option error) :=
  do err <~ (
    do g <~ get ;;
    check (pdhCollectQueryData (pcHandle g)) (
    do g <~ get ;;
    do (pidAry, err) <~ getCounterArrayData (pidCounter g) ;;
    check (ret err) (
    do g <~ get ;;
    do (cpuAry, err) <~ getCounterArrayData (cpuCounter g) ;;
    check (ret err) (
    do g <~ get ;;
    do (rssAry, err) <~ getCounterArrayData (rssCounter g) ;;
    check (ret err) (
    do g <~ get ;;
    do (vssAry, err) <~ getCounterArrayData (vssCounter g) ;;
    check (ret err) (
    do g <~ get ;;
    let idx := find_pid pidAry (processPid g) 0 in
    if idx <? 0 then
      ret (Some "could not find pid in performance counter results")
    else
      do c <~ lift (at_int cpuAry idx) ;;
      do o <~ getOut ;;
      do _ <~ putOut {| pcpu := c; rss := rss o; vss := vss o |} ;;
      do r <~ lift (at_int rssAry idx) ;;
      do o <~ getOut ;;
      do _ <~ putOut {| pcpu := pcpu o; rss := Float64.to_int64 r;
                     vss := vss o |} ;;
      do v <~ lift (at_int vssAry idx) ;;
      do o <~ getOut ;;
      do _ <~ putOut {| pcpu := pcpu o; rss := rss o;
                     vss := Float64.to_int64 v |} ;;
      do o <~ getOut ;;
      do _ <~ modify (set_prev (pcpu o) (rss o) (vss o)) ;;
      ret None))))) ) ;;
  do t <~ now ;;
  do _ <~ modify (set_lastSampleTime t) ;;
  ret err.

(** Usage returns process CPU and memory. *)
Definition Usage : St (option error) :=
  do g <~ get ;;
  if initialSample g then
    check initCounters (
    do _ <~ modify (set_initialSample false) ;;
    sample)
  else
    do t <~ now ;;
    if time.Since t (lastSampleTime g) <? 2 * time.Second then
      do _ <~ putOut {| pcpu := prevCPU g; rss := prevRss g;
                     vss := prevVss g |} ;;
      ret None
    else sample.

End Host.

Arguments machine : clear implicits.
Arguments St : clear implicits.

End proc_windows.

(** ** A simulated counter host

    Used to run the performance-counter backend on concrete inputs.  The host
    lists one row (pid, cpu, rss, vss) per process instance matching the
    counter path, the first 512 of them; counter handles are handed out in
    sequence, so that handle [h] reads column [h mod 4].  [faults] holds the
    status words of the coming pdh calls, a zero (or an exhausted list)
    letting the call proceed; every pdh call takes a millisecond. *)

Module sim.

Import proc_windows.

Record host : Type := {
  clock : Z;
  rows : list (float * float * float * float);
  faults : list Z;
  next : Z
}.

Definition tick (d : Z) (next' : Z) (w : host) : host :=
  {| clock := clock w + d; rows := rows w; faults := tl (faults w);
     next := next' |}.

Definition fault (w : host) : Z := hd 0 (faults w).

Definition column (h : PDH_HCOUNTER) (r : float * float * float * float)
  : float :=
  let '(p, c, m, v) := r in
  match h mod 4 with
  | 0 => p
  | 1 => c
  | 2 => m
  | _ => v
  end.

Definition item (f : float) : PDH_FMT_COUNTER_VALUE_ITEM_DOUBLE :=
  {| SzName := 0; FmtValue := {| CStatus := 0; DoubleValue := f |} |}.

Definition ms : Z := 1000000.

(** The number of instances the host lists. *)
Definition listed (w : host) : Z :=
  Z.of_nat (length (firstn (Z.to_nat maxQuerySize) (rows w))).

Definition os (pid : Z) (args0 : string) : OS host :=
  {| Getpid := pid;
     Args0 := args0;
     Base := fun p => p;
     Now := clock;
     Sleep := fun d w => {| clock := clock w + d; rows := rows w;
                            faults := faults w; next := next w |};
     OpenQuery := fun cur w =>
       if fault w =? 0 then ((0, 1), tick ms 4 w)
       else ((fault w, cur), tick ms (next w) w);
     AddCounter := fun q path cur w =>
       if fault w =? 0 then ((0, next w), tick ms (next w + 1) w)
       else ((fault w, cur), tick ms (next w) w);
     CollectQueryData := fun q w => (fault w, tick ms (next w) w);
     GetFormattedCounterArray := fun h size count w =>
       let n := listed w in
       if negb (uint32 (fault w) =? 0) then
         ((fault w, size, count, []), tick ms (next w) w)
       else if size <? 24 * n then
         ((PDH_MORE_DATA, 24 * n, n, []), tick ms (next w) w)
       else
         ((0, 24 * n, n,
           map (fun r => item (column h r))
               (firstn (Z.to_nat maxQuerySize) (rows w))),
          tick ms (next w) w) |}.

(** A host that breaks the alignment of the arrays: the probe of the CPU
    counter (handle 5) reports success with nothing to fetch. *)
Definition misaligned (pid : Z) (args0 : string) : OS host :=
  {| Getpid := pid;
     Args0 := args0;
     Base := Base (os pid args0);
     Now := Now (os pid args0);
     Sleep := Sleep (os pid args0);
     OpenQuery := OpenQuery (os pid args0);
     AddCounter := AddCounter (os pid args0);
     CollectQueryData := CollectQueryData (os pid args0);
     GetFormattedCounterArray := fun h size count w =>
       if h =? 5 then ((0, 0, 0, []), tick ms (next w) w)
       else GetFormattedCounterArray (os pid args0) h size count w |}.

Definition boot (rows : list (float * float * float * float))
    (faults : list Z) : machine host :=
  {| vars := initial_globals;
     out := {| pcpu := 0%float; rss := 0; vss := 0 |};
     world := {| clock := 0; rows := rows; faults := faults; next := 0 |};
     calls := [] |}.

(** The caller lets [d] nanoseconds pass, the host showing [rows'] and
    [faults'] from then on. *)
Definition later (d : Z) (rows' : list (float * float * float * float))
    (faults' : list Z) (m : machine host) : machine host :=
  {| vars := vars m; out := out m;
     world := {| clock := clock (world m) + d; rows := rows';
                 faults := faults'; next := next (world m) |};
     calls := calls m |}.

End sim.

(** ** Vocabulary of the statements *)

(** An ASCII digit '0'..'9'. *)
Definition is_digit (b : byte) : Prop := 48 <= byte_val b <= 57.

(** The runtime's timer loop, as far as this package arms it: each coming
    state of the kernel in [hosts] is a moment at which the oldest armed timer
    fires and runs [periodic]; with no timer armed nothing runs any more. *)
Fixpoint run_timers (hosts : list proc_linux.OS) (g : proc_linux.globals)
    (armed : list proc_linux.timer)
  : exec (proc_linux.globals * list proc_linux.timer) :=
  match hosts, armed with
  | os :: rest, (_, proc_linux.Periodic) :: pending =>
      r <- proc_linux.periodic os g ;;
      run_timers rest (fst r) (pending ++ snd r)
  | _, _ => Return (g, armed)
  end.

(** What a run of [c] on [m] leads to: the result and the machine it leaves
    satisfy [Q]; [onpanic] is what a panic counts as ([False] rules it out,
    [True] leaves it aside). *)
Definition post {W A : Type} (onpanic : Prop) (c : proc_windows.St W A)
    (m : proc_windows.machine W) (Q : A -> proc_windows.machine W -> Prop)
  : Prop :=
  match c m with
  | Return (a, m') => Q a m'
  | Panic _ => onpanic
  end.

(** The pdh calls of initialization, and those of a collection. *)
Definition init_call (c : proc_windows.call) : Prop :=
  match c with
  | proc_windows.PdhOpenQuery | proc_windows.PdhAddCounterW _ _ => True
  | _ => False
  end.

Definition sampling_call (c : proc_windows.call) : Prop :=
  match c with
  | proc_windows.PdhCollectQueryData _
  | proc_windows.PdhGetFormattedCounterArrayW _ _ _ => True
  | _ => False
  end.

(** [m'] comes after [m] with only calls satisfying [allowed] made in
    between. *)
Definition grows {W : Type} (allowed : proc_windows.call -> Prop)
    (m m' : proc_windows.machine W) : Prop :=
  exists cs, proc_windows.calls m' = proc_windows.calls m ++ cs /\
             Forall allowed cs.

(** The session variables a collection leaves alone: the handles, the
    process id and the initialization mark. *)
Definition same_session (g g' : proc_windows.globals) : Prop :=
  proc_windows.pcHandle g' = proc_windows.pcHandle g /\
  proc_windows.pidCounter g' = proc_windows.pidCounter g /\
  proc_windows.cpuCounter g' = proc_windows.cpuCounter g /\
  proc_windows.rssCounter g' = proc_windows.rssCounter g /\
  proc_windows.vssCounter g' = proc_windows.vssCounter g /\
  proc_windows.processPid g' = proc_windows.processPid g /\
  proc_windows.initialSample g' = proc_windows.initialSample g.

(** What a collection leaves in place. *)
Definition frame {W : Type} (m m' : proc_windows.machine W) : Prop :=
  same_session (proc_windows.vars m) (proc_windows.vars m') /\
  grows sampling_call m m'.

(** [m] after a pdh call [c] that left the host in state [w]. *)
Definition called {W : Type} (c : proc_windows.call) (w : W)
    (m : proc_windows.machine W) : proc_windows.machine W :=
  {| proc_windows.vars := proc_windows.vars m;
     proc_windows.out := proc_windows.out m;
     proc_windows.world := w;
     proc_windows.calls := proc_windows.calls m ++ [c] |}.

(** The counter API keeps the arrays of one collection cycle index-aligned:
    [n w] instances are listed in state [w], fetching an array does not
    change that, a fetch that succeeds reports exactly [n w] items, at most
    [maxQuerySize] of them, and it succeeds on an empty buffer only when
    there is nothing to list. *)
Definition aligned {W : Type} (os : proc_windows.OS W) (n : W -> Z) : Prop :=
  forall h size count w,
    let '(r, _, count', _, w') :=
      proc_windows.GetFormattedCounterArray os h size count w in
    n w' = n w /\
    (uint32 r = 0 ->
       uint32 count' = n w /\ n w <= proc_windows.maxQuerySize /\
       (size = 0 -> n w = 0)).

(** The cached snapshot. *)
Definition cached (g : proc_windows.globals) : proc_windows.outputs :=
  {| proc_windows.pcpu := proc_windows.prevCPU g;
     proc_windows.rss := proc_windows.prevRss g;
     proc_windows.vss := proc_windows.prevVss g |}.

(** [m] with the caller's locations holding [o]. *)
Definition with_out {W : Type} (o : proc_windows.outputs)
    (m : proc_windows.machine W) : proc_windows.machine W :=
  {| proc_windows.vars := proc_windows.vars m; proc_windows.out := o;
     proc_windows.world := proc_windows.world m;
     proc_windows.calls := proc_windows.calls m |}.

(** [m] with the package variables [g]. *)
Definition with_vars {W : Type} (g : proc_windows.globals)
    (m : proc_windows.machine W) : proc_windows.machine W :=
  {| proc_windows.vars := g; proc_windows.out := proc_windows.out m;
     proc_windows.world := proc_windows.world m;
     proc_windows.calls := proc_windows.calls m |}.

(** [Usage] on [m] takes the sampling path, starting the collection on
    [m0]: the session is initialized and two seconds or more have passed
    since the last sample time, or it is not and [initCounters] succeeds. *)
Definition collects {W : Type} (os : proc_windows.OS W)
    (m m0 : proc_windows.machine W) : Prop :=
  (proc_windows.initialSample (proc_windows.vars m) = false /\
   2 * time.Second <=
     time.Since (proc_windows.Now os (proc_windows.world m))
                (proc_windows.lastSampleTime (proc_windows.vars m)) /\
   m0 = m) \/
  (proc_windows.initialSample (proc_windows.vars m) = true /\
   exists m1,
     proc_windows.initCounters os m = Return (None, m1) /\
     m0 = with_vars (proc_windows.set_initialSample false
                       (proc_windows.vars m1)) m1).

(** The machine a run leaves, [d] if it panicked. *)
Definition state_of {W A : Type} (r : exec (A * proc_windows.machine W))
    (d : proc_windows.machine W) : proc_windows.machine W :=
  match r with
  | Return (_, m') => m'
  | Panic _ => d
  end.

(** ** A session on the simulated host

    Process 4242, image nats-server.exe, next to another instance of the same
    image (pid 100).  [Usage] is called a first time, again 1.9 s later, and
    again 1.9 s after that; the host reports other figures from the second
    call on. *)

Module scenario.

Definition os : proc_windows.OS sim.host := sim.os 4242 "nats-server.exe".

Definition rowsA : list (float * float * float * float) :=
  [(100%float, 1.5%float, 4096%float, 8192%float);
   (4242%float, 12.5%float, 1000000%float, 2000000%float)].

Definition rowsB : list (float * float * float * float) :=
  [(100%float, 1.5%float, 4096%float, 8192%float);
   (4242%float, 50%float, 3000000%float, 4000000%float)].

Definition m0 : proc_windows.machine sim.host := sim.boot rowsA [].

Definition call1 : proc_windows.machine sim.host := m0.
Definition m1 : proc_windows.machine sim.host :=
  state_of (proc_windows.Usage os call1) call1.

Definition call2 : proc_windows.machine sim.host :=
  sim.later (1900 * sim.ms) rowsB [] m1.
Definition m2 : proc_windows.machine sim.host :=
  state_of (proc_windows.Usage os call2) call2.

Definition call3 : proc_windows.machine sim.host :=
  sim.later (1900 * sim.ms) rowsB [] m2.
Definition m3 : proc_windows.machine sim.host :=
  state_of (proc_windows.Usage os call3) call3.

(** The machines the first call goes through: after [initCounters], at the
    start of the collection, after the collect and after each array. *)
Definition mi : proc_windows.machine sim.host :=
  state_of (proc_windows.initCounters os m0) m0.
Definition s0 : proc_windows.machine sim.host :=
  with_vars (proc_windows.set_initialSample false (proc_windows.vars mi)) mi.
Definition s1 : proc_windows.machine sim.host :=
  state_of (proc_windows.pdhCollectQueryData os
              (proc_windows.pcHandle (proc_windows.vars s0)) s0) s0.
Definition s2 : proc_windows.machine sim.host :=
  state_of (proc_windows.getCounterArrayData os
              (proc_windows.pidCounter (proc_windows.vars s1)) s1) s1.
Definition s3 : proc_windows.machine sim.host :=
  state_of (proc_windows.getCounterArrayData os
              (proc_windows.cpuCounter (proc_windows.vars s2)) s2) s2.
Definition s4 : proc_windows.machine sim.host :=
  state_of (proc_windows.getCounterArrayData os
              (proc_windows.rssCounter (proc_windows.vars s3)) s3) s3.
Definition s5 : proc_windows.machine sim.host :=
  state_of (proc_windows.getCounterArrayData os
              (proc_windows.vssCounter (proc_windows.vars s4)) s4) s4.

(** A first call during which the k-th pdh call answers status 7. *)
Definition failing (k : nat) : proc_windows.machine sim.host :=
  sim.boot rowsA (repeat 0 k ++ [7]).

End scenario.

(** ** A simulated kernel

    The stat file of process [pid] holds [stat], or cannot be read; every
    other path is missing. *)

Module sim_linux.

Import proc_linux.

Definition kernel (pid : Z) (stat : result (list byte)) (uptime : result Z)
  : OS :=
  {| Getpid := pid;
     ReadFile := fun path =>
       if String.eqb path ("/proc/" ++ itoa pid ++ "/stat")%string then stat
       else Failure "no such file or directory";
     Sysinfo := uptime |}.

(** A record of process 4242: 150 user and 50 system ticks, started 12300
    ticks after boot, 2000000 bytes of virtual memory, 300 resident pages. *)
Definition stat_4242 : list byte :=
  bytes_of_string
    "4242 (proc) S 1 4242 4242 0 -1 4194304 100 0 0 0 150 50 0 0 20 0 5 0 12300 2000000 300 18446744073709551615 1 1 0 0 0 0".

(** The same record with a letter in the resident-page field. *)
Definition stat_bad_rss : list byte :=
  bytes_of_string
    "4242 (proc) S 1 4242 4242 0 -1 4194304 100 0 0 0 150 50 0 0 20 0 5 0 12300 2000000 3x0 18446744073709551615 1 1 0 0 0 0".

(** The same process before it used any CPU time. *)
Definition stat_idle : list byte :=
  bytes_of_string
    "4242 (proc) S 1 4242 4242 0 -1 4194304 100 0 0 0 0 0 0 0 20 0 5 0 12300 2000000 300 18446744073709551615 1 1 0 0 0 0".

(** A truncated record: three fields. *)
Definition stat_short : list byte := bytes_of_string "4242 (proc) S".

(** The globals as [init] sets them before its first sample. *)
Definition started : globals :=
  {| procStatFile := "/proc/4242/stat"; ticks := 100; lastTotal := 0;
     lastSeconds := 0; ipcpu := 0 |}.

Definition blank : outputs := {| pcpu := 0%float; rss := 0; vss := 0 |}.

End sim_linux.

(** ** Further vocabulary *)

(** The number a string of ASCII digits denotes, most significant digit
    first, continuing from [n]. *)
Definition decimal_from (d : list byte) (n : Z) : Z :=
  fold_left (fun acc b => acc * 10 + (byte_val b - 48)) d n.

Definition decimal_value (d : list byte) : Z := decimal_from d 0.

(** Every byte of [d] is an ASCII digit. *)
Definition all_digits (d : list byte) : Prop := Forall is_digit d.

(** The record at [path], when it can be read, has the 22 leading fields
    [periodic] indexes. *)
Definition samplable (path : string) (os : proc_linux.OS) : Prop :=
  forall contents,
    proc_linux.ReadFile os path = Success contents ->
    (22 <= length (bytes.Fields contents))%nat.

(** Both the record at [path] and the uptime can be read. *)
Definition readable (path : string) (os : proc_linux.OS) : Prop :=
  (exists contents, proc_linux.ReadFile os path = Success contents) /\
  (exists uptime, proc_linux.Sysinfo os = Success uptime).

(** A record cut after its 22nd field, the start time. *)
Definition stat_22_fields : list byte :=
  bytes_of_string
    "4242 (proc) S 1 4242 4242 0 -1 4194304 100 0 0 0 150 50 0 0 20 0 5 0 12300".

(** The value of an item of the counter array. *)
Definition item_value (it : proc_windows.PDH_FMT_COUNTER_VALUE_ITEM_DOUBLE)
  : float :=
  proc_windows.DoubleValue (proc_windows.FmtValue it).

(** The item count [getCounterArrayData] passes to the fetch proper: the
    one the probe reported, capped. *)
Definition capped (count : Z) : Z :=
  if proc_windows.maxQuerySize <? count then proc_windows.maxQuerySize
  else count.

(** The caller's locations and the cache are as they were. *)
Definition untouched {W : Type} (m m' : proc_windows.machine W) : Prop :=
  proc_windows.out m' = proc_windows.out m /\
  cached (proc_windows.vars m') = cached (proc_windows.vars m).

(** At most [k] pdh calls were made between [m] and [m']. *)
Definition at_most {W : Type} (k : nat) (m m' : proc_windows.machine W)
  : Prop :=
  exists cs, proc_windows.calls m' = proc_windows.calls m ++ cs /\
             (length cs <= k)%nat.

(** A fetch asks for at most [maxQuerySize] items. *)
Definition count_capped (c : proc_windows.call) : Prop :=
  match c with
  | proc_windows.PdhGetFormattedCounterArrayW _ _ count =>
      0 <= count <= proc_windows.maxQuerySize
  | _ => True
  end.

(** A host that reports more items than the array holds: the probe asks for
    more data, the fetch answers success with 600 items. *)
Definition overreporting (pid : Z) (args0 : string)
  : proc_windows.OS sim.host :=
  {| proc_windows.Getpid := pid;
     proc_windows.Args0 := args0;
     proc_windows.Base := proc_windows.Base (sim.os pid args0);
     proc_windows.Now := proc_windows.Now (sim.os pid args0);
     proc_windows.Sleep := proc_windows.Sleep (sim.os pid args0);
     proc_windows.OpenQuery := proc_windows.OpenQuery (sim.os pid args0);
     proc_windows.AddCounter := proc_windows.AddCounter (sim.os pid args0);
     proc_windows.CollectQueryData :=
       proc_windows.CollectQueryData (sim.os pid args0);
     proc_windows.GetFormattedCounterArray := fun h size count w =>
       if size =? 0
       then ((proc_windows.PDH_MORE_DATA, 24 * 600, 600, []),
             sim.tick sim.ms (sim.next w) w)
       else ((0, 24 * 600, 600, []), sim.tick sim.ms (sim.next w) w) |}.

(** The caller's locations and the cache untouched, within [k] pdh calls. *)
Definition quiet {W : Type} (k : nat) (m m' : proc_windows.machine W)
  : Prop :=
  untouched m m' /\ at_most k m m'.

(** A first call that does not find process 4242 among the instances
    listed, and the machine it leaves. *)
Definition miss_call : proc_windows.machine sim.host :=
  sim.boot [(100%float, 1.5%float, 4096%float, 8192%float)] [].

Definition after_miss : proc_windows.machine sim.host :=
  state_of (proc_windows.Usage scenario.os miss_call) miss_call.

(** The next call, half a second later, the process now listed. *)
Definition retry_call : proc_windows.machine sim.host :=
  sim.later (500 * sim.ms) scenario.rowsA [] after_miss.

(** ** The test helper (the Windows test file under src/unnamed/part_000) *)

Module proc_test.

(** The [t.Fatalf] a check ends the test with. *)
Inductive fatal : Type :=
  | CPUsDiffer (pcpu tPcpu : float)
  | RSSsDiffer (rss tRss : Z).

(** [if delta < 0 { delta = -delta }] on int64. *)
Definition magnitude (delta : Z) : Z :=
  if delta <? 0 then Int64.sub 0 delta else delta.

(** [checkValues]: [None] when both checks pass. *)
Definition checkValues (pcpu tPcpu : float) (rss tRss : Z) : option fatal :=
  let cpu_fails :=
    if negb (PrimFloat.eqb pcpu tPcpu) then
      let delta := Float64.to_int64 (PrimFloat.sub pcpu tPcpu) in
      30 <? magnitude delta
    else false in
  if cpu_fails then Some (CPUsDiffer pcpu tPcpu)
  else if negb (rss =? tRss) then
    let delta := Int64.sub rss tRss in
    if 1024 * 1024 <? magnitude delta then Some (RSSsDiffer rss tRss)
    else None
  else None.

End proc_test.

(** A byte of a field: ASCII and not white space. *)
Definition plain (b : byte) : Prop :=
  byte_val b < 128 /\ bytes.asciiSpace b = false.

(** A field: not empty, made of plain bytes. *)
Definition plain_field (f : list byte) : Prop := f <> [] /\ Forall plain f.

(** The record whose fields are [fields], one space between two fields. *)
Fixpoint join_fields (fields : list (list byte)) : list byte :=
  match fields with
  | [] => []
  | [f] => f
  | f :: rest => f ++ bytes_of_string " " ++ join_fields rest
  end.

(** The last character of a string. *)
Fixpoint last_char (s : string) : option ascii :=
  match s with
  | EmptyString => None
  | String c EmptyString => Some c
  | String _ rest => last_char rest
  end.

(** The line feed that ends the stat file. *)
Definition newline : list byte := ["010"%byte].

(** * Properties *)

(** ** Machine arithmetic *)

Lemma wrap_in_range (z : Z) : Int64.in_range z -> Int64.wrap z = z.
Proof.
  unfold Int64.in_range, Int64.wrap, Int64.min_int, Int64.max_int.
  intros H. rewrite Z.mod_small; lia.
Qed.

Lemma wrap_range (z : Z) : Int64.in_range (Int64.wrap z).
Proof.
  unfold Int64.in_range, Int64.wrap, Int64.min_int, Int64.max_int.
  pose proof (Z.mod_pos_bound (z + 2 ^ 63) (2 ^ 64) ltac:(lia)). lia.
Qed.

Lemma quot_shrinks (a b : Z) :
  0 < b -> Z.min a 0 <= Z.quot a b <= Z.max a 0.
Proof.
  intros Hb.
  assert (Hpos : forall c, 0 <= c -> 0 <= Z.quot c b <= c).
  { intros c Hc. rewrite Z.quot_div_nonneg by lia. split.
    - apply Z.div_pos; lia.
    - apply Z.div_le_upper_bound; [lia|nia]. }
  destruct (Z_le_gt_dec 0 a) as [Ha|Ha].
  - specialize (Hpos a Ha). lia.
  - specialize (Hpos (- a) ltac:(lia)).
    rewrite Z.quot_opp_l in Hpos by lia. lia.
Qed.

Lemma quot_in_range (a b : Z) :
  0 < b -> Int64.in_range a -> Int64.in_range (Z.quot a b).
Proof.
  intros Hb Ha. pose proof (quot_shrinks a b Hb).
  unfold Int64.in_range, Int64.min_int, Int64.max_int in *. lia.
Qed.

Lemma shl_12_is_times_page (x : Z) : Int64.shl x 12 = Int64.wrap (x * 4096).
Proof. unfold Int64.shl. rewrite Z.shiftl_mul_pow2 by lia. reflexivity. Qed.

(** ** The stat parser *)

Lemma parseDigits_bad (d : list byte) :
  forall n, (exists b, In b d /\ ~ is_digit b) -> proc_linux.parseDigits d n = -1.
Proof.
  unfold is_digit.
  induction d as [|c d IH]; intros n [b [Hin Hb]]; [destruct Hin|].
  cbn [proc_linux.parseDigits].
  unfold proc_linux.asciiZero, proc_linux.asciiNine.
  destruct (byte_val c <? 48) eqn:E1; [reflexivity|].
  destruct (57 <? byte_val c) eqn:E2; [reflexivity|].
  cbn [orb]. apply IH. destruct Hin as [->|Hin]; [|eauto].
  apply Z.ltb_ge in E1. apply Z.ltb_ge in E2. lia.
Qed.

Lemma parseInt64_bad (d : list byte) :
  d = [] \/ (exists b, In b d /\ ~ is_digit b) -> proc_linux.parseInt64 d = -1.
Proof.
  intros [->|H]; [reflexivity|].
  destruct d; [destruct H as [? [[] _]]|].
  unfold proc_linux.parseInt64. now apply parseDigits_bad.
Qed.

(** What [Usage] returns once the stat file was read and the record has the
    two memory fields. *)
Lemma linux_Usage_read (os : proc_linux.OS) (g : proc_linux.globals)
    (out : proc_linux.outputs) (contents f_rss f_vss : list byte) :
  proc_linux.ReadFile os (proc_linux.procStatFile g) = Success contents ->
  bytes.Fields contents !! proc_linux.rssPos = Some f_rss ->
  bytes.Fields contents !! proc_linux.vssPos = Some f_vss ->
  proc_linux.Usage os g out =
    Return (None,
            {| proc_linux.pcpu :=
                 PrimFloat.div (Float64.of_int64 (proc_linux.ipcpu g))
                               Float64.ten;
               proc_linux.rss := Int64.shl (proc_linux.parseInt64 f_rss) 12;
               proc_linux.vss := proc_linux.parseInt64 f_vss |}).
Proof.
  intros Hread Hrss Hvss. unfold proc_linux.Usage, index.
  rewrite Hread, Hrss. cbn [bind]. rewrite Hvss. reflexivity.
Qed.

(** A record long enough for [rssPos] has every field the package reads. *)
Lemma fields_upto (fields : list (list byte)) (i j : nat) (f : list byte) :
  fields !! i = Some f -> (j <= i)%nat -> exists f', fields !! j = Some f'.
Proof.
  intros Hi Hj. apply lookup_lt_Some in Hi.
  destruct (lookup_lt_is_Some_2 fields j ltac:(lia)) as [f' Hf']. eauto.
Qed.

(** ** StatSampler: [Usage] *)

(** C9: when the stat pseudo-file cannot be read, [Usage] returns that error
    and the three output locations hold exactly what the caller passed in. *)
Theorem C9_read_failure_leaves_outputs (os : proc_linux.OS)
    (g : proc_linux.globals) (out : proc_linux.outputs) (e : error) :
  proc_linux.ReadFile os (proc_linux.procStatFile g) = Failure e ->
  proc_linux.Usage os g out = Return (Some e, out).
Proof.
  intros Hread. unfold proc_linux.Usage. rewrite Hread. reflexivity.
Qed.

Lemma C9_witness :
  proc_linux.Usage (sim_linux.kernel 4242 (Failure "permission denied")
                      (Success 125))
    sim_linux.started
    {| proc_linux.pcpu := 7%float; proc_linux.rss := 8; proc_linux.vss := 9 |}
  = Return (Some "permission denied",
            {| proc_linux.pcpu := 7%float; proc_linux.rss := 8;
               proc_linux.vss := 9 |}).
Proof.
  apply (C9_read_failure_leaves_outputs
           (sim_linux.kernel 4242 (Failure "permission denied") (Success 125))
           sim_linux.started).
  reflexivity.
Defined.

(** A call of [Usage] that returns without error has read the record and
    found both memory fields in it. *)
Lemma linux_Usage_success (os : proc_linux.OS) (g : proc_linux.globals)
    (out out' : proc_linux.outputs) :
  proc_linux.Usage os g out = Return (None, out') ->
  exists contents f_rss f_vss,
    proc_linux.ReadFile os (proc_linux.procStatFile g) = Success contents /\
    bytes.Fields contents !! proc_linux.rssPos = Some f_rss /\
    bytes.Fields contents !! proc_linux.vssPos = Some f_vss.
Proof.
  unfold proc_linux.Usage, index.
  destruct (proc_linux.ReadFile os (proc_linux.procStatFile g))
    as [contents|e] eqn:Hread; [|discriminate].
  destruct (bytes.Fields contents !! proc_linux.rssPos) as [f_rss|] eqn:Hrss;
    [|discriminate].
  cbn [bind].
  destruct (bytes.Fields contents !! proc_linux.vssPos) as [f_vss|] eqn:Hvss;
    [|discriminate].
  intros _. exists contents, f_rss, f_vss. auto.
Qed.

(** C5: a call of [Usage] that read a record holding the two memory fields
    is successful, and every successful call sets rss to the parsed
    resident-page field shifted left by 12 bits (times the page size 4096,
    in int64) and vss to the parsed virtual-size field as it is. *)
Theorem C5_rss_shifted_vss_as_is (os : proc_linux.OS)
    (g : proc_linux.globals) (out : proc_linux.outputs) :
  (forall contents f_rss f_vss,
      proc_linux.ReadFile os (proc_linux.procStatFile g) = Success contents ->
      bytes.Fields contents !! proc_linux.rssPos = Some f_rss ->
      bytes.Fields contents !! proc_linux.vssPos = Some f_vss ->
      exists out', proc_linux.Usage os g out = Return (None, out')) /\
  (forall out',
      proc_linux.Usage os g out = Return (None, out') ->
      exists contents f_rss f_vss,
        proc_linux.ReadFile os (proc_linux.procStatFile g)
          = Success contents /\
        bytes.Fields contents !! proc_linux.rssPos = Some f_rss /\
        bytes.Fields contents !! proc_linux.vssPos = Some f_vss /\
        proc_linux.rss out' = Int64.shl (proc_linux.parseInt64 f_rss) 12 /\
        proc_linux.rss out'
          = Int64.wrap (proc_linux.parseInt64 f_rss * 4096) /\
        proc_linux.vss out' = proc_linux.parseInt64 f_vss).
Proof.
  split.
  - intros contents f_rss f_vss Hread Hrss Hvss. eexists.
    apply (linux_Usage_read os g out contents f_rss f_vss); assumption.
  - intros out' Hrun.
    destruct (linux_Usage_success os g out out' Hrun)
      as [contents [f_rss [f_vss [Hread [Hrss Hvss]]]]].
    exists contents, f_rss, f_vss.
    rewrite (linux_Usage_read os g out contents f_rss f_vss Hread Hrss Hvss)
      in Hrun.
    injection Hrun as <-. cbn [proc_linux.rss proc_linux.vss].
    rewrite shl_12_is_times_page. auto 10.
Qed.

Lemma C5_witness :
  exists out',
    proc_linux.Usage (sim_linux.kernel 4242 (Success sim_linux.stat_4242)
                        (Success 125))
      sim_linux.started sim_linux.blank = Return (None, out') /\
    proc_linux.rss out' = 1228800 /\ proc_linux.vss out' = 2000000.
Proof.
  destruct (C5_rss_shifted_vss_as_is
              (sim_linux.kernel 4242 (Success sim_linux.stat_4242)
                 (Success 125))
              sim_linux.started sim_linux.blank) as [Hruns Hvalues].
  destruct (Hruns sim_linux.stat_4242 (bytes_of_string "300")
              (bytes_of_string "2000000") eq_refl eq_refl eq_refl)
    as [out' Hrun].
  exists out'. split; [exact Hrun|].
  destruct (Hvalues out' Hrun)
    as [contents [f_rss [f_vss [Hread [Hrss [Hvss [Hr [_ Hv]]]]]]]].
  vm_compute in Hread. injection Hread as <-.
  vm_compute in Hrss. injection Hrss as <-.
  vm_compute in Hvss. injection Hvss as <-.
  split; [exact Hr|exact Hv].
Defined.

(** C6: [parseInt64] answers -1 for an empty field and for a field holding
    any byte that is not an ASCII digit; a record whose resident-page field
    holds such a byte therefore makes [Usage] return without error, with rss
    equal to [-1 << 12], that is -4096. *)
Theorem C6_parse_fails_soft :
  (forall d : list byte,
      d = [] \/ (exists b, In b d /\ ~ is_digit b) ->
      proc_linux.parseInt64 d = -1) /\
  (forall (os : proc_linux.OS) (g : proc_linux.globals)
          (out : proc_linux.outputs) (contents f_rss : list byte),
      proc_linux.ReadFile os (proc_linux.procStatFile g) = Success contents ->
      bytes.Fields contents !! proc_linux.rssPos = Some f_rss ->
      (exists b, In b f_rss /\ ~ is_digit b) ->
      exists out',
        proc_linux.Usage os g out = Return (None, out') /\
        proc_linux.rss out' = Int64.shl (-1) 12 /\
        proc_linux.rss out' = -4096).
Proof.
  split; [exact parseInt64_bad|].
  intros os g out contents f_rss Hread Hrss Hbad.
  destruct (fields_upto _ _ proc_linux.vssPos _ Hrss) as [f_vss Hvss].
  { unfold proc_linux.vssPos, proc_linux.rssPos. lia. }
  eexists. split.
  - apply (linux_Usage_read os g out contents f_rss f_vss); assumption.
  - cbn [proc_linux.rss]. rewrite parseInt64_bad by (right; exact Hbad).
    split; reflexivity.
Qed.

Lemma C6_witness :
  proc_linux.parseInt64 (bytes_of_string "3x0") = -1 /\
  exists out',
    proc_linux.Usage (sim_linux.kernel 4242 (Success sim_linux.stat_bad_rss)
                        (Success 125))
      sim_linux.started sim_linux.blank = Return (None, out') /\
    proc_linux.rss out' = -4096.
Proof.
  destruct C6_parse_fails_soft as [Hparse Husage]. split.
  - apply Hparse. right. exists "x"%byte. split.
    + right. left. reflexivity.
    + unfold is_digit. vm_compute. intros [_ H]. apply H. reflexivity.
  - destruct (Husage
                (sim_linux.kernel 4242 (Success sim_linux.stat_bad_rss)
                   (Success 125))
                sim_linux.started sim_linux.blank sim_linux.stat_bad_rss
                (bytes_of_string "3x0") eq_refl eq_refl)
      as [out' [H1 [_ H3]]].
    + exists "x"%byte. split.
      * right. left. reflexivity.
      * unfold is_digit. vm_compute. intros [_ H]. apply H. reflexivity.
    + exists out'. split; assumption.
Defined.

(** ** StatSampler: the periodic task *)

(** One run of [periodic] that reads both the record and the uptime. *)
Lemma periodic_run (os : proc_linux.OS) (g : proc_linux.globals)
    (contents f_start f_utime f_stime : list byte) (uptime : Z) :
  proc_linux.ticks g = 100 ->
  proc_linux.ReadFile os (proc_linux.procStatFile g) = Success contents ->
  bytes.Fields contents !! proc_linux.startPos = Some f_start ->
  bytes.Fields contents !! proc_linux.utimePos = Some f_utime ->
  bytes.Fields contents !! proc_linux.stimePos = Some f_stime ->
  proc_linux.Sysinfo os = Success uptime ->
  let total := Int64.add (proc_linux.parseInt64 f_utime)
                         (proc_linux.parseInt64 f_stime) in
  let seconds :=
    Int64.sub uptime (Int64.quot (proc_linux.parseInt64 f_start) 100) in
  let dtotal := Int64.sub total (proc_linux.lastTotal g) in
  let dseconds := Int64.sub seconds (proc_linux.lastSeconds g) in
  proc_linux.periodic os g =
    Return ({| proc_linux.procStatFile := proc_linux.procStatFile g;
               proc_linux.ticks := 100;
               proc_linux.lastTotal := total;
               proc_linux.lastSeconds := seconds;
               proc_linux.ipcpu :=
                 if 0 <? dseconds
                 then Int64.quot (Int64.quot (Int64.mul dtotal 1000) 100)
                                 dseconds
                 else proc_linux.ipcpu g |},
            [(time.Second, proc_linux.Periodic)]).
Proof.
  intros Hticks Hread Hstart Hutime Hstime Hsys total seconds dtotal dseconds.
  unfold proc_linux.periodic, index.
  rewrite Hread, Hstart. cbn [bind]. rewrite Hutime. cbn [bind].
  rewrite Hstime. cbn [bind]. rewrite Hsys.
  unfold div64. rewrite Hticks. cbn [proc_linux.ticks].
  change (100 =? 0) with false. cbn [bind].
  fold total. fold seconds. fold dtotal. fold dseconds.
  destruct (0 <? dseconds) eqn:Hpos; cbn [bind]; [|reflexivity].
  apply Z.ltb_lt in Hpos.
  replace (dseconds =? 0) with false by (symmetry; apply Z.eqb_neq; lia).
  reflexivity.
Qed.

(** C1: a tick that reads the record and the uptime stores, when the
    elapsed-seconds delta is strictly positive, the int64 value
    [(dtotal * 1000 / 100) / dseconds] as the CPU estimate (the same value
    over the integers when [dtotal * 1000] fits in an int64), and leaves the
    estimate as it was when the delta is zero or negative; [Usage] then
    reports the stored integer, as a float64, divided by 10.  With
    [dtotal = 200] and [dseconds = 2] the estimate is 1000 and the
    percentage 100.0. *)
Theorem C1_periodic_cpu_estimate (os : proc_linux.OS) (g : proc_linux.globals)
    (contents f_start f_utime f_stime : list byte) (uptime : Z) :
  proc_linux.ticks g = 100 ->
  proc_linux.ReadFile os (proc_linux.procStatFile g) = Success contents ->
  bytes.Fields contents !! proc_linux.startPos = Some f_start ->
  bytes.Fields contents !! proc_linux.utimePos = Some f_utime ->
  bytes.Fields contents !! proc_linux.stimePos = Some f_stime ->
  proc_linux.Sysinfo os = Success uptime ->
  let total := Int64.add (proc_linux.parseInt64 f_utime)
                         (proc_linux.parseInt64 f_stime) in
  let seconds :=
    Int64.sub uptime (Int64.quot (proc_linux.parseInt64 f_start) 100) in
  let dtotal := Int64.sub total (proc_linux.lastTotal g) in
  let dseconds := Int64.sub seconds (proc_linux.lastSeconds g) in
  exists g' : proc_linux.globals,
    proc_linux.periodic os g =
      Return (g', [(time.Second, proc_linux.Periodic)]) /\
    proc_linux.ticks g' = 100 /\
    proc_linux.lastTotal g' = total /\
    proc_linux.lastSeconds g' = seconds /\
    (0 < dseconds ->
       proc_linux.ipcpu g' =
         Int64.quot (Int64.quot (Int64.mul dtotal 1000) 100) dseconds) /\
    (0 < dseconds -> Int64.in_range (dtotal * 1000) ->
       proc_linux.ipcpu g' = Z.quot (Z.quot (dtotal * 1000) 100) dseconds) /\
    (dseconds <= 0 -> proc_linux.ipcpu g' = proc_linux.ipcpu g) /\
    (dtotal = 200 -> dseconds = 2 -> proc_linux.ipcpu g' = 1000) /\
    (forall (os' : proc_linux.OS) (out : proc_linux.outputs)
            (contents' f_rss f_vss : list byte),
        proc_linux.ReadFile os' (proc_linux.procStatFile g')
          = Success contents' ->
        bytes.Fields contents' !! proc_linux.rssPos = Some f_rss ->
        bytes.Fields contents' !! proc_linux.vssPos = Some f_vss ->
        exists out',
          proc_linux.Usage os' g' out = Return (None, out') /\
          proc_linux.pcpu out' =
            PrimFloat.div (Float64.of_int64 (proc_linux.ipcpu g'))
                          Float64.ten /\
          (proc_linux.ipcpu g' = 1000 -> proc_linux.pcpu out' = 100%float)).
Proof.
  intros Hticks Hread Hstart Hutime Hstime Hsys total seconds dtotal dseconds.
  eexists. split.
  { apply (periodic_run os g contents f_start f_utime f_stime uptime);
      assumption. }
  cbn [proc_linux.ticks proc_linux.lastTotal proc_linux.lastSeconds
       proc_linux.ipcpu proc_linux.procStatFile].
  fold total seconds dtotal dseconds.
  split; [reflexivity|]. split; [reflexivity|]. split; [reflexivity|].
  split; [|split; [|split; [|split]]].
  - intros Hpos. apply Z.ltb_lt in Hpos. rewrite Hpos. reflexivity.
  - intros Hpos Hfit. pose proof Hpos as Hpos'.
    apply Z.ltb_lt in Hpos'. rewrite Hpos'.
    unfold Int64.mul, Int64.quot. rewrite (wrap_in_range _ Hfit).
    assert (H1 : Int64.in_range (Z.quot (dtotal * 1000) 100))
      by (apply quot_in_range; [lia|exact Hfit]).
    rewrite (wrap_in_range _ H1).
    apply wrap_in_range. apply quot_in_range; assumption.
  - intros Hneg. replace (0 <? dseconds) with false; [reflexivity|].
    symmetry. apply Z.ltb_ge. exact Hneg.
  - intros Ht Hs. rewrite Ht, Hs. reflexivity.
  - intros os' out contents' f_rss f_vss Hread' Hrss Hvss. eexists. split.
    + apply (linux_Usage_read os' _ out contents' f_rss f_vss); assumption.
    + cbn [proc_linux.pcpu proc_linux.ipcpu]. split; [reflexivity|].
      intros ->. reflexivity.
Qed.

(** 200 ticks of CPU over two seconds: the process started 123 s after boot
    and has used 150 + 50 ticks when the sample is taken at 125 s, the
    previous totals being zero. *)
Lemma C1_witness :
  exists g',
    proc_linux.periodic
      (sim_linux.kernel 4242 (Success sim_linux.stat_4242) (Success 125))
      sim_linux.started
    = Return (g', [(time.Second, proc_linux.Periodic)]) /\
    proc_linux.ipcpu g' = 1000 /\
    exists out',
      proc_linux.Usage
        (sim_linux.kernel 4242 (Success sim_linux.stat_4242) (Success 126))
        g' sim_linux.blank = Return (None, out') /\
      proc_linux.pcpu out' = 100%float.
Proof.
  destruct (C1_periodic_cpu_estimate
              (sim_linux.kernel 4242 (Success sim_linux.stat_4242)
                 (Success 125))
              sim_linux.started sim_linux.stat_4242
              (bytes_of_string "12300") (bytes_of_string "150")
              (bytes_of_string "50") 125
              eq_refl eq_refl eq_refl eq_refl eq_refl eq_refl)
    as [g' [Hrun [_ [_ [_ [_ [_ [_ [H200 Husage]]]]]]]]].
  exists g'. split; [exact Hrun|].
  assert (Hest : proc_linux.ipcpu g' = 1000)
    by (apply H200; reflexivity).
  split; [exact Hest|].
  assert (Hpath : proc_linux.procStatFile g' = "/proc/4242/stat").
  { vm_compute in Hrun. injection Hrun as <-. reflexivity. }
  destruct (Husage
              (sim_linux.kernel 4242 (Success sim_linux.stat_4242)
                 (Success 126))
              sim_linux.blank sim_linux.stat_4242
              (bytes_of_string "300") (bytes_of_string "2000000"))
    as [out' [Hu [_ H100]]].
  - rewrite Hpath. reflexivity.
  - reflexivity.
  - reflexivity.
  - exists out'. split; [exact Hu|]. apply H100. exact Hest.
Defined.

(** [periodic] keeps the clock rate, which [init] fixed at 100. *)
Lemma periodic_keeps_ticks (os : proc_linux.OS) (g g' : proc_linux.globals)
    (armed : list proc_linux.timer) :
  proc_linux.periodic os g = Return (g', armed) ->
  proc_linux.ticks g' = proc_linux.ticks g.
Proof.
  unfold proc_linux.periodic.
  destruct (proc_linux.ReadFile os _) as [contents|e]; [|congruence].
  destruct (index _ proc_linux.startPos) as [f1|]; [|discriminate].
  destruct (index _ proc_linux.utimePos) as [f2|]; [|discriminate].
  destruct (index _ proc_linux.stimePos) as [f3|]; [|discriminate].
  cbn [bind]. destruct (proc_linux.Sysinfo os) as [uptime|e]; [|congruence].
  destruct (div64 _ (proc_linux.ticks g)) as [q|]; [|discriminate].
  cbn [bind proc_linux.ticks proc_linux.lastTotal proc_linux.lastSeconds].
  destruct (0 <? _); cbn [bind].
  - destruct (div64 _ (proc_linux.ticks g)) as [a|]; [|discriminate].
    cbn [bind]. destruct (div64 a _) as [b|]; [|discriminate].
    cbn [bind]. intros H. injection H as <- _. reflexivity.
  - intros H. injection H as <- _. reflexivity.
Qed.

(** [init] fixes the clock rate at 100 ticks per second, and no run of
    [periodic] changes it. *)
Lemma init_fixes_ticks (os : proc_linux.OS) (g : proc_linux.globals)
    (armed : list proc_linux.timer) :
  proc_linux.init os = Return (g, armed) -> proc_linux.ticks g = 100.
Proof.
  unfold proc_linux.init. intros H.
  apply periodic_keeps_ticks in H. exact H.
Qed.

(** Two ticks, two seconds apart, 200 ticks of CPU in between: [init] samples
    the idle process at its start, 123 s after boot, and arms the timer; the
    next run, at 125 s, stores 1000. *)
Example two_ticks_200_over_2 :
  (r <- proc_linux.init
          (sim_linux.kernel 4242 (Success sim_linux.stat_idle) (Success 123)) ;;
   run_timers
     [sim_linux.kernel 4242 (Success sim_linux.stat_4242) (Success 125)]
     (fst r) (snd r))
  = Return ({| proc_linux.procStatFile := "/proc/4242/stat";
               proc_linux.ticks := 100;
               proc_linux.lastTotal := 200;
               proc_linux.lastSeconds := 2;
               proc_linux.ipcpu := 1000 |},
            [(time.Second, proc_linux.Periodic)]).
Proof. vm_compute. reflexivity. Qed.

(** A run that cannot read the stat file returns at once. *)
Lemma periodic_read_failure (os : proc_linux.OS) (g : proc_linux.globals)
    (e : error) :
  proc_linux.ReadFile os (proc_linux.procStatFile g) = Failure e ->
  proc_linux.periodic os g = Return (g, []).
Proof.
  intros Hread. unfold proc_linux.periodic. rewrite Hread. reflexivity.
Qed.

(** So does a run that cannot read the uptime. *)
Lemma periodic_sysinfo_failure (os : proc_linux.OS) (g : proc_linux.globals)
    (contents f_start : list byte) (e : error) :
  proc_linux.ReadFile os (proc_linux.procStatFile g) = Success contents ->
  bytes.Fields contents !! proc_linux.startPos = Some f_start ->
  proc_linux.Sysinfo os = Failure e ->
  proc_linux.periodic os g = Return (g, []).
Proof.
  intros Hread Hstart Hsys.
  destruct (fields_upto _ _ proc_linux.utimePos _ Hstart) as [f_u Hu].
  { unfold proc_linux.utimePos, proc_linux.startPos. lia. }
  destruct (fields_upto _ _ proc_linux.stimePos _ Hstart) as [f_s Hs].
  { unfold proc_linux.stimePos, proc_linux.startPos. lia. }
  unfold proc_linux.periodic, index.
  rewrite Hread, Hstart. cbn [bind]. rewrite Hu. cbn [bind].
  rewrite Hs. cbn [bind]. rewrite Hsys. reflexivity.
Qed.

(** C2 does not hold of the code: a run of [periodic] in which reading the
    stat pseudo-file fails, or reading the uptime fails, returns before the
    [time.AfterFunc] call: no timer is armed, the globals are as before, and
    from then on the timer loop never runs the task again, whatever the
    kernel answers later. *)
Theorem C2_failed_read_stops_sampling (os : proc_linux.OS)
    (g : proc_linux.globals) :
  (forall e, proc_linux.ReadFile os (proc_linux.procStatFile g) = Failure e ->
     proc_linux.periodic os g = Return (g, [])) /\
  (forall contents f_start e,
     proc_linux.ReadFile os (proc_linux.procStatFile g) = Success contents ->
     bytes.Fields contents !! proc_linux.startPos = Some f_start ->
     proc_linux.Sysinfo os = Failure e ->
     proc_linux.periodic os g = Return (g, [])) /\
  (forall hosts, run_timers hosts g [] = Return (g, [])).
Proof.
  split; [|split].
  - apply periodic_read_failure.
  - apply periodic_sysinfo_failure.
  - intros hosts. destruct hosts; reflexivity.
Qed.

(** The stat file cannot be opened at one tick (the process is out of file
    descriptors): nothing is armed, and three later moments at which the file
    is readable again leave the estimate where it was. *)
Lemma C2_witness :
  proc_linux.periodic
    (sim_linux.kernel 4242 (Failure "too many open files") (Success 125))
    sim_linux.started
  = Return (sim_linux.started, []) /\
  run_timers
    [sim_linux.kernel 4242 (Success sim_linux.stat_4242) (Success 126);
     sim_linux.kernel 4242 (Success sim_linux.stat_4242) (Success 127);
     sim_linux.kernel 4242 (Success sim_linux.stat_4242) (Success 128)]
    sim_linux.started []
  = Return (sim_linux.started, []).
Proof.
  destruct (C2_failed_read_stops_sampling
              (sim_linux.kernel 4242 (Failure "too many open files")
                 (Success 125))
              sim_linux.started) as [Hread [_ Hloop]].
  split.
  - apply (Hread "too many open files"). reflexivity.
  - apply Hloop.
Defined.

(** With every read succeeding the loop does go on: each run arms the next
    one, one second later. *)
Lemma periodic_rearms_after_success (os : proc_linux.OS)
    (g : proc_linux.globals) (contents f_start : list byte) (uptime : Z) :
  proc_linux.ticks g = 100 ->
  proc_linux.ReadFile os (proc_linux.procStatFile g) = Success contents ->
  bytes.Fields contents !! proc_linux.startPos = Some f_start ->
  proc_linux.Sysinfo os = Success uptime ->
  exists g',
    proc_linux.periodic os g =
      Return (g', [(1 * time.Second, proc_linux.Periodic)]).
Proof.
  intros Hticks Hread Hstart Hsys.
  destruct (fields_upto _ _ proc_linux.utimePos _ Hstart) as [f_u Hu].
  { unfold proc_linux.utimePos, proc_linux.startPos. lia. }
  destruct (fields_upto _ _ proc_linux.stimePos _ Hstart) as [f_s Hs].
  { unfold proc_linux.stimePos, proc_linux.startPos. lia. }
  eexists.
  apply (periodic_run os g contents f_start f_u f_s uptime); assumption.
Qed.

(** Neither function of the stat backend panics on a record that has its 24
    leading fields. *)
Lemma linux_no_panic (os : proc_linux.OS) (g : proc_linux.globals)
    (out : proc_linux.outputs) :
  proc_linux.ticks g = 100 ->
  (forall contents,
      proc_linux.ReadFile os (proc_linux.procStatFile g) = Success contents ->
      (24 <= length (bytes.Fields contents))%nat) ->
  is_panic (proc_linux.Usage os g out) = false /\
  is_panic (proc_linux.periodic os g) = false.
Proof.
  intros Hticks Hlen.
  destruct (proc_linux.ReadFile os (proc_linux.procStatFile g))
    as [contents|e] eqn:Hread.
  2:{ unfold proc_linux.Usage, proc_linux.periodic. rewrite Hread.
      split; reflexivity. }
  specialize (Hlen contents eq_refl).
  destruct (lookup_lt_is_Some_2 (bytes.Fields contents) proc_linux.rssPos)
    as [f_rss Hrss]; [unfold proc_linux.rssPos; lia|].
  destruct (lookup_lt_is_Some_2 (bytes.Fields contents) proc_linux.vssPos)
    as [f_vss Hvss]; [unfold proc_linux.vssPos; lia|].
  destruct (lookup_lt_is_Some_2 (bytes.Fields contents) proc_linux.startPos)
    as [f_start Hstart]; [unfold proc_linux.startPos; lia|].
  split.
  - rewrite (linux_Usage_read os g out contents f_rss f_vss) by assumption.
    reflexivity.
  - destruct (proc_linux.Sysinfo os) as [uptime|e] eqn:Hsys.
    + destruct (periodic_rearms_after_success os g contents f_start uptime)
        as [g' ->]; auto.
    + rewrite (periodic_sysinfo_failure os g contents f_start e); auto.
Qed.

(** ** CounterSession: reasoning about runs *)

Section Runs.

Context {W : Type} (os : proc_windows.OS W).

Lemma post_ret (P : Prop) {A : Type} (a : A) (m : (proc_windows.machine W))
    (Q : A -> (proc_windows.machine W) -> Prop) :
  Q a m -> post P (proc_windows.ret a) m Q.
Proof. intros H. exact H. Qed.

Lemma post_bind (P : Prop) {A B : Type} (c : proc_windows.St W A)
    (k : A -> proc_windows.St W B) (m : (proc_windows.machine W)) (Q : B -> (proc_windows.machine W) -> Prop) :
  post P c m (fun a m' => post P (k a) m' Q) ->
  post P (proc_windows.bindS c k) m Q.
Proof.
  unfold post, proc_windows.bindS.
  destruct (c m) as [[a m']|p]; auto.
Qed.

Lemma post_mono (P : Prop) {A : Type} (c : proc_windows.St W A) (m : (proc_windows.machine W))
    (Q Q' : A -> (proc_windows.machine W) -> Prop) :
  post P c m Q -> (forall a m', Q a m' -> Q' a m') -> post P c m Q'.
Proof.
  unfold post. destruct (c m) as [[a m']|p]; auto.
Qed.

Lemma post_check (P : Prop) (c k : proc_windows.St W (option error))
    (m : (proc_windows.machine W)) (Q : option error -> (proc_windows.machine W) -> Prop) :
  post P c m (fun err m' =>
                match err with
                | Some e => Q (Some e) m'
                | None => post P k m' Q
                end) ->
  post P (proc_windows.check c k) m Q.
Proof.
  intros H. unfold proc_windows.check. apply post_bind.
  eapply post_mono; [exact H|]. intros [e|] m' Hq; exact Hq.
Qed.

Lemma post_run (P : Prop) {A : Type} (c : proc_windows.St W A) (m : (proc_windows.machine W))
    (Q : A -> (proc_windows.machine W) -> Prop) (a : A) (m' : (proc_windows.machine W)) :
  post P c m Q -> c m = Return (a, m') -> Q a m'.
Proof. unfold post. intros H E. rewrite E in H. exact H. Qed.

Lemma post_total {A : Type} (c : proc_windows.St W A) (m : (proc_windows.machine W))
    (Q : A -> (proc_windows.machine W) -> Prop) :
  post False c m Q -> exists a m', c m = Return (a, m') /\ Q a m'.
Proof.
  unfold post. destruct (c m) as [[a m']|p]; [eauto|tauto].
Qed.

Lemma post_get (P : Prop) (m : (proc_windows.machine W))
    (Q : proc_windows.globals -> (proc_windows.machine W) -> Prop) :
  Q (proc_windows.vars m) m -> post P proc_windows.get m Q.
Proof. intros H. exact H. Qed.

Lemma post_modify (P : Prop) (f : proc_windows.globals -> proc_windows.globals)
    (m : (proc_windows.machine W)) (Q : unit -> (proc_windows.machine W) -> Prop) :
  Q tt (with_vars (f (proc_windows.vars m)) m) ->
  post P (proc_windows.modify f) m Q.
Proof. intros H. exact H. Qed.

Lemma post_getOut (P : Prop) (m : (proc_windows.machine W))
    (Q : proc_windows.outputs -> (proc_windows.machine W) -> Prop) :
  Q (proc_windows.out m) m -> post P proc_windows.getOut m Q.
Proof. intros H. exact H. Qed.

Lemma post_putOut (P : Prop) (o : proc_windows.outputs) (m : (proc_windows.machine W))
    (Q : unit -> (proc_windows.machine W) -> Prop) :
  Q tt (with_out o m) -> post P (proc_windows.putOut o) m Q.
Proof. intros H. exact H. Qed.

Lemma post_syscall (P : Prop) {A : Type} (c : proc_windows.call)
    (f : W -> A * W) (m : (proc_windows.machine W)) (Q : A -> (proc_windows.machine W) -> Prop) :
  (forall a w, f (proc_windows.world m) = (a, w) -> Q a (called c w m)) ->
  post P (proc_windows.syscall c f) m Q.
Proof.
  intros H. unfold post, proc_windows.syscall.
  destruct (f (proc_windows.world m)) as [a w] eqn:E. apply H. reflexivity.
Qed.

Lemma post_now (P : Prop) (m : (proc_windows.machine W)) (Q : Z -> (proc_windows.machine W) -> Prop) :
  Q (proc_windows.Now os (proc_windows.world m)) m ->
  post P (proc_windows.now os) m Q.
Proof. intros H. exact H. Qed.

Lemma post_sleep (P : Prop) (d : Z) (m : (proc_windows.machine W))
    (Q : unit -> (proc_windows.machine W) -> Prop) :
  Q tt {| proc_windows.vars := proc_windows.vars m;
          proc_windows.out := proc_windows.out m;
          proc_windows.world :=
            proc_windows.Sleep os d (proc_windows.world m);
          proc_windows.calls := proc_windows.calls m |} ->
  post P (proc_windows.sleep os d) m Q.
Proof. intros H. exact H. Qed.

Lemma post_lift (P : Prop) {A : Type} (e : exec A) (m : (proc_windows.machine W))
    (Q : A -> (proc_windows.machine W) -> Prop) :
  match e with Return a => Q a m | Panic _ => P end ->
  post P (proc_windows.lift e) m Q.
Proof.
  unfold post, proc_windows.lift. destruct e; auto.
Qed.

(** *** What a collection leaves in place *)

Lemma same_session_refl (g : proc_windows.globals) : same_session g g.
Proof. repeat split. Qed.

Lemma same_session_trans (g1 g2 g3 : proc_windows.globals) :
  same_session g1 g2 -> same_session g2 g3 -> same_session g1 g3.
Proof. unfold same_session. intuition congruence. Qed.

Lemma grows_same_calls (allowed : proc_windows.call -> Prop)
    (m m' : (proc_windows.machine W)) :
  proc_windows.calls m' = proc_windows.calls m -> grows allowed m m'.
Proof.
  intros E. exists []. split; [rewrite E, app_nil_r; reflexivity|constructor].
Qed.

Lemma grows_refl (allowed : proc_windows.call -> Prop) (m : (proc_windows.machine W)) :
  grows allowed m m.
Proof. exists []. split; [symmetry; apply app_nil_r|constructor]. Qed.

Lemma grows_trans (allowed : proc_windows.call -> Prop) (m1 m2 m3 : (proc_windows.machine W)) :
  grows allowed m1 m2 -> grows allowed m2 m3 -> grows allowed m1 m3.
Proof.
  intros [c1 [E1 F1]] [c2 [E2 F2]]. exists (c1 ++ c2). split.
  - rewrite E2, E1, app_assoc. reflexivity.
  - apply Forall_app. split; assumption.
Qed.

Lemma grows_one (allowed : proc_windows.call -> Prop) (m m' : (proc_windows.machine W))
    (c : proc_windows.call) :
  allowed c -> proc_windows.calls m' = proc_windows.calls m ++ [c] ->
  grows allowed m m'.
Proof. intros Hc E. exists [c]. split; [exact E|]. repeat constructor. exact Hc. Qed.

Lemma frame_refl (m : (proc_windows.machine W)) : frame m m.
Proof. split; [apply same_session_refl|apply grows_refl]. Qed.

Lemma frame_trans (m1 m2 m3 : (proc_windows.machine W)) :
  frame m1 m2 -> frame m2 m3 -> frame m1 m3.
Proof.
  intros [S1 G1] [S2 G2]. split.
  - eapply same_session_trans; eassumption.
  - eapply grows_trans; eassumption.
Qed.

End Runs.

(** One step of a run. *)
Ltac step :=
  lazymatch goal with
  | |- post _ (proc_windows.bindS _ _) _ _ => apply post_bind
  | |- post _ (proc_windows.check _ _) _ _ => apply post_check
  | |- post _ (proc_windows.ret _) _ _ => apply post_ret
  | |- post _ proc_windows.get _ _ => apply post_get
  | |- post _ (proc_windows.modify _) _ _ => apply post_modify
  | |- post _ proc_windows.getOut _ _ => apply post_getOut
  | |- post _ (proc_windows.putOut _) _ _ => apply post_putOut
  | |- post _ (proc_windows.now _) _ _ => apply post_now
  | |- post _ (proc_windows.sleep _ _) _ _ => apply post_sleep
  | |- post _ (proc_windows.syscall _ _) _ _ =>
      apply post_syscall;
      let E := fresh "H" in
      intros ? ? E;
      cbn [proc_windows.vars proc_windows.out proc_windows.world
           proc_windows.calls with_vars with_out called] in E
  | |- post _ (proc_windows.lift _) _ _ => apply post_lift
  | |- post _ (let (_, _) := ?p in _) _ _ => destruct p; cbv beta iota in * |-
  | |- post _ (if ?b then _ else _) _ _ => destruct b eqn:?
  | |- match ?e with Some _ => _ | None => _ end => destruct e
  end;
  cbv beta;
  cbn [proc_windows.vars proc_windows.out proc_windows.world
       proc_windows.calls with_vars with_out called].

Ltac steps := repeat step.

(** Closes [grows allowed m m'] when the calls of [m'] are those of [m]
    followed by explicit ones. *)
Ltac solve_grows :=
  eexists; split;
  [ cbn; rewrite <- ?app_assoc;
    first [reflexivity | symmetry; apply app_nil_r]
  | cbn; repeat constructor ].

Ltac solve_frame :=
  split; [repeat split | solve_grows].

Section Frames.

Context {W : Type} (os : proc_windows.OS W).

Lemma frame_called (m : (proc_windows.machine W)) (c : proc_windows.call) (w : W) :
  sampling_call c -> frame m (called c w m).
Proof.
  intros Hc. split; [apply same_session_refl|].
  eapply grows_one; [exact Hc|reflexivity].
Qed.

Lemma frame_with_out (m : (proc_windows.machine W)) (o : proc_windows.outputs) :
  frame m (with_out o m).
Proof. split; [apply same_session_refl|now apply grows_same_calls]. Qed.

Lemma frame_with_vars (m : (proc_windows.machine W)) (g : proc_windows.globals) :
  same_session (proc_windows.vars m) g -> frame m (with_vars g m).
Proof. intros H. split; [exact H|now apply grows_same_calls]. Qed.

Lemma pdhCollectQueryData_frame (h : proc_windows.PDH_HQUERY) (m : (proc_windows.machine W)) :
  post True (proc_windows.pdhCollectQueryData os h) m
       (fun _ m' => frame m m' /\ proc_windows.out m' = proc_windows.out m).
Proof.
  unfold proc_windows.pdhCollectQueryData. steps.
  all: split; [apply frame_called; exact I|reflexivity].
Qed.

Lemma getCounterArrayData_frame (c : proc_windows.PDH_HCOUNTER)
    (m : proc_windows.machine W) :
  post True (proc_windows.getCounterArrayData os c) m
       (fun _ m' => frame m m' /\ proc_windows.out m' = proc_windows.out m).
Proof.
  unfold proc_windows.getCounterArrayData,
    proc_windows.pdhGetFormattedCounterArrayDouble.
  steps.
  - destruct (proc_windows.copy_values _ _ _); [|exact I]. steps.
    split; [solve_frame|reflexivity].
  - split; [solve_frame|reflexivity].
  - split; [solve_frame|reflexivity].
  - split; [solve_frame|reflexivity].
Qed.

Ltac solve_chain :=
  first [ eassumption
        | apply frame_refl
        | eapply frame_trans; [eassumption|solve_chain] ].

(** Runs a callee through its frame lemma. *)
Ltac call_frame lem :=
  eapply post_mono; [apply lem|];
  let F := fresh "F" in
  let O := fresh "O" in
  intros ? ? [F O]; cbv beta;
  try match goal with
      | Fp : frame ?a ?b, Fn : frame ?b ?c |- _ =>
          pose proof (frame_trans _ _ _ Fp Fn); clear Fp Fn
      end.

(** A collection leaves the session in place, stamps the sample time, and
    when it succeeds the cache holds what the caller got. *)
Lemma sample_frame (m : proc_windows.machine W) :
  post True (proc_windows.sample os) m
       (fun res m' =>
          frame m m' /\
          proc_windows.lastSampleTime (proc_windows.vars m')
            = proc_windows.Now os (proc_windows.world m') /\
          (res = None -> cached (proc_windows.vars m') = proc_windows.out m')).
Proof.
  unfold proc_windows.sample.
  apply post_bind.
  apply (post_mono True _ m
           (fun res m' =>
              frame m m' /\
              (res = None ->
               cached (proc_windows.vars m') = proc_windows.out m'))).
  2:{ intros res m1 [F C]. steps. split; [|split].
      - eapply frame_trans; [exact F|]. apply frame_with_vars. repeat split.
      - reflexivity.
      - exact C. }
  steps. call_frame pdhCollectQueryData_frame.
  step; [split; [exact F|discriminate]|].
  steps. call_frame getCounterArrayData_frame.
  steps; [split; [solve_chain|discriminate]|].
  call_frame getCounterArrayData_frame.
  steps; [split; [solve_chain|discriminate]|].
  call_frame getCounterArrayData_frame.
  steps; [split; [solve_chain|discriminate]|].
  call_frame getCounterArrayData_frame.
  steps; [split; [solve_chain|discriminate]| |].
  - split; [solve_chain|discriminate].
  - destruct (proc_windows.at_int _ _) as [c|]; [|exact I]. steps.
    destruct (proc_windows.at_int _ _) as [r|]; [|exact I]. steps.
    destruct (proc_windows.at_int _ _) as [v|]; [|exact I]. steps.
    split; [|reflexivity].
    eapply frame_trans; [solve_chain|]. solve_frame.
Qed.

(** *** Initialization *)

(** [initCounters] never panics; it leaves the initialization mark, the
    cache and the caller's locations alone, records the process id, starts
    with [PdhOpenQuery], and when it succeeds it has made exactly the six
    calls: open, the four counters on the wildcarded image name, collect. *)
Lemma initCounters_spec (m : proc_windows.machine W) :
  post False (proc_windows.initCounters os) m
       (fun res m' =>
          let g := proc_windows.vars m' in
          let h := proc_windows.pcHandle g in
          let name := (proc_windows.getProcessExeName os ++ "*")%string in
          proc_windows.initialSample g
            = proc_windows.initialSample (proc_windows.vars m) /\
          cached g = cached (proc_windows.vars m) /\
          proc_windows.out m' = proc_windows.out m /\
          proc_windows.processPid g = proc_windows.Getpid os /\
          (exists cs,
              proc_windows.calls m'
                = proc_windows.calls m ++ proc_windows.PdhOpenQuery :: cs) /\
          (res = None ->
           proc_windows.calls m'
             = proc_windows.calls m ++
               [proc_windows.PdhOpenQuery;
                proc_windows.PdhAddCounterW h
                  ("\Process(" ++ name ++ ")\ID Process")%string;
                proc_windows.PdhAddCounterW h
                  ("\Process(" ++ name ++ ")\% Processor Time")%string;
                proc_windows.PdhAddCounterW h
                  ("\Process(" ++ name ++ ")\Working Set - Private")%string;
                proc_windows.PdhAddCounterW h
                  ("\Process(" ++ name ++ ")\Virtual Bytes")%string;
                proc_windows.PdhCollectQueryData h])).
Proof.
  unfold proc_windows.initCounters, proc_windows.pdhOpenQuery,
    proc_windows.pdhAddCounter, proc_windows.pdhCollectQueryData.
  cbv zeta. steps.
  all: cbn [proc_windows.initialSample proc_windows.processPid
            proc_windows.pcHandle cached proc_windows.prevCPU
            proc_windows.prevRss proc_windows.prevVss
            proc_windows.set_pcHandle proc_windows.set_processPid
            proc_windows.set_pidCounter proc_windows.set_cpuCounter
            proc_windows.set_rssCounter proc_windows.set_vssCounter].
  all: repeat split; try discriminate.
  all: try (rewrite <- ?app_assoc; cbn [app]; eexists; reflexivity).
  all: intros _; rewrite <- ?app_assoc; reflexivity.
Qed.

(** *** The three ways through [Usage] *)

Lemma Usage_cached (m : proc_windows.machine W) :
  proc_windows.initialSample (proc_windows.vars m) = false ->
  time.Since (proc_windows.Now os (proc_windows.world m))
             (proc_windows.lastSampleTime (proc_windows.vars m))
    < 2 * time.Second ->
  proc_windows.Usage os m
    = Return (None, with_out (cached (proc_windows.vars m)) m).
Proof.
  intros Hinit Hfresh. apply Z.ltb_lt in Hfresh.
  unfold proc_windows.Usage, proc_windows.bindS, proc_windows.get.
  rewrite Hinit. unfold proc_windows.now. rewrite Hfresh. reflexivity.
Qed.

Lemma Usage_init_failure (m m1 : proc_windows.machine W) (e : error) :
  proc_windows.initialSample (proc_windows.vars m) = true ->
  proc_windows.initCounters os m = Return (Some e, m1) ->
  proc_windows.Usage os m = Return (Some e, m1).
Proof.
  intros Hinit Hfail.
  unfold proc_windows.Usage, proc_windows.bindS, proc_windows.get,
    proc_windows.check.
  rewrite Hinit. unfold proc_windows.bindS. rewrite Hfail. reflexivity.
Qed.

Lemma Usage_collects (m m0 : proc_windows.machine W) :
  collects os m m0 -> proc_windows.Usage os m = proc_windows.sample os m0.
Proof.
  intros [[Hinit [Hstale ->]]|[Hinit [m1 [Hok ->]]]].
  - apply Z.ltb_ge in Hstale.
    unfold proc_windows.Usage, proc_windows.bindS, proc_windows.get.
    rewrite Hinit. unfold proc_windows.now. rewrite Hstale. reflexivity.
  - unfold proc_windows.Usage, proc_windows.bindS, proc_windows.get,
      proc_windows.check.
    rewrite Hinit. unfold proc_windows.bindS. rewrite Hok. reflexivity.
Qed.

(** Every run of [Usage] that returns went one of the three ways. *)
Lemma Usage_ways (m m' : proc_windows.machine W) (res : option error) :
  proc_windows.Usage os m = Return (res, m') ->
  (proc_windows.initialSample (proc_windows.vars m) = false /\
   time.Since (proc_windows.Now os (proc_windows.world m))
              (proc_windows.lastSampleTime (proc_windows.vars m))
     < 2 * time.Second) \/
  (proc_windows.initialSample (proc_windows.vars m) = true /\
   exists e, proc_windows.initCounters os m = Return (Some e, m') /\
             res = Some e) \/
  (exists m0, collects os m m0 /\
              proc_windows.sample os m0 = Return (res, m')).
Proof.
  intros Hrun.
  destruct (proc_windows.initialSample (proc_windows.vars m)) eqn:Hinit.
  - right.
    destruct (post_total _ _ _ (initCounters_spec m)) as [r [m1 [Hi _]]].
    destruct r as [e|].
    + left. split; [reflexivity|]. exists e.
      rewrite (Usage_init_failure m m1 e Hinit Hi) in Hrun.
      injection Hrun as <- <-. auto.
    + right. eexists. split.
      * right. split; [exact Hinit|]. exists m1. split; [exact Hi|reflexivity].
      * rewrite <- Hrun. symmetry. apply Usage_collects.
        right. split; [exact Hinit|]. exists m1. split; [exact Hi|reflexivity].
  - destruct (Z_lt_ge_dec
                (time.Since (proc_windows.Now os (proc_windows.world m))
                   (proc_windows.lastSampleTime (proc_windows.vars m)))
                (2 * time.Second)) as [Hlt|Hge].
    + left. auto.
    + right. right. exists m.
      assert (C : collects os m m) by (left; repeat split; [exact Hinit|lia]).
      split; [exact C|]. rewrite <- Hrun. symmetry. now apply Usage_collects.
Qed.

(** *** The search for the process id *)

Lemma find_pid_none (pidAry : list float) (pid k : Z) :
  (forall (i : nat) v, pidAry !! i = Some v -> Float64.to_int64 v <> pid) ->
  proc_windows.find_pid pidAry pid k = -1.
Proof.
  revert k. induction pidAry as [|v l IH]; intros k H; [reflexivity|].
  cbn [proc_windows.find_pid].
  destruct (Float64.to_int64 v =? pid) eqn:E.
  - apply Z.eqb_eq in E. exfalso. exact (H 0%nat v eq_refl E).
  - apply IH. intros i v' Hi. exact (H (S i) v' Hi).
Qed.

Lemma find_pid_first (pidAry : list float) (pid k : Z) (idx : nat) (v : float) :
  pidAry !! idx = Some v ->
  Float64.to_int64 v = pid ->
  (forall (j : nat) v', (j < idx)%nat -> pidAry !! j = Some v' ->
                        Float64.to_int64 v' <> pid) ->
  proc_windows.find_pid pidAry pid k = k + Z.of_nat idx.
Proof.
  revert k idx. induction pidAry as [|u l IH]; intros k idx Hv Hm Hfirst.
  - discriminate.
  - cbn [proc_windows.find_pid]. destruct idx as [|idx].
    + injection Hv as ->. apply Z.eqb_eq in Hm. rewrite Hm. lia.
    + destruct (Float64.to_int64 u =? pid) eqn:E.
      * apply Z.eqb_eq in E. exfalso.
        exact (Hfirst 0%nat u ltac:(lia) eq_refl E).
      * rewrite (IH (k + 1) idx Hv Hm); [lia|].
        intros j v' Hj Hl. apply (Hfirst (S j) v'); [lia|exact Hl].
Qed.

Lemma find_pid_range (pidAry : list float) (pid k : Z) :
  proc_windows.find_pid pidAry pid k = -1 \/
  k <= proc_windows.find_pid pidAry pid k < k + Z.of_nat (length pidAry).
Proof.
  revert k. induction pidAry as [|u l IH]; intros k; [left; reflexivity|].
  cbn [proc_windows.find_pid length].
  destruct (Float64.to_int64 u =? pid); [right; lia|].
  destruct (IH (k + 1)) as [H|H]; [left; exact H|right; lia].
Qed.

Lemma at_int_nat {A : Type} (a : list A) (i : nat) (x : A) :
  a !! i = Some x -> proc_windows.at_int a (Z.of_nat i) = Return x.
Proof.
  intros H. unfold proc_windows.at_int, index.
  replace (Z.of_nat i <? 0) with false by (symmetry; apply Z.ltb_ge; lia).
  rewrite Nat2Z.id, H. reflexivity.
Qed.

End Frames.

(** ** CounterSession: initialization *)

(** C8: [initCounters] always returns; when it returns an error, at whichever
    of its six pdh calls, the [Usage] call that ran it returns that error and
    the session is still marked uninitialized; a [Usage] call on an
    uninitialized session starts over with [PdhOpenQuery]; when
    [initCounters] succeeds the mark is cleared; and on an initialized
    session [Usage] keeps the mark cleared and makes no initialization
    call. *)
Theorem C8_init_retried_until_success {W : Type} (os : proc_windows.OS W)
    (m : proc_windows.machine W) :
  (exists res m1, proc_windows.initCounters os m = Return (res, m1)) /\
  (proc_windows.initialSample (proc_windows.vars m) = true ->
   forall e m1,
     proc_windows.initCounters os m = Return (Some e, m1) ->
     proc_windows.Usage os m = Return (Some e, m1) /\
     proc_windows.initialSample (proc_windows.vars m1) = true) /\
  (proc_windows.initialSample (proc_windows.vars m) = true ->
   forall res m',
     proc_windows.Usage os m = Return (res, m') ->
     exists cs,
       proc_windows.calls m'
         = proc_windows.calls m ++ proc_windows.PdhOpenQuery :: cs) /\
  (proc_windows.initialSample (proc_windows.vars m) = true ->
   forall m1 res m',
     proc_windows.initCounters os m = Return (None, m1) ->
     proc_windows.Usage os m = Return (res, m') ->
     proc_windows.initialSample (proc_windows.vars m') = false) /\
  (proc_windows.initialSample (proc_windows.vars m) = false ->
   forall res m',
     proc_windows.Usage os m = Return (res, m') ->
     proc_windows.initialSample (proc_windows.vars m') = false /\
     exists cs,
       proc_windows.calls m' = proc_windows.calls m ++ cs /\
       Forall (fun c => ~ init_call c) cs).
Proof.
  split; [|split; [|split; [|split]]].
  - destruct (post_total _ _ _ (initCounters_spec os m)) as [r [m1 [E _]]].
    eauto.
  - intros Hinit e m1 Hfail. split.
    + now apply Usage_init_failure.
    + pose proof (post_run _ _ _ _ _ _ (initCounters_spec os m) Hfail) as S.
      cbv zeta in S. destruct S as [S _]. congruence.
  - intros Hinit res m' Hrun.
    destruct (Usage_ways os m m' res Hrun)
      as [[Hf _]|[[_ [e [Hfail _]]]|[m0 [C Hs]]]].
    + congruence.
    + pose proof (post_run _ _ _ _ _ _ (initCounters_spec os m) Hfail) as S.
      cbv zeta in S. destruct S as [_ [_ [_ [_ [S _]]]]]. exact S.
    + destruct C as [[Hf _]|[_ [m1 [Hok ->]]]]; [congruence|].
      pose proof (post_run _ _ _ _ _ _ (initCounters_spec os m) Hok) as S.
      cbv zeta in S. destruct S as [_ [_ [_ [_ [[cs1 E1] _]]]]].
      pose proof (post_run _ _ _ _ _ _ (sample_frame os _) Hs) as F.
      destruct F as [[_ [cs2 [E2 _]]] _].
      cbn [proc_windows.calls with_vars] in E2.
      exists (cs1 ++ cs2). rewrite E2, E1, <- app_assoc. reflexivity.
  - intros Hinit m1 res m' Hok Hrun.
    assert (C : collects os m
                  (with_vars (proc_windows.set_initialSample false
                                (proc_windows.vars m1)) m1)).
    { right. split; [exact Hinit|]. exists m1. auto. }
    rewrite (Usage_collects os m _ C) in Hrun.
    pose proof (post_run _ _ _ _ _ _ (sample_frame os _) Hrun) as F.
    destruct F as [[S _] _]. unfold same_session in S.
    cbn [proc_windows.vars with_vars proc_windows.initialSample
         proc_windows.set_initialSample] in S. tauto.
  - intros Hinit res m' Hrun.
    destruct (Usage_ways os m m' res Hrun)
      as [[_ Hlt]|[[Ht _]|[m0 [C Hs]]]].
    + rewrite (Usage_cached os m Hinit Hlt) in Hrun.
      injection Hrun as _ <-. split; [exact Hinit|].
      exists []. split; [symmetry; apply app_nil_r|constructor].
    + congruence.
    + destruct C as [[_ [_ ->]]|[Ht _]]; [|congruence].
      pose proof (post_run _ _ _ _ _ _ (sample_frame os _) Hs) as F.
      destruct F as [[S [cs [E Hcs]]] _]. unfold same_session in S. split.
      * destruct S as [_ [_ [_ [_ [_ [_ S]]]]]]. congruence.
      * exists cs. split; [exact E|].
        eapply Forall_impl; [exact Hcs|].
        intros c Hc Hi. destruct c; cbn in Hc, Hi; tauto.
Qed.

Lemma C8_witness :
  proc_windows.Usage scenario.os (scenario.failing 2)
    = Return (Some "pdhAddCounter failed. 7",
              state_of (proc_windows.initCounters scenario.os
                          (scenario.failing 2))
                       (scenario.failing 2)) /\
  proc_windows.initialSample
    (proc_windows.vars
       (state_of (proc_windows.initCounters scenario.os (scenario.failing 2))
                 (scenario.failing 2))) = true.
Proof.
  destruct (C8_init_retried_until_success scenario.os (scenario.failing 2))
    as [_ [H _]].
  apply H; [reflexivity|]. vm_compute. reflexivity.
Defined.

(** Each of the six initialization calls, failing in turn, fails the
    [Usage] call and leaves the session uninitialized; the next call then
    initializes it. *)
Example init_fails_at_each_step :
  map (fun k =>
         match proc_windows.Usage scenario.os (scenario.failing k) with
         | Return (res, m') =>
             (res, proc_windows.initialSample (proc_windows.vars m'),
              match proc_windows.Usage scenario.os
                      (sim.later sim.ms scenario.rowsA [] m') with
              | Return (res2, m'') =>
                  (res2, proc_windows.initialSample (proc_windows.vars m''))
              | Panic _ => (None, true)
              end)
         | Panic _ => (None, false, (None, true))
         end)
      [0; 1; 2; 3; 4; 5]%nat
  = [(Some "pdhOpenQuery failed - 7", true, (None, false));
     (Some "pdhAddCounter failed. 7", true, (None, false));
     (Some "pdhAddCounter failed. 7", true, (None, false));
     (Some "pdhAddCounter failed. 7", true, (None, false));
     (Some "pdhAddCounter failed. 7", true, (None, false));
     (Some "pdhCollectQueryData failed - 7", true, (None, false))].
Proof. vm_compute. reflexivity. Qed.

(** ** CounterSession: the two-second cache *)

(** C4, as the code has it: on an initialized session a [Usage] call made
    less than two seconds after the stored sample time returns the cached
    snapshot and changes nothing else: no pdh call is made, the host and the
    package variables are as before.  A [Usage] call that takes a fresh
    sample successfully leaves the session initialized, the sample time at
    the time of its return and the cache equal to what it handed out; so a
    call made less than two seconds after it returns the same snapshot. *)
Theorem C4_cached_within_two_seconds {W : Type} (os : proc_windows.OS W)
    (m : proc_windows.machine W) :
  (proc_windows.initialSample (proc_windows.vars m) = false ->
   time.Since (proc_windows.Now os (proc_windows.world m))
              (proc_windows.lastSampleTime (proc_windows.vars m))
     < 2 * time.Second ->
   proc_windows.Usage os m
     = Return (None, with_out (cached (proc_windows.vars m)) m)) /\
  (forall m0 m',
     collects os m m0 ->
     proc_windows.Usage os m = Return (None, m') ->
     proc_windows.initialSample (proc_windows.vars m') = false /\
     proc_windows.lastSampleTime (proc_windows.vars m')
       = proc_windows.Now os (proc_windows.world m') /\
     cached (proc_windows.vars m') = proc_windows.out m' /\
     forall m2,
       proc_windows.vars m2 = proc_windows.vars m' ->
       time.Since (proc_windows.Now os (proc_windows.world m2))
                  (proc_windows.Now os (proc_windows.world m'))
         < 2 * time.Second ->
       proc_windows.Usage os m2
         = Return (None, with_out (proc_windows.out m') m2)).
Proof.
  split; [apply Usage_cached|].
  intros m0 m' C Hrun.
  rewrite (Usage_collects os m m0 C) in Hrun.
  pose proof (post_run _ _ _ _ _ _ (sample_frame os m0) Hrun)
    as [[S _] [Ht Hc]].
  specialize (Hc eq_refl).
  assert (Hi : proc_windows.initialSample (proc_windows.vars m') = false).
  { destruct S as [_ [_ [_ [_ [_ [_ S]]]]]]. rewrite S.
    destruct C as [[Hi [_ ->]]|[_ [m1 [_ ->]]]]; [exact Hi|reflexivity]. }
  repeat split; try assumption.
  intros m2 Hv Hlt. rewrite <- Hc, <- Hv. apply Usage_cached.
  - rewrite Hv. exact Hi.
  - rewrite Hv, Ht. exact Hlt.
Qed.

(** The second call of the scenario, 1.9 s after the first, is served from
    the cache although the host already reports other figures. *)
Lemma C4_witness :
  proc_windows.Usage scenario.os scenario.call2
    = Return (None,
              with_out (cached (proc_windows.vars scenario.call2))
                       scenario.call2) /\
  cached (proc_windows.vars scenario.call2)
    = {| proc_windows.pcpu := 12.5%float;
         proc_windows.rss := 1000000;
         proc_windows.vss := 2000000 |}.
Proof.
  split.
  - apply (proj1 (C4_cached_within_two_seconds scenario.os scenario.call2)).
    + vm_compute. reflexivity.
    + vm_compute. reflexivity.
  - vm_compute. reflexivity.
Defined.

(** C4 as stated fails: the second and the third call of the scenario are
    1.9 s apart and both succeed, but the second is served from the cache
    while the third, 3.8 s after the sample, collects again; their snapshots
    differ. *)
Lemma C4_counterexample :
  proc_windows.vars scenario.call3 = proc_windows.vars scenario.m2 /\
  proc_windows.Now scenario.os (proc_windows.world scenario.call3)
  - proc_windows.Now scenario.os (proc_windows.world scenario.call2)
    < 2 * time.Second /\
  proc_windows.Usage scenario.os scenario.call2 = Return (None, scenario.m2) /\
  proc_windows.Usage scenario.os scenario.call3 = Return (None, scenario.m3) /\
  proc_windows.rss (proc_windows.out scenario.m2) = 1000000 /\
  proc_windows.rss (proc_windows.out scenario.m3) = 3000000 /\
  proc_windows.out scenario.m2 <> proc_windows.out scenario.m3.
Proof.
  split; [vm_compute; reflexivity|]. split; [vm_compute; reflexivity|].
  split; [vm_compute; reflexivity|]. split; [vm_compute; reflexivity|].
  split; [vm_compute; reflexivity|]. split; [vm_compute; reflexivity|].
  intros E.
  assert (R : proc_windows.rss (proc_windows.out scenario.m2)
              = proc_windows.rss (proc_windows.out scenario.m3))
    by (rewrite E; reflexivity).
  vm_compute in R. discriminate R.
Qed.

(** ** CounterSession: resolving the arrays *)

(** What the tail of [sample] does with the four arrays. *)
Lemma sample_resolved {W : Type} (os : proc_windows.OS W)
    (m0 m1 m2 m3 m4 m5 : proc_windows.machine W)
    (pidAry cpuAry rssAry vssAry : list float) :
  proc_windows.pdhCollectQueryData os
    (proc_windows.pcHandle (proc_windows.vars m0)) m0 = Return (None, m1) ->
  proc_windows.getCounterArrayData os
    (proc_windows.pidCounter (proc_windows.vars m1)) m1
    = Return ((pidAry, None), m2) ->
  proc_windows.getCounterArrayData os
    (proc_windows.cpuCounter (proc_windows.vars m2)) m2
    = Return ((cpuAry, None), m3) ->
  proc_windows.getCounterArrayData os
    (proc_windows.rssCounter (proc_windows.vars m3)) m3
    = Return ((rssAry, None), m4) ->
  proc_windows.getCounterArrayData os
    (proc_windows.vssCounter (proc_windows.vars m4)) m4
    = Return ((vssAry, None), m5) ->
  proc_windows.sample os m0 =
    let stamp := proc_windows.set_lastSampleTime
                   (proc_windows.Now os (proc_windows.world m5)) in
    let idx := proc_windows.find_pid pidAry
                 (proc_windows.processPid (proc_windows.vars m5)) 0 in
    if idx <? 0 then
      Return (Some "could not find pid in performance counter results",
              with_vars (stamp (proc_windows.vars m5)) m5)
    else
      c <- proc_windows.at_int cpuAry idx ;;
      r <- proc_windows.at_int rssAry idx ;;
      v <- proc_windows.at_int vssAry idx ;;
      Return (None,
              with_vars
                (stamp (proc_windows.set_prev c (Float64.to_int64 r)
                          (Float64.to_int64 v) (proc_windows.vars m5)))
                (with_out {| proc_windows.pcpu := c;
                             proc_windows.rss := Float64.to_int64 r;
                             proc_windows.vss := Float64.to_int64 v |} m5)).
Proof.
  intros H1 H2 H3 H4 H5. cbv zeta.
  unfold proc_windows.sample, proc_windows.check.
  unfold proc_windows.bindS at 1 2 3 4. unfold proc_windows.get at 1.
  rewrite H1. unfold proc_windows.bindS at 1 2 3. unfold proc_windows.get at 1.
  rewrite H2.
  unfold proc_windows.bindS at 1 2 3. unfold proc_windows.ret at 1.
  unfold proc_windows.get at 1. rewrite H3.
  unfold proc_windows.bindS at 1 2 3. unfold proc_windows.ret at 1.
  unfold proc_windows.get at 1. rewrite H4.
  unfold proc_windows.bindS at 1 2 3. unfold proc_windows.ret at 1.
  unfold proc_windows.get at 1. rewrite H5.
  unfold proc_windows.bindS at 1 2. unfold proc_windows.ret at 1.
  unfold proc_windows.get at 1.
  destruct (proc_windows.find_pid pidAry _ 0 <? 0).
  - reflexivity.
  - unfold proc_windows.bindS, proc_windows.lift.
    destruct (proc_windows.at_int cpuAry _) as [c|]; [|reflexivity].
    cbn [proc_windows.getOut proc_windows.putOut bind].
    destruct (proc_windows.at_int rssAry _) as [r|]; [|reflexivity].
    cbn [bind].
    destruct (proc_windows.at_int vssAry _) as [v|]; reflexivity.
Qed.

(** C7: when a [Usage] call collects afresh and obtains the four arrays, it
    looks for the first index of the PID array whose entry, converted to an
    integer, is the process id.  With no such index it returns the
    pid-not-found error and stores nothing in the caller's locations; with
    one, it returns the entries of the CPU, RSS and VSS arrays at that same
    index (the last two converted to int64) and caches them. *)
Theorem C7_pid_lookup {W : Type} (os : proc_windows.OS W)
    (m m0 m1 m2 m3 m4 m5 : proc_windows.machine W)
    (pidAry cpuAry rssAry vssAry : list float) :
  collects os m m0 ->
  proc_windows.pdhCollectQueryData os
    (proc_windows.pcHandle (proc_windows.vars m0)) m0 = Return (None, m1) ->
  proc_windows.getCounterArrayData os
    (proc_windows.pidCounter (proc_windows.vars m1)) m1
    = Return ((pidAry, None), m2) ->
  proc_windows.getCounterArrayData os
    (proc_windows.cpuCounter (proc_windows.vars m2)) m2
    = Return ((cpuAry, None), m3) ->
  proc_windows.getCounterArrayData os
    (proc_windows.rssCounter (proc_windows.vars m3)) m3
    = Return ((rssAry, None), m4) ->
  proc_windows.getCounterArrayData os
    (proc_windows.vssCounter (proc_windows.vars m4)) m4
    = Return ((vssAry, None), m5) ->
  let pid := proc_windows.processPid (proc_windows.vars m5) in
  let stamp := proc_windows.set_lastSampleTime
                 (proc_windows.Now os (proc_windows.world m5)) in
  (proc_windows.initialSample (proc_windows.vars m) = true ->
   pid = proc_windows.Getpid os) /\
  ((forall (i : nat) v, pidAry !! i = Some v -> Float64.to_int64 v <> pid) ->
   proc_windows.Usage os m
     = Return (Some "could not find pid in performance counter results",
               with_vars (stamp (proc_windows.vars m5)) m5) /\
   proc_windows.out m5 = proc_windows.out m) /\
  (forall (idx : nat) (p c r v : float),
     pidAry !! idx = Some p ->
     Float64.to_int64 p = pid ->
     (forall (j : nat) p', (j < idx)%nat -> pidAry !! j = Some p' ->
                           Float64.to_int64 p' <> pid) ->
     cpuAry !! idx = Some c ->
     rssAry !! idx = Some r ->
     vssAry !! idx = Some v ->
     let snap := {| proc_windows.pcpu := c;
                    proc_windows.rss := Float64.to_int64 r;
                    proc_windows.vss := Float64.to_int64 v |} in
     proc_windows.Usage os m
       = Return (None,
                 with_vars
                   (stamp (proc_windows.set_prev c (Float64.to_int64 r)
                             (Float64.to_int64 v) (proc_windows.vars m5)))
                   (with_out snap m5))).
Proof.
  intros C H1 H2 H3 H4 H5 pid stamp.
  pose proof (sample_resolved os m0 m1 m2 m3 m4 m5 _ _ _ _ H1 H2 H3 H4 H5)
    as Hs.
  cbv zeta in Hs. fold pid in Hs. fold stamp in Hs.
  rewrite <- (Usage_collects os m m0 C) in Hs.
  pose proof (post_run _ _ _ _ _ _ (pdhCollectQueryData_frame os _ m0) H1)
    as [[S1 _] O1].
  pose proof (post_run _ _ _ _ _ _ (getCounterArrayData_frame os _ m1) H2)
    as [[S2 _] O2].
  pose proof (post_run _ _ _ _ _ _ (getCounterArrayData_frame os _ m2) H3)
    as [[S3 _] O3].
  pose proof (post_run _ _ _ _ _ _ (getCounterArrayData_frame os _ m3) H4)
    as [[S4 _] O4].
  pose proof (post_run _ _ _ _ _ _ (getCounterArrayData_frame os _ m4) H5)
    as [[S5 _] O5].
  split; [|split].
  - intros Hinit. unfold pid.
    destruct C as [[Hf _]|[_ [mi [Hok ->]]]]; [congruence|].
    pose proof (post_run _ _ _ _ _ _ (initCounters_spec os m) Hok) as Si.
    cbv zeta in Si. destruct Si as [_ [_ [_ [Hp _]]]].
    unfold same_session in S1, S2, S3, S4, S5.
    cbn [proc_windows.vars with_vars proc_windows.processPid
         proc_windows.set_initialSample] in S1.
    intuition congruence.
  - intros Hnone. split.
    + rewrite Hs. rewrite (find_pid_none pidAry pid 0 Hnone). reflexivity.
    + rewrite O5, O4, O3, O2, O1.
      destruct C as [[_ [_ ->]]|[_ [mi [Hok ->]]]]; [reflexivity|].
      pose proof (post_run _ _ _ _ _ _ (initCounters_spec os m) Hok) as Si.
      cbv zeta in Si. destruct Si as [_ [_ [Ho _]]]. exact Ho.
  - intros idx p c r v Hp Hm Hfirst Hc Hr Hv snap.
    rewrite Hs. rewrite (find_pid_first pidAry pid 0 idx p Hp Hm Hfirst).
    rewrite Z.add_0_l.
    replace (Z.of_nat idx <? 0) with false by (symmetry; apply Z.ltb_ge; lia).
    rewrite (at_int_nat cpuAry idx c Hc), (at_int_nat rssAry idx r Hr),
      (at_int_nat vssAry idx v Hv).
    reflexivity.
Qed.

(** The first call of the scenario: the process is the second instance
    listed, and gets the second entry of each array. *)
Lemma C7_witness :
  proc_windows.Usage scenario.os scenario.m0
    = Return (None,
              with_vars
                (proc_windows.set_lastSampleTime
                   (proc_windows.Now scenario.os
                      (proc_windows.world scenario.s5))
                   (proc_windows.set_prev 12.5%float 1000000 2000000
                      (proc_windows.vars scenario.s5)))
                (with_out {| proc_windows.pcpu := 12.5%float;
                             proc_windows.rss := 1000000;
                             proc_windows.vss := 2000000 |}
                          scenario.s5)).
Proof.
  refine (proj2 (proj2
    (C7_pid_lookup scenario.os scenario.m0 scenario.s0 scenario.s1
       scenario.s2 scenario.s3 scenario.s4 scenario.s5
       [100%float; 4242%float] [1.5%float; 12.5%float]
       [4096%float; 1000000%float] [8192%float; 2000000%float]
       _ _ _ _ _ _))
    1%nat 4242%float 12.5%float 1000000%float 2000000%float
    eq_refl _ _ eq_refl eq_refl eq_refl).
  - right. split; [reflexivity|]. exists scenario.mi.
    split; [vm_compute; reflexivity|reflexivity].
  - vm_compute. reflexivity.
  - vm_compute. reflexivity.
  - vm_compute. reflexivity.
  - vm_compute. reflexivity.
  - vm_compute. reflexivity.
  - vm_compute. reflexivity.
  - intros j p' Hj Hp'. destruct j as [|j]; [|lia].
    injection Hp' as <-. vm_compute. discriminate.
Defined.

(** A first call that does not find the process among the instances fails
    with the pid-not-found error; a call three seconds later, the process
    now listed, succeeds. *)
Example pid_absent_then_present :
  let os := sim.os 4242 "nats-server.exe" in
  let absent := [(100%float, 1.5%float, 4096%float, 8192%float)] in
  match proc_windows.Usage os (sim.boot absent []) with
  | Return (res, m') =>
      res = Some "could not find pid in performance counter results" /\
      proc_windows.out m' = proc_windows.out (sim.boot absent []) /\
      match proc_windows.Usage os
              (sim.later (3000 * sim.ms) scenario.rowsA [] m') with
      | Return (res2, m'') =>
          res2 = None /\
          proc_windows.rss (proc_windows.out m'') = 1000000
      | Panic _ => False
      end
  | Panic _ => False
  end.
Proof. vm_compute. repeat split. Qed.

(** ** CounterSession: the image name *)

Lemma string_app_assoc (a b c : string) :
  ((a ++ b) ++ c = a ++ (b ++ c))%string.
Proof.
  induction a as [|x a IH]; [reflexivity|].
  cbn [String.append]. rewrite IH. reflexivity.
Qed.

Lemma contains_exe (c : ascii) :
  strings.contains c ".exe" = true <->
  c = "."%char \/ c = "e"%char \/ c = "x"%char.
Proof.
  cbn [strings.contains]. rewrite !orb_true_iff, !Ascii.eqb_eq.
  intuition discriminate.
Qed.

Lemma TrimRight_all (t cutset : string) :
  (forall c, In c (list_ascii_of_string t) ->
             strings.contains c cutset = true) ->
  strings.TrimRight t cutset = EmptyString.
Proof.
  induction t as [|a t IH]; intros H; [reflexivity|].
  cbn [strings.TrimRight]. rewrite IH.
  - rewrite (H a); [reflexivity|]. left. reflexivity.
  - intros c Hc. apply H. right. exact Hc.
Qed.

Lemma TrimRight_app (s t cutset : string) :
  (forall c, In c (list_ascii_of_string t) ->
             strings.contains c cutset = true) ->
  strings.TrimRight (s ++ t) cutset = strings.TrimRight s cutset.
Proof.
  intros H. induction s as [|a s IH].
  - cbn [String.append]. rewrite (TrimRight_all t cutset H). reflexivity.
  - cbn [String.append strings.TrimRight]. rewrite IH. reflexivity.
Qed.

Lemma TrimRight_split (s cutset : string) :
  exists suffix,
    s = (strings.TrimRight s cutset ++ suffix)%string /\
    forall c, In c (list_ascii_of_string suffix) ->
              strings.contains c cutset = true.
Proof.
  induction s as [|a s [suf [E H]]].
  - exists EmptyString. split; [reflexivity|]. intros c [].
  - cbn [strings.TrimRight].
    destruct (strings.TrimRight s cutset) as [|k ks] eqn:T.
    + cbn [String.append] in E. subst suf.
      destruct (strings.contains a cutset) eqn:Ha.
      * exists (String a s). split; [reflexivity|].
        intros c [<-|Hc]; [exact Ha|apply H; exact Hc].
      * exists s. split; [reflexivity|exact H].
    + exists suf. split; [|exact H].
      cbn [String.append] in *. rewrite E at 1. reflexivity.
Qed.

Lemma TrimRight_last (s cutset pre : string) (c : ascii) :
  strings.TrimRight s cutset = (pre ++ String c EmptyString)%string ->
  strings.contains c cutset = false.
Proof.
  revert pre. induction s as [|a s IH]; intros pre E.
  - destruct pre; discriminate.
  - cbn [strings.TrimRight] in E.
    destruct (strings.TrimRight s cutset) as [|k ks] eqn:T.
    + destruct (strings.contains a cutset) eqn:Ha.
      * destruct pre; discriminate.
      * destruct pre as [|b pre]; cbn [String.append] in E.
        -- injection E as ->. exact Ha.
        -- injection E as _ E. destruct pre; discriminate.
    + destruct pre as [|b pre]; cbn [String.append] in E.
      * discriminate.
      * injection E as _ E. apply (IH pre). exact E.
Qed.

Lemma TrimRight_length (s cutset : string) :
  (String.length (strings.TrimRight s cutset) <= String.length s)%nat.
Proof.
  induction s as [|a s IH]; [reflexivity|].
  cbn [strings.TrimRight].
  destruct (strings.TrimRight s cutset) as [|k ks].
  - destruct (strings.contains a cutset); cbn [String.length]; lia.
  - cbn [String.length] in *. lia.
Qed.

(** C10: [getProcessExeName] is the base name of argv[0] without its longest
    suffix made of the characters '.', 'e' and 'x': what is cut off consists
    of these characters only and what is left does not end in one of them.
    Hence a base name [stem ++ c ++ ".exe"] with [c] one of the three loses
    more than the literal ".exe": the result is the trimmed [stem], shorter
    than [stem ++ c]; and that name, followed by "*", is the one in the
    counter paths. *)
Theorem C10_exe_name_trimmed_by_cutset {W : Type} (os : proc_windows.OS W) :
  let base := proc_windows.Base os (proc_windows.Args0 os) in
  let name := proc_windows.getProcessExeName os in
  (exists suffix,
      base = (name ++ suffix)%string /\
      forall c, In c (list_ascii_of_string suffix) ->
                c = "."%char \/ c = "e"%char \/ c = "x"%char) /\
  (forall pre c,
      name = (pre ++ String c EmptyString)%string ->
      c <> "."%char /\ c <> "e"%char /\ c <> "x"%char) /\
  (forall stem c,
      c = "."%char \/ c = "e"%char \/ c = "x"%char ->
      base = (stem ++ String c ".exe")%string ->
      name = strings.TrimRight stem ".exe" /\
      (String.length name <= String.length stem)%nat /\
      name <> (stem ++ String c EmptyString)%string) /\
  (forall m m',
      proc_windows.initCounters os m = Return (None, m') ->
      exists h,
        proc_windows.calls m'
          = proc_windows.calls m ++
            [proc_windows.PdhOpenQuery;
             proc_windows.PdhAddCounterW h
               ("\Process(" ++ name ++ "*)\ID Process")%string;
             proc_windows.PdhAddCounterW h
               ("\Process(" ++ name ++ "*)\% Processor Time")%string;
             proc_windows.PdhAddCounterW h
               ("\Process(" ++ name ++ "*)\Working Set - Private")%string;
             proc_windows.PdhAddCounterW h
               ("\Process(" ++ name ++ "*)\Virtual Bytes")%string;
             proc_windows.PdhCollectQueryData h]).
Proof.
  intros base name. unfold name, proc_windows.getProcessExeName. fold base.
  split; [|split; [|split]].
  - destruct (TrimRight_split base ".exe") as [suf [E H]].
    exists suf. split; [exact E|].
    intros c Hc. apply contains_exe. apply H. exact Hc.
  - intros pre c E. apply TrimRight_last in E.
    repeat split; intros ->; discriminate E.
  - intros stem c Hc E.
    assert (T : strings.TrimRight base ".exe" = strings.TrimRight stem ".exe").
    { rewrite E. apply TrimRight_app.
      intros d [<-|Hd]; [apply contains_exe; exact Hc|].
      cbn in Hd. apply contains_exe.
      destruct Hd as [<-|[<-|[<-|[<-|[]]]]]; auto. }
    rewrite T. split; [reflexivity|]. split; [apply TrimRight_length|].
    intros Habs. apply TrimRight_last in Habs. apply contains_exe in Hc.
    congruence.
  - intros m m' Hok.
    pose proof (post_run _ _ _ _ _ _ (initCounters_spec os m) Hok) as S.
    cbv zeta in S. destruct S as [_ [_ [_ [_ [_ S]]]]].
    eexists. rewrite (S eq_refl).
    unfold proc_windows.getProcessExeName. fold base.
    rewrite !string_app_assoc. reflexivity.
Qed.

(** node.exe is counted as "nod", and an image called exe.exe has no name
    left at all. *)
Lemma C10_witness :
  proc_windows.getProcessExeName (sim.os 4242 "node.exe") = "nod" /\
  proc_windows.getProcessExeName (sim.os 4242 "exe.exe") = "".
Proof.
  split.
  - destruct (C10_exe_name_trimmed_by_cutset (sim.os 4242 "node.exe"))
      as [_ [_ [H _]]].
    destruct (H "nod" "e"%char) as [E _].
    + right. left. reflexivity.
    + reflexivity.
    + exact E.
  - destruct (C10_exe_name_trimmed_by_cutset (sim.os 4242 "exe.exe"))
      as [_ [_ [H _]]].
    destruct (H "ex" "e"%char) as [E _].
    + right. left. reflexivity.
    + reflexivity.
    + exact E.
Defined.

(** ** No panic on well-formed input *)

Lemma copy_values_total (buf : list proc_windows.PDH_FMT_COUNTER_VALUE_ITEM_DOUBLE)
    (k : nat) :
  forall i0, 0 <= i0 -> i0 + Z.of_nat k <= proc_windows.maxQuerySize ->
  exists rv, proc_windows.copy_values buf i0 k = Return rv /\ length rv = k.
Proof.
  induction k as [|k IH]; intros i0 H0 Hk.
  - exists []. split; reflexivity.
  - cbn [proc_windows.copy_values]. unfold proc_windows.item_at.
    replace ((0 <=? i0) && (i0 <? proc_windows.maxQuerySize)) with true.
    2:{ symmetry. apply andb_true_iff. split.
        - apply Z.leb_le. lia.
        - apply Z.ltb_lt. lia. }
    cbn [bind].
    destruct (IH (i0 + 1)) as [rv [E L]]; [lia|lia|].
    rewrite E. cbn [bind]. eexists. split; [reflexivity|].
    cbn [length]. rewrite L. reflexivity.
Qed.

(** Brings in what alignment says about the fetch just made. *)
Ltac use_aligned os Haligned :=
  match goal with
  | E : proc_windows.GetFormattedCounterArray os ?c ?s ?k ?w0 = _ |- _ =>
      let A := fresh "A" in
      pose proof (Haligned c s k w0) as A; rewrite E in A; clear E
  end.

Section Aligned.

Context {W : Type} (os : proc_windows.OS W) (n : W -> Z).
Hypothesis Haligned : aligned os n.

(** On an aligned host a fetch never panics and hands back as many values
    as there are instances. *)
Lemma getCounterArrayData_aligned (c : proc_windows.PDH_HCOUNTER)
    (m : proc_windows.machine W) :
  post False (proc_windows.getCounterArrayData os c) m
       (fun a m' =>
          n (proc_windows.world m') = n (proc_windows.world m) /\
          (snd a = None ->
           Z.of_nat (length (fst a)) = n (proc_windows.world m))).
Proof.
  unfold proc_windows.getCounterArrayData,
    proc_windows.pdhGetFormattedCounterArrayDouble.
  repeat (step; try use_aligned os Haligned).
  all: repeat match goal with A : _ /\ _ |- _ => destruct A end.
  all: cbn [fst snd length].
  - match goal with
    | Hb : (uint32 ?r =? 0) = true, A : uint32 ?r = 0 -> _ |- _ =>
        apply Z.eqb_eq in Hb; destruct (A Hb) as [Ec [Hle _]]
    end.
    match goal with
    | |- context [proc_windows.copy_values ?b 0 (Z.to_nat (uint32 ?k))] =>
        assert (0 <= uint32 k)
          by (unfold uint32; apply Z.mod_pos_bound; lia);
        destruct (copy_values_total b (Z.to_nat (uint32 k)) 0)
          as [rv [E L]]; [lia|lia|];
        rewrite E
    end.
    steps. cbn [fst snd]. split; [congruence|].
    intros _. rewrite L. lia.
  - split; [congruence|discriminate].
  - split; [congruence|discriminate].
  - split; [assumption|]. intros _.
    match goal with
    | Hb : negb (uint32 ?r =? 0) = false, A : uint32 ?r = 0 -> _ |- _ =>
        apply negb_false_iff, Z.eqb_eq in Hb;
        destruct (A Hb) as [_ [_ Hz]]
    end.
    rewrite Hz; reflexivity.
Qed.

Lemma sample_total (m : proc_windows.machine W) :
  post False (proc_windows.sample os) m (fun _ _ => True).
Proof.
  unfold proc_windows.sample, proc_windows.pdhCollectQueryData.
  steps; try exact I.
  eapply post_mono; [apply getCounterArrayData_aligned|].
  intros [pidAry e1] m1 [N1 L1]. steps; [exact I|].
  eapply post_mono; [apply getCounterArrayData_aligned|].
  intros [cpuAry e2] m2 [N2 L2]. steps; [exact I|].
  eapply post_mono; [apply getCounterArrayData_aligned|].
  intros [rssAry e3] m3 [N3 L3]. steps; [exact I|].
  eapply post_mono; [apply getCounterArrayData_aligned|].
  intros [vssAry e4] m4 [N4 L4]. steps; [exact I|exact I|].
  cbn [fst snd] in *.
  specialize (L1 eq_refl). specialize (L2 eq_refl).
  specialize (L3 eq_refl). specialize (L4 eq_refl).
  match goal with
  | Hb : (_ <? 0) = false |- _ => apply Z.ltb_ge in Hb
  end.
  destruct (find_pid_range pidAry
              (proc_windows.processPid (proc_windows.vars m4)) 0)
    as [Hm|Hr]; [lia|].
  set (idx := proc_windows.find_pid pidAry _ 0) in *.
  assert (Hat : forall arr : list float,
             Z.of_nat (length arr) = Z.of_nat (length pidAry) ->
             exists x, proc_windows.at_int arr idx = Return x).
  { intros arr La. unfold proc_windows.at_int, index.
    replace (idx <? 0) with false by (symmetry; apply Z.ltb_ge; lia).
    destruct (lookup_lt_is_Some_2 arr (Z.to_nat idx)) as [x Hx]; [lia|].
    rewrite Hx. eauto. }
  destruct (Hat cpuAry) as [c ->]; [congruence|]. steps.
  destruct (Hat rssAry) as [r ->]; [congruence|]. steps.
  destruct (Hat vssAry) as [v ->]; [congruence|]. steps.
  exact I.
Qed.

Lemma Usage_total (m : proc_windows.machine W) :
  exists res m', proc_windows.Usage os m = Return (res, m').
Proof.
  assert (T : post False (proc_windows.Usage os) m (fun _ _ => True)).
  { unfold proc_windows.Usage. steps.
    - eapply post_mono; [apply initCounters_spec|].
      intros [e|] m1 _; [exact I|]. steps. apply sample_total.
    - exact I.
    - apply sample_total. }
  destruct (post_total _ _ _ T) as [res [m' [E _]]]. eauto.
Qed.

End Aligned.

Lemma sim_aligned (pid : Z) (args0 : string) :
  aligned (sim.os pid args0) sim.listed.
Proof.
  intros h size count w.
  cbn [sim.os proc_windows.GetFormattedCounterArray]. cbv zeta.
  assert (Hn : 0 <= sim.listed w <= 512).
  { unfold sim.listed. rewrite length_firstn.
    change (Z.to_nat proc_windows.maxQuerySize) with 512%nat. lia. }
  destruct (negb (uint32 (sim.fault w) =? 0)) eqn:Ef; cbv beta iota.
  - split; [reflexivity|]. intros Hz.
    apply negb_true_iff, Z.eqb_neq in Ef. contradiction.
  - destruct (size <? 24 * sim.listed w) eqn:Es; cbv beta iota.
    + split; [reflexivity|]. intros Hz. vm_compute in Hz. discriminate.
    + split; [reflexivity|]. intros _. apply Z.ltb_ge in Es.
      split; [|split].
      * unfold uint32. apply Z.mod_small. lia.
      * unfold proc_windows.maxQuerySize. lia.
      * intros ->. lia.
Qed.

(** C3, as the code has it: on a stat record with its 24 leading fields (or
    when the stat file cannot be read at all) neither [Usage] nor [periodic]
    of the stat backend panics; and on a host whose counter API keeps the
    arrays of a collection index-aligned, [Usage] of the counter backend
    always returns, with or without an error. *)
Theorem C3_no_panic_on_well_formed_input :
  (forall (os : proc_linux.OS) (g : proc_linux.globals)
          (out : proc_linux.outputs),
      proc_linux.ticks g = 100 ->
      (forall contents,
          proc_linux.ReadFile os (proc_linux.procStatFile g)
            = Success contents ->
          (24 <= length (bytes.Fields contents))%nat) ->
      is_panic (proc_linux.Usage os g out) = false /\
      is_panic (proc_linux.periodic os g) = false) /\
  (forall (W : Type) (os : proc_windows.OS W) (n : W -> Z)
          (m : proc_windows.machine W),
      aligned os n ->
      exists res m', proc_windows.Usage os m = Return (res, m')).
Proof.
  split.
  - intros os g out Hticks Hlen. now apply linux_no_panic.
  - intros W os n m Ha. exact (Usage_total os n Ha m).
Qed.

Lemma C3_witness :
  (is_panic (proc_linux.Usage
               (sim_linux.kernel 4242 (Success sim_linux.stat_4242)
                  (Success 125))
               sim_linux.started sim_linux.blank) = false /\
   is_panic (proc_linux.periodic
               (sim_linux.kernel 4242 (Success sim_linux.stat_4242)
                  (Success 125))
               sim_linux.started) = false) /\
  exists res m', proc_windows.Usage scenario.os scenario.m0 = Return (res, m').
Proof.
  destruct C3_no_panic_on_well_formed_input as [Hlinux Hwindows]. split.
  - apply Hlinux; [reflexivity|].
    intros contents Hread. vm_compute in Hread. injection Hread as <-.
    vm_compute. lia.
  - apply (Hwindows sim.host scenario.os sim.listed scenario.m0).
    apply sim_aligned.
Defined.

(** C3 as stated fails: on a stat record of three fields [Usage] panics at
    [fields[rssPos]] and [periodic] at [fields[startPos]]. *)
Lemma C3_counterexample :
  bytes.Fields sim_linux.stat_short
    = [bytes_of_string "4242"; bytes_of_string "(proc)"; bytes_of_string "S"]
  /\
  proc_linux.Usage
    (sim_linux.kernel 4242 (Success sim_linux.stat_short) (Success 125))
    sim_linux.started sim_linux.blank
  = Panic (IndexOutOfRange 23 3) /\
  proc_linux.periodic
    (sim_linux.kernel 4242 (Success sim_linux.stat_short) (Success 125))
    sim_linux.started
  = Panic (IndexOutOfRange 21 3).
Proof. repeat split; vm_compute; reflexivity. Qed.

(** Alignment is needed: when the probe of the CPU counter reports success
    with nothing to fetch, the CPU array is empty and [cpuAry[idx]]
    panics. *)
Example misaligned_arrays_panic :
  proc_windows.Usage (sim.misaligned 4242 "nats-server.exe") scenario.m0
  = Panic (IndexOutOfRange 1 0).
Proof. vm_compute. reflexivity. Qed.

(** * Further properties *)

(** ** [parseInt64] on digit strings *)

Lemma wrap_shift (x k : Z) : Int64.wrap (x + k * 2 ^ 64) = Int64.wrap x.
Proof.
  unfold Int64.wrap.
  replace (x + k * 2 ^ 64 + 2 ^ 63) with (x + 2 ^ 63 + k * 2 ^ 64) by lia.
  rewrite Z_mod_plus_full. reflexivity.
Qed.

Lemma wrap_unfold (x : Z) : exists k, Int64.wrap x = x + k * 2 ^ 64.
Proof.
  exists (- ((x + 2 ^ 63) / 2 ^ 64)). unfold Int64.wrap.
  rewrite Z.mod_eq by lia. lia.
Qed.

Lemma wrap_step (n c : Z) :
  Int64.add (Int64.mul (Int64.wrap n) 10) (Int64.sub c 48)
  = Int64.wrap (n * 10 + (c - 48)).
Proof.
  unfold Int64.add, Int64.mul, Int64.sub.
  destruct (wrap_unfold n) as [k1 ->].
  destruct (wrap_unfold ((n + k1 * 2 ^ 64) * 10)) as [k2 ->].
  destruct (wrap_unfold (c - 48)) as [k3 ->].
  replace ((n + k1 * 2 ^ 64) * 10 + k2 * 2 ^ 64 + (c - 48 + k3 * 2 ^ 64))
    with (n * 10 + (c - 48) + (10 * k1 + k2 + k3) * 2 ^ 64) by lia.
  apply wrap_shift.
Qed.

Lemma parseDigits_decimal (d : list byte) :
  all_digits d ->
  forall n, proc_linux.parseDigits d (Int64.wrap n)
            = Int64.wrap (decimal_from d n).
Proof.
  unfold all_digits, decimal_from.
  induction 1 as [|b d Hb Hd IH]; intros n; [reflexivity|].
  cbn [proc_linux.parseDigits fold_left].
  unfold is_digit in Hb. unfold proc_linux.asciiZero, proc_linux.asciiNine.
  replace (byte_val b <? 48) with false by (symmetry; apply Z.ltb_ge; lia).
  replace (57 <? byte_val b) with false by (symmetry; apply Z.ltb_ge; lia).
  cbn [orb]. rewrite wrap_step. apply IH.
Qed.

Lemma decimal_from_bounds (d : list byte) :
  all_digits d ->
  forall n, 0 <= n ->
    n * 10 ^ Z.of_nat (length d) <= decimal_from d n
    < (n + 1) * 10 ^ Z.of_nat (length d).
Proof.
  unfold all_digits, decimal_from.
  induction 1 as [|b d Hb Hd IH]; intros n Hn.
  - cbn. lia.
  - cbn [fold_left length]. unfold is_digit in Hb.
    specialize (IH (n * 10 + (byte_val b - 48)) ltac:(lia)).
    rewrite Nat2Z.inj_succ, Z.pow_succ_r by lia.
    remember (10 ^ Z.of_nat (length d)) as p.
    assert (0 < p) by (subst p; apply Z.pow_pos_nonneg; lia).
    nia.
Qed.

Lemma parseInt64_wraps_decimal (d : list byte) :
  d <> [] -> all_digits d ->
  proc_linux.parseInt64 d = Int64.wrap (decimal_value d).
Proof.
  intros Hne Hd. destruct d as [|b d]; [congruence|].
  unfold proc_linux.parseInt64, decimal_value.
  change 0 with (Int64.wrap 0) at 1. now apply parseDigits_decimal.
Qed.

(** Closes [all_digits] of an explicit string. *)
Ltac digits :=
  unfold all_digits;
  repeat (constructor; [vm_compute; split; discriminate|]);
  constructor.

(** X1: on a non-empty string of ASCII digits [parseInt64] returns the
    number the string denotes, reduced to 64 bits two's complement: the
    number itself when it is below 2^63, a wrapped value beyond.  So the
    record's field 18446744073709551615 parses to -1. *)
Theorem X1_parseInt64_decimal (d : list byte) :
  d <> [] -> all_digits d ->
  proc_linux.parseInt64 d = Int64.wrap (decimal_value d) /\
  (decimal_value d <= Int64.max_int ->
   proc_linux.parseInt64 d = decimal_value d /\ 0 <= decimal_value d).
Proof.
  intros Hne Hd.
  pose proof (parseInt64_wraps_decimal d Hne Hd) as E.
  split; [exact E|]. intros Hmax.
  pose proof (decimal_from_bounds d Hd 0 ltac:(lia)) as B.
  fold (decimal_value d) in B.
  split; [|lia]. rewrite E. apply wrap_in_range.
  unfold Int64.in_range, Int64.min_int. lia.
Qed.

Lemma X1_witness :
  proc_linux.parseInt64 (bytes_of_string "2000000") = 2000000 /\
  proc_linux.parseInt64 (bytes_of_string "18446744073709551615") = -1.
Proof.
  split.
  - assert (D : all_digits (bytes_of_string "2000000")) by digits.
    destruct (X1_parseInt64_decimal (bytes_of_string "2000000")
                ltac:(discriminate) D) as [_ H].
    destruct H as [H _]; [vm_compute; discriminate|exact H].
  - assert (D : all_digits (bytes_of_string "18446744073709551615"))
      by digits.
    destruct (X1_parseInt64_decimal (bytes_of_string "18446744073709551615")
                ltac:(discriminate) D) as [H _].
    exact H.
Defined.

(** X2: for a field of at most 18 bytes the sentinel is unambiguous:
    [parseInt64] returns -1 exactly when the field is empty or holds a byte
    that is not an ASCII digit, and a non-negative number otherwise. *)
Theorem X2_sentinel_unambiguous (d : list byte) :
  (length d <= 18)%nat ->
  (proc_linux.parseInt64 d = -1 <->
   d = [] \/ exists b, In b d /\ ~ is_digit b) /\
  (proc_linux.parseInt64 d = -1 \/ 0 <= proc_linux.parseInt64 d < 10 ^ 18).
Proof.
  intros Hlen.
  assert (Dec : all_digits d \/ exists b, In b d /\ ~ is_digit b).
  { unfold all_digits. induction d as [|b d IH]; [left; constructor|].
    destruct (Z_le_dec 48 (byte_val b)) as [H1|H1];
      [destruct (Z_le_dec (byte_val b) 57) as [H2|H2]|].
    - destruct IH as [IH|[c [Hc Hn]]]; [cbn in Hlen; lia| |].
      + left. constructor; [split; assumption|exact IH].
      + right. exists c. split; [right; exact Hc|exact Hn].
    - right. exists b. split; [left; reflexivity|]. unfold is_digit. lia.
    - right. exists b. split; [left; reflexivity|]. unfold is_digit. lia. }
  destruct Dec as [Hd|Hbad].
  - destruct d as [|b d].
    + split; [|left; reflexivity]. split; auto.
    + assert (Hne : b :: d <> []) by discriminate.
      pose proof (decimal_from_bounds (b :: d) Hd 0 ltac:(lia)) as B.
      fold (decimal_value (b :: d)) in B.
      assert (P : 10 ^ Z.of_nat (length (b :: d)) <= 10 ^ 18)
        by (apply Z.pow_le_mono_r; lia).
      pose proof (parseInt64_wraps_decimal (b :: d) Hne Hd) as E.
      assert (V : proc_linux.parseInt64 (b :: d) = decimal_value (b :: d)).
      { rewrite E. apply wrap_in_range.
        unfold Int64.in_range, Int64.min_int, Int64.max_int. lia. }
      split; [|right; lia]. split.
      * intros H. lia.
      * intros [H|[c [Hc Hn]]]; [discriminate|].
        exfalso. apply Hn. unfold all_digits in Hd.
        rewrite Forall_forall in Hd. apply Hd.
        apply list_elem_of_In. exact Hc.
  - split; [|left; apply parseInt64_bad; right; exact Hbad].
    split; [auto|]. intros _. apply parseInt64_bad. right. exact Hbad.
Qed.

(** *** Decimal printing and parsing *)

Lemma digits_of_uint (d : Decimal.uint) :
  all_digits (bytes_of_string (NilEmpty.string_of_uint d)) /\
  forall d' : Decimal.uint,
    decimal_from (bytes_of_string (NilEmpty.string_of_uint d))
                 (Z.of_N (DecimalPos.Unsigned.of_lu d'))
    = Z.of_N (DecimalPos.Unsigned.of_lu (Decimal.revapp d d')).
Proof.
  unfold all_digits, decimal_from, bytes_of_string.
  induction d as [|d [IHa IHv]|d [IHa IHv]|d [IHa IHv]|d [IHa IHv]
                  |d [IHa IHv]|d [IHa IHv]|d [IHa IHv]|d [IHa IHv]
                  |d [IHa IHv]|d [IHa IHv]].
  1: split; [constructor|reflexivity].
  all: split;
    [ constructor; [vm_compute; split; discriminate|exact IHa]
    | intros d';
      cbn [NilEmpty.string_of_uint list_byte_of_string map
           list_ascii_of_string fold_left Decimal.revapp];
      rewrite <- IHv; f_equal;
      cbn [DecimalPos.Unsigned.of_lu];
      change (byte_val (byte_of_ascii ?c)) with
        (Z.of_N (Byte.to_N (byte_of_ascii c)));
      cbn [byte_of_ascii];
      match goal with
      | |- context [Z.of_N (Byte.to_N ?b)] =>
          let v := eval vm_compute in (Z.of_N (Byte.to_N b)) in
          change (Z.of_N (Byte.to_N b)) with v
      end;
      lia ].
Qed.

(** The decimal digits of a positive number parse back to it. *)
Lemma decimal_of_positive (p : positive) :
  all_digits (bytes_of_string (itoa (Z.pos p))) /\
  bytes_of_string (itoa (Z.pos p)) <> [] /\
  decimal_value (bytes_of_string (itoa (Z.pos p))) = Z.pos p.
Proof.
  unfold itoa. cbn [Z.to_int NilZero.string_of_int].
  assert (Hn : Pos.to_uint p <> Decimal.Nil)
    by apply DecimalPos.Unsigned.to_uint_nonnil.
  assert (E : NilZero.string_of_uint (Pos.to_uint p)
              = NilEmpty.string_of_uint (Pos.to_uint p)).
  { unfold NilZero.string_of_uint. destruct (Pos.to_uint p); congruence. }
  rewrite E. destruct (digits_of_uint (Pos.to_uint p)) as [Ha Hv].
  split; [exact Ha|]. split.
  - destruct (Pos.to_uint p); [congruence| | | | | | | | | |]; discriminate.
  - unfold decimal_value. specialize (Hv Decimal.Nil).
    cbn [DecimalPos.Unsigned.of_lu Z.of_N] in Hv. rewrite Hv.
    change (Decimal.revapp (Pos.to_uint p) Decimal.Nil)
      with (Decimal.rev (Pos.to_uint p)).
    rewrite <- DecimalPos.Unsigned.of_uint_alt, DecimalPos.Unsigned.of_to.
    reflexivity.
Qed.

(** X3: [parseInt64] inverts decimal printing on the non-negative int64s:
    the digits [%d] prints for [n] parse back to [n]. *)
Theorem X3_parse_inverts_print (n : Z) :
  0 <= n <= Int64.max_int ->
  proc_linux.parseInt64 (bytes_of_string (itoa n)) = n.
Proof.
  intros Hn. destruct n as [|p|p]; [reflexivity| |lia].
  destruct (decimal_of_positive p) as [Ha [Hne Hv]].
  rewrite (parseInt64_wraps_decimal _ Hne Ha), Hv.
  apply wrap_in_range. unfold Int64.in_range, Int64.min_int. lia.
Qed.

Lemma X3_witness :
  proc_linux.parseInt64 (bytes_of_string (itoa 9223372036854775807))
  = 9223372036854775807.
Proof.
  apply X3_parse_inverts_print. vm_compute. split; discriminate.
Defined.

Lemma X2_witness :
  proc_linux.parseInt64 (bytes_of_string "3x0") = -1 <->
  bytes_of_string "3x0" = [] \/
  exists b, In b (bytes_of_string "3x0") /\ ~ is_digit b.
Proof.
  apply (X2_sentinel_unambiguous (bytes_of_string "3x0")).
  vm_compute. lia.
Defined.


(** ** StatSampler: where the index expressions panic *)

Lemma linux_Usage_short (os : proc_linux.OS) (g : proc_linux.globals)
    (out : proc_linux.outputs) (contents : list byte) :
  proc_linux.ReadFile os (proc_linux.procStatFile g) = Success contents ->
  (length (bytes.Fields contents) < 24)%nat ->
  proc_linux.Usage os g out
    = Panic (IndexOutOfRange 23 (length (bytes.Fields contents))).
Proof.
  intros Hread Hlen. unfold proc_linux.Usage, index. rewrite Hread.
  rewrite (lookup_ge_None_2 (bytes.Fields contents) proc_linux.rssPos)
    by (unfold proc_linux.rssPos; lia).
  reflexivity.
Qed.

Lemma periodic_short (os : proc_linux.OS) (g : proc_linux.globals)
    (contents : list byte) :
  proc_linux.ReadFile os (proc_linux.procStatFile g) = Success contents ->
  (length (bytes.Fields contents) < 22)%nat ->
  proc_linux.periodic os g
    = Panic (IndexOutOfRange 21 (length (bytes.Fields contents))).
Proof.
  intros Hread Hlen. unfold proc_linux.periodic, index. rewrite Hread.
  rewrite (lookup_ge_None_2 (bytes.Fields contents) proc_linux.startPos)
    by (unfold proc_linux.startPos; lia).
  reflexivity.
Qed.

(** What a run of [periodic] comes to when the record, if read, is long
    enough: nothing armed and nothing changed, or the next run armed with
    the path and the clock rate kept; the latter whenever both reads
    succeed. *)
Lemma periodic_cases (os : proc_linux.OS) (g : proc_linux.globals) :
  proc_linux.ticks g = 100 ->
  samplable (proc_linux.procStatFile g) os ->
  (proc_linux.periodic os g = Return (g, []) /\
   ~ readable (proc_linux.procStatFile g) os) \/
  (exists g',
      proc_linux.periodic os g
        = Return (g', [(time.Second, proc_linux.Periodic)]) /\
      proc_linux.ticks g' = 100 /\
      proc_linux.procStatFile g' = proc_linux.procStatFile g /\
      readable (proc_linux.procStatFile g) os).
Proof.
  intros Hticks Hlong.
  destruct (proc_linux.ReadFile os (proc_linux.procStatFile g))
    as [contents|e] eqn:Hread.
  2:{ left. split; [now apply (periodic_read_failure os g e)|].
      intros [[c Hc] _]. congruence. }
  specialize (Hlong contents Hread).
  destruct (lookup_lt_is_Some_2 (bytes.Fields contents) proc_linux.startPos)
    as [f_start Hstart]; [unfold proc_linux.startPos; lia|].
  destruct (fields_upto _ _ proc_linux.utimePos _ Hstart) as [f_u Hu].
  { unfold proc_linux.utimePos, proc_linux.startPos. lia. }
  destruct (fields_upto _ _ proc_linux.stimePos _ Hstart) as [f_s Hs].
  { unfold proc_linux.stimePos, proc_linux.startPos. lia. }
  destruct (proc_linux.Sysinfo os) as [uptime|e] eqn:Hsys.
  - right. eexists. split.
    + apply (periodic_run os g contents f_start f_u f_s uptime); assumption.
    + cbn [proc_linux.ticks proc_linux.procStatFile].
      repeat split; eauto.
  - left. split.
    + now apply (periodic_sysinfo_failure os g contents f_start e).
    + intros [_ [u Hu']]. congruence.
Qed.

(** X4: the exact bounds of the two index expressions.  [Usage] panics
    exactly when the stat file is read and splits into fewer than 24 fields;
    [periodic] (clock rate not zero) exactly when it is read and splits into
    fewer than 22.  A record of 22 or 23 fields is thus sampled by
    [periodic] while every [Usage] call on it panics. *)
Theorem X4_panic_exactly_on_short_records (os : proc_linux.OS)
    (g : proc_linux.globals) (out : proc_linux.outputs) :
  (is_panic (proc_linux.Usage os g out) = true <->
   exists contents,
     proc_linux.ReadFile os (proc_linux.procStatFile g) = Success contents /\
     (length (bytes.Fields contents) < 24)%nat) /\
  (proc_linux.ticks g <> 0 ->
   (is_panic (proc_linux.periodic os g) = true <->
    exists contents,
      proc_linux.ReadFile os (proc_linux.procStatFile g) = Success contents /\
      (length (bytes.Fields contents) < 22)%nat)).
Proof.
  split.
  - split.
    + intros Hp.
      destruct (proc_linux.ReadFile os (proc_linux.procStatFile g))
        as [contents|e] eqn:Hread.
      * exists contents. split; [reflexivity|].
        destruct (Nat.lt_ge_cases (length (bytes.Fields contents)) 24)
          as [Hlt|Hge]; [exact Hlt|exfalso].
        destruct (lookup_lt_is_Some_2 (bytes.Fields contents)
                    proc_linux.rssPos) as [f_rss Hrss];
          [unfold proc_linux.rssPos; lia|].
        destruct (lookup_lt_is_Some_2 (bytes.Fields contents)
                    proc_linux.vssPos) as [f_vss Hvss];
          [unfold proc_linux.vssPos; lia|].
        rewrite (linux_Usage_read os g out contents f_rss f_vss
                   Hread Hrss Hvss) in Hp.
        discriminate.
      * unfold proc_linux.Usage in Hp. rewrite Hread in Hp. discriminate.
    + intros [contents [Hread Hlen]].
      rewrite (linux_Usage_short os g out contents Hread Hlen). reflexivity.
  - intros Hticks. split.
    + intros Hp.
      destruct (proc_linux.ReadFile os (proc_linux.procStatFile g))
        as [contents|e] eqn:Hread.
      * exists contents. split; [reflexivity|].
        destruct (Nat.lt_ge_cases (length (bytes.Fields contents)) 22)
          as [Hlt|Hge]; [exact Hlt|exfalso].
        destruct (lookup_lt_is_Some_2 (bytes.Fields contents)
                    proc_linux.startPos) as [f_start Hstart];
          [unfold proc_linux.startPos; lia|].
        destruct (fields_upto _ _ proc_linux.utimePos _ Hstart) as [f_u Hu].
        { unfold proc_linux.utimePos, proc_linux.startPos. lia. }
        destruct (fields_upto _ _ proc_linux.stimePos _ Hstart) as [f_s Hs].
        { unfold proc_linux.stimePos, proc_linux.startPos. lia. }
        revert Hp. unfold proc_linux.periodic, index.
        rewrite Hread, Hstart. cbn [bind]. rewrite Hu. cbn [bind].
        rewrite Hs. cbn [bind].
        destruct (proc_linux.Sysinfo os) as [uptime|e]; [|discriminate].
        unfold div64. cbn [proc_linux.ticks proc_linux.lastTotal
                           proc_linux.lastSeconds].
        replace (proc_linux.ticks g =? 0) with false
          by (symmetry; apply Z.eqb_neq; exact Hticks).
        cbn [bind].
        match goal with
        | |- context [0 <? ?s] => destruct (0 <? s) eqn:Hpos
        end; cbn [bind]; [|discriminate].
        apply Z.ltb_lt in Hpos.
        match goal with
        | |- context [?s =? 0] =>
            replace (s =? 0) with false by (symmetry; apply Z.eqb_neq; lia)
        end.
        discriminate.
      * rewrite (periodic_read_failure os g e Hread) in Hp. discriminate.
    + intros [contents [Hread Hlen]].
      rewrite (periodic_short os g contents Hread Hlen). reflexivity.
Qed.

Lemma X4_witness :
  is_panic (proc_linux.Usage
              (sim_linux.kernel 4242 (Success stat_22_fields) (Success 125))
              sim_linux.started sim_linux.blank) = true /\
  is_panic (proc_linux.periodic
              (sim_linux.kernel 4242 (Success stat_22_fields) (Success 125))
              sim_linux.started) = false.
Proof.
  destruct (X4_panic_exactly_on_short_records
              (sim_linux.kernel 4242 (Success stat_22_fields) (Success 125))
              sim_linux.started sim_linux.blank) as [Hu Hp].
  split.
  - apply Hu. exists stat_22_fields. split; [reflexivity|].
    vm_compute. lia.
  - apply not_true_is_false. intros E.
    apply Hp in E; [|vm_compute; discriminate].
    destruct E as [contents [Hread Hlen]].
    vm_compute in Hread. injection Hread as <-.
    vm_compute in Hlen. lia.
Defined.

(** ** StatSampler: the resident size *)

Lemma wrap_page_multiple (x : Z) : Int64.wrap (x * 4096) mod 4096 = 0.
Proof.
  destruct (wrap_unfold (x * 4096)) as [k ->].
  replace (x * 4096 + k * 2 ^ 64) with ((x + k * 2 ^ 52) * 4096) by lia.
  apply Z_mod_mult.
Qed.

(** X5: the rss of every successful [Usage] call is a whole number of 4096
    byte pages, and it is the page count times 4096, without wrap-around,
    for every page count from 0 to 2^51 - 1. *)
Theorem X5_rss_whole_pages (os : proc_linux.OS) (g : proc_linux.globals)
    (out out' : proc_linux.outputs) :
  proc_linux.Usage os g out = Return (None, out') ->
  proc_linux.rss out' mod 4096 = 0 /\
  exists contents f_rss,
    proc_linux.ReadFile os (proc_linux.procStatFile g) = Success contents /\
    bytes.Fields contents !! proc_linux.rssPos = Some f_rss /\
    (0 <= proc_linux.parseInt64 f_rss < 2 ^ 51 ->
     proc_linux.rss out' = proc_linux.parseInt64 f_rss * 4096 /\
     0 <= proc_linux.rss out').
Proof.
  intros Hrun.
  destruct (linux_Usage_success os g out out' Hrun)
    as [contents [f_rss [f_vss [Hread [Hrss Hvss]]]]].
  rewrite (linux_Usage_read os g out contents f_rss f_vss Hread Hrss Hvss)
    in Hrun.
  injection Hrun as <-. cbn [proc_linux.rss].
  rewrite shl_12_is_times_page. split; [apply wrap_page_multiple|].
  exists contents, f_rss. split; [exact Hread|]. split; [exact Hrss|].
  intros Hp. rewrite wrap_in_range; [lia|].
  unfold Int64.in_range, Int64.min_int, Int64.max_int. lia.
Qed.

Lemma X5_witness :
  exists out',
    proc_linux.Usage
      (sim_linux.kernel 4242 (Success sim_linux.stat_bad_rss) (Success 125))
      sim_linux.started sim_linux.blank = Return (None, out') /\
    proc_linux.rss out' mod 4096 = 0.
Proof.
  eexists. split; [vm_compute; reflexivity|].
  refine (proj1 (X5_rss_whole_pages
                   (sim_linux.kernel 4242 (Success sim_linux.stat_bad_rss)
                      (Success 125))
                   sim_linux.started sim_linux.blank _ _)).
  vm_compute. reflexivity.
Defined.

(** ** StatSampler: the timer loop *)

(** X6: while every record read has its 22 leading fields, the timer loop
    never panics, never has more than one timer armed, and keeps the stat
    path and the clock rate; and as long as both the record and the uptime
    can be read at every run, the one timer stays armed: sampling goes
    on. *)
Theorem X6_one_timer_armed (hosts : list proc_linux.OS) :
  forall (g : proc_linux.globals) (armed : list proc_linux.timer),
    proc_linux.ticks g = 100 ->
    Forall (samplable (proc_linux.procStatFile g)) hosts ->
    (length armed <= 1)%nat ->
    exists g' armed',
      run_timers hosts g armed = Return (g', armed') /\
      (length armed' <= 1)%nat /\
      proc_linux.ticks g' = 100 /\
      proc_linux.procStatFile g' = proc_linux.procStatFile g /\
      (Forall (readable (proc_linux.procStatFile g)) hosts ->
       length armed = 1%nat -> length armed' = 1%nat).
Proof.
  induction hosts as [|os hosts IH]; intros g armed Hticks Hlong Harmed.
  - exists g, armed. cbn [run_timers]. auto.
  - destruct armed as [|[d []] pending].
    + exists g, []. cbn [run_timers].
      repeat split; auto; intros _ H; discriminate H.
    + assert (pending = []) as ->
        by (destruct pending; [reflexivity|cbn in Harmed; lia]).
      inversion Hlong as [|? ? Hos Hrest]; subst.
      cbn [run_timers].
      destruct (periodic_cases os g Hticks Hos)
        as [[E Hnot]|[g' [E [Ht [Hp Hr]]]]]; rewrite E; cbn [bind fst snd app].
      * destruct (IH g [] Hticks Hrest ltac:(cbn; lia))
          as [g2 [a2 [R [L [T [P _]]]]]].
        exists g2, a2. repeat split; auto.
        intros Hall _. inversion Hall; subst. contradiction.
      * rewrite <- Hp in Hrest.
        destruct (IH g' [(time.Second, proc_linux.Periodic)] Ht Hrest
                    ltac:(cbn; lia)) as [g2 [a2 [R [L [T [P K]]]]]].
        exists g2, a2. repeat split; auto; [congruence|].
        intros Hall _. apply K; [|reflexivity].
        inversion Hall; subst. rewrite Hp. assumption.
Qed.

Lemma X6_witness :
  exists g' armed',
    run_timers
      [sim_linux.kernel 4242 (Success sim_linux.stat_4242) (Success 125);
       sim_linux.kernel 4242 (Failure "too many open files") (Success 126);
       sim_linux.kernel 4242 (Success sim_linux.stat_4242) (Success 127)]
      sim_linux.started [(time.Second, proc_linux.Periodic)]
    = Return (g', armed') /\
    (length armed' <= 1)%nat /\
    proc_linux.ticks g' = 100.
Proof.
  destruct (X6_one_timer_armed
              [sim_linux.kernel 4242 (Success sim_linux.stat_4242)
                 (Success 125);
               sim_linux.kernel 4242 (Failure "too many open files")
                 (Success 126);
               sim_linux.kernel 4242 (Success sim_linux.stat_4242)
                 (Success 127)]
              sim_linux.started [(time.Second, proc_linux.Periodic)])
    as [g' [armed' [R [L [T _]]]]].
  - reflexivity.
  - repeat constructor; intros contents Hread; vm_compute in Hread;
      try discriminate Hread; injection Hread as <-; vm_compute; lia.
  - cbn. lia.
  - exists g', armed'. auto.
Defined.

(** ** StatSampler: the scale of the estimate *)

(** X7: the estimate is in tenths of a percent of one CPU.  A run that finds
    [k] ticks of CPU time spent per second elapsed since the previous run
    ([dtotal = k * dseconds], [dseconds > 0], the product by 1000 within
    int64) stores exactly [10 * k]: 1000 for a process that kept one CPU
    busy (100 ticks a second), 0 for an idle one. *)
Theorem X7_ticks_per_second_scaled (os : proc_linux.OS)
    (g : proc_linux.globals)
    (contents f_start f_utime f_stime : list byte) (uptime k : Z) :
  proc_linux.ticks g = 100 ->
  proc_linux.ReadFile os (proc_linux.procStatFile g) = Success contents ->
  bytes.Fields contents !! proc_linux.startPos = Some f_start ->
  bytes.Fields contents !! proc_linux.utimePos = Some f_utime ->
  bytes.Fields contents !! proc_linux.stimePos = Some f_stime ->
  proc_linux.Sysinfo os = Success uptime ->
  let total := Int64.add (proc_linux.parseInt64 f_utime)
                         (proc_linux.parseInt64 f_stime) in
  let seconds :=
    Int64.sub uptime (Int64.quot (proc_linux.parseInt64 f_start) 100) in
  let dtotal := Int64.sub total (proc_linux.lastTotal g) in
  let dseconds := Int64.sub seconds (proc_linux.lastSeconds g) in
  0 < dseconds ->
  dtotal = k * dseconds ->
  Int64.in_range (dtotal * 1000) ->
  exists g',
    proc_linux.periodic os g
      = Return (g', [(time.Second, proc_linux.Periodic)]) /\
    proc_linux.ipcpu g' = 10 * k.
Proof.
  intros Hticks Hread Hstart Hutime Hstime Hsys total seconds dtotal dseconds
    Hpos Hk Hfit.
  eexists. split.
  { apply (periodic_run os g contents f_start f_utime f_stime uptime);
      assumption. }
  cbn [proc_linux.ipcpu]. fold total seconds dtotal dseconds.
  replace (0 <? dseconds) with true by (symmetry; apply Z.ltb_lt; exact Hpos).
  unfold Int64.mul, Int64.quot. rewrite (wrap_in_range _ Hfit).
  assert (E1 : Z.quot (dtotal * 1000) 100 = 10 * k * dseconds).
  { rewrite Hk. replace (k * dseconds * 1000) with (10 * k * dseconds * 100)
      by lia. apply Z.quot_mul. lia. }
  rewrite E1.
  assert (R1 : Int64.in_range (10 * k * dseconds)).
  { rewrite <- E1. apply quot_in_range; [lia|exact Hfit]. }
  rewrite (wrap_in_range _ R1). rewrite Z.quot_mul by lia.
  apply wrap_in_range.
  replace (10 * k) with (Z.quot (10 * k * dseconds) dseconds)
    by (apply Z.quot_mul; lia).
  apply quot_in_range; assumption.
Qed.

Lemma X7_witness :
  exists g',
    proc_linux.periodic
      (sim_linux.kernel 4242 (Success sim_linux.stat_4242) (Success 125))
      sim_linux.started
    = Return (g', [(time.Second, proc_linux.Periodic)]) /\
    proc_linux.ipcpu g' = 10 * 100.
Proof.
  apply (X7_ticks_per_second_scaled
           (sim_linux.kernel 4242 (Success sim_linux.stat_4242) (Success 125))
           sim_linux.started sim_linux.stat_4242
           (bytes_of_string "12300") (bytes_of_string "150")
           (bytes_of_string "50") 125 100);
    try reflexivity.
  vm_compute. split; discriminate.
Defined.

(** ** StatSampler: the first sample *)

(** X8: the sample [init] takes is over the whole life of the process.  With
    the record and the uptime read, [init] leaves the path of the process's
    own stat file, the clock rate 100, the totals of this first reading, one
    timer armed, and as estimate the CPU time used so far per second of age,
    [(total * 1000 / 100) / age], when the process is at least a second
    old, and 0 when it is younger. *)
Theorem X8_init_lifetime_average (os : proc_linux.OS)
    (contents f_start f_utime f_stime : list byte) (uptime : Z) :
  let path := ("/proc/" ++ itoa (proc_linux.Getpid os) ++ "/stat")%string in
  proc_linux.ReadFile os path = Success contents ->
  bytes.Fields contents !! proc_linux.startPos = Some f_start ->
  bytes.Fields contents !! proc_linux.utimePos = Some f_utime ->
  bytes.Fields contents !! proc_linux.stimePos = Some f_stime ->
  proc_linux.Sysinfo os = Success uptime ->
  let total := Int64.add (proc_linux.parseInt64 f_utime)
                         (proc_linux.parseInt64 f_stime) in
  let age :=
    Int64.sub uptime (Int64.quot (proc_linux.parseInt64 f_start) 100) in
  proc_linux.init os =
    Return ({| proc_linux.procStatFile := path;
               proc_linux.ticks := 100;
               proc_linux.lastTotal := total;
               proc_linux.lastSeconds := age;
               proc_linux.ipcpu :=
                 if 0 <? age
                 then Int64.quot (Int64.quot (Int64.mul total 1000) 100) age
                 else 0 |},
            [(time.Second, proc_linux.Periodic)]).
Proof.
  intros path Hread Hstart Hutime Hstime Hsys total age.
  unfold proc_linux.init. fold path.
  rewrite (periodic_run os _ contents f_start f_utime f_stime uptime);
    try assumption; try reflexivity.
  cbn [proc_linux.procStatFile proc_linux.lastTotal proc_linux.lastSeconds
       proc_linux.ipcpu].
  fold total age.
  assert (Et : Int64.sub total 0 = total).
  { unfold Int64.sub. rewrite Z.sub_0_r. apply wrap_in_range.
    apply wrap_range. }
  assert (Ea : Int64.sub age 0 = age).
  { unfold Int64.sub at 1. rewrite Z.sub_0_r. apply wrap_in_range.
    apply wrap_range. }
  rewrite Et, Ea. reflexivity.
Qed.

Lemma X8_witness :
  proc_linux.init
    (sim_linux.kernel 4242 (Success sim_linux.stat_4242) (Success 125))
  = Return ({| proc_linux.procStatFile := "/proc/4242/stat";
               proc_linux.ticks := 100;
               proc_linux.lastTotal := 200;
               proc_linux.lastSeconds := 2;
               proc_linux.ipcpu := 1000 |},
            [(time.Second, proc_linux.Periodic)]).
Proof.
  apply (X8_init_lifetime_average
           (sim_linux.kernel 4242 (Success sim_linux.stat_4242) (Success 125))
           sim_linux.stat_4242
           (bytes_of_string "12300") (bytes_of_string "150")
           (bytes_of_string "50") 125);
    reflexivity.
Defined.

(** ** CounterSession: fetching an array *)

Lemma copy_values_nth
    (buf : list proc_windows.PDH_FMT_COUNTER_VALUE_ITEM_DOUBLE) (k : nat) :
  forall i : nat,
    (i + k <= 512)%nat ->
    proc_windows.copy_values buf (Z.of_nat i) k
    = Return (map (fun j => item_value (nth j buf proc_windows.zero_item))
                  (seq i k)).
Proof.
  induction k as [|k IH]; intros i Hk; [reflexivity|].
  cbn [proc_windows.copy_values seq map]. unfold proc_windows.item_at.
  replace ((0 <=? Z.of_nat i) && (Z.of_nat i <? proc_windows.maxQuerySize))
    with true.
  2:{ symmetry. apply andb_true_iff. split.
      - apply Z.leb_le. lia.
      - apply Z.ltb_lt. unfold proc_windows.maxQuerySize. lia. }
  cbn [bind]. replace (Z.of_nat i + 1) with (Z.of_nat (S i)) by lia.
  rewrite IH by lia. cbn [bind]. rewrite Nat2Z.id. reflexivity.
Qed.

Lemma copy_values_overrun
    (buf : list proc_windows.PDH_FMT_COUNTER_VALUE_ITEM_DOUBLE) (k : nat) :
  forall i : nat,
    (i <= 512)%nat -> (512 < i + k)%nat ->
    proc_windows.copy_values buf (Z.of_nat i) k
    = Panic (IndexOutOfRange 512 512).
Proof.
  induction k as [|k IH]; intros i Hi Hk; [lia|].
  cbn [proc_windows.copy_values]. unfold proc_windows.item_at.
  destruct (Nat.eq_dec i 512%nat) as [->|Hne].
  - reflexivity.
  - replace ((0 <=? Z.of_nat i) && (Z.of_nat i <? proc_windows.maxQuerySize))
      with true.
    2:{ symmetry. apply andb_true_iff. split.
        - apply Z.leb_le. lia.
        - apply Z.ltb_lt. unfold proc_windows.maxQuerySize. lia. }
    cbn [bind]. replace (Z.of_nat i + 1) with (Z.of_nat (S i)) by lia.
    rewrite IH by lia. reflexivity.
Qed.

Lemma map_over_indices {A B : Type} (f : A -> B) (d : A) (l : list A) :
  map (fun j => f (nth j l d)) (seq 0 (length l)) = map f l.
Proof.
  induction l as [|a l IH]; [reflexivity|].
  cbn [length seq map nth]. f_equal.
  rewrite <- seq_shift, map_map. exact IH.
Qed.

Lemma stored_items_nth
    (items buf : list proc_windows.PDH_FMT_COUNTER_VALUE_ITEM_DOUBLE) :
  (length items <= 512)%nat ->
  map (fun j => item_value (nth j (proc_windows.store_items items buf)
                                proc_windows.zero_item))
      (seq 0 (length items))
  = map item_value items.
Proof.
  intros Hlen. unfold proc_windows.store_items.
  change (Z.to_nat proc_windows.maxQuerySize) with 512%nat.
  rewrite <- (map_over_indices item_value proc_windows.zero_item items).
  apply map_ext_in. intros j Hj. apply in_seq in Hj. f_equal.
  rewrite nth_firstn.
  replace (j <? 512)%nat with true by (symmetry; apply Nat.ltb_lt; lia).
  apply app_nth1. lia.
Qed.

(** The run of [getCounterArrayData] whose probe asks for more data and
    whose fetch reports success with [count] items. *)
Lemma getCounterArrayData_fetch {W : Type} (os : proc_windows.OS W)
    (c : proc_windows.PDH_HCOUNTER) (m : proc_windows.machine W)
    (r1 s1 n1 r2 s2 n2 : Z)
    (i1 items : list proc_windows.PDH_FMT_COUNTER_VALUE_ITEM_DOUBLE)
    (w1 w2 : W) :
  proc_windows.GetFormattedCounterArray os c 0 0 (proc_windows.world m)
    = ((r1, s1, n1, i1), w1) ->
  uint32 r1 = proc_windows.PDH_MORE_DATA ->
  proc_windows.GetFormattedCounterArray os c (uint32 s1)
    (capped (uint32 n1)) w1 = ((r2, s2, n2, items), w2) ->
  uint32 r2 = 0 ->
  proc_windows.getCounterArrayData os c m
  = let buf := proc_windows.store_items items
                 (proc_windows.counterResults (proc_windows.vars m)) in
    let m' :=
      with_vars (proc_windows.set_counterResults buf (proc_windows.vars m))
        (called (proc_windows.PdhGetFormattedCounterArrayW c (uint32 s1)
                   (capped (uint32 n1))) w2
           (called (proc_windows.PdhGetFormattedCounterArrayW c 0 0) w1 m))
    in
    rv <- proc_windows.copy_values buf 0 (Z.to_nat (uint32 n2)) ;;
    Return ((rv, None), m').
Proof.
  intros H1 Hr1 H2 Hr2. cbv zeta.
  unfold proc_windows.getCounterArrayData,
    proc_windows.pdhGetFormattedCounterArrayDouble.
  unfold proc_windows.bindS at 1 2. unfold proc_windows.syscall at 1.
  rewrite H1. cbn [proc_windows.ret]. rewrite Hr1.
  change (proc_windows.PDH_MORE_DATA =? proc_windows.PDH_MORE_DATA) with true.
  cbv iota.
  unfold proc_windows.bindS at 1 2. unfold proc_windows.syscall at 1.
  cbn [proc_windows.world]. fold (capped (uint32 n1)). rewrite H2.
  cbn [proc_windows.ret]. rewrite Hr2. change (0 =? 0) with true.
  unfold proc_windows.bindS, proc_windows.modify, proc_windows.get,
    proc_windows.lift, proc_windows.ret.
  cbn [proc_windows.vars proc_windows.counterResults
       proc_windows.set_counterResults].
  destruct (proc_windows.copy_values _ 0 _); reflexivity.
Qed.

(** X9: when the probe asks for more data and the fetch succeeds, storing as
    many items as it reports (at most 512), [getCounterArrayData] returns
    the values of exactly these items, in the host's order, with no error,
    after two pdh calls of which the second asks for the probe's count
    capped at 512. *)
Theorem X9_fetch_returns_host_values {W : Type} (os : proc_windows.OS W)
    (c : proc_windows.PDH_HCOUNTER) (m : proc_windows.machine W)
    (r1 s1 n1 r2 s2 n2 : Z)
    (i1 items : list proc_windows.PDH_FMT_COUNTER_VALUE_ITEM_DOUBLE)
    (w1 w2 : W) :
  proc_windows.GetFormattedCounterArray os c 0 0 (proc_windows.world m)
    = ((r1, s1, n1, i1), w1) ->
  uint32 r1 = proc_windows.PDH_MORE_DATA ->
  proc_windows.GetFormattedCounterArray os c (uint32 s1)
    (capped (uint32 n1)) w1 = ((r2, s2, n2, items), w2) ->
  uint32 r2 = 0 ->
  uint32 n2 = Z.of_nat (length items) ->
  (length items <= 512)%nat ->
  exists m',
    proc_windows.getCounterArrayData os c m
      = Return ((map item_value items, None), m') /\
    proc_windows.world m' = w2 /\
    proc_windows.calls m'
      = proc_windows.calls m ++
        [proc_windows.PdhGetFormattedCounterArrayW c 0 0;
         proc_windows.PdhGetFormattedCounterArrayW c (uint32 s1)
           (capped (uint32 n1))] /\
    untouched m m'.
Proof.
  intros H1 Hr1 H2 Hr2 Hn Hlen.
  rewrite (getCounterArrayData_fetch os c m _ _ _ _ _ _ _ _ _ _
             H1 Hr1 H2 Hr2).
  cbv zeta. rewrite Hn, Nat2Z.id.
  rewrite (copy_values_nth _ (length items) 0) by lia.
  rewrite stored_items_nth by exact Hlen. cbn [bind].
  eexists. split; [reflexivity|].
  cbn [with_vars called proc_windows.world proc_windows.calls].
  split; [reflexivity|]. split; [rewrite <- app_assoc; reflexivity|].
  split; reflexivity.
Qed.

Lemma X9_witness :
  exists m',
    proc_windows.getCounterArrayData scenario.os
      (proc_windows.cpuCounter (proc_windows.vars scenario.s2)) scenario.s2
    = Return (([1.5%float; 12.5%float], None), m').
Proof.
  destruct (X9_fetch_returns_host_values scenario.os
              (proc_windows.cpuCounter (proc_windows.vars scenario.s2))
              scenario.s2
              proc_windows.PDH_MORE_DATA 48 2 0 48 2 []
              [sim.item 1.5%float; sim.item 12.5%float]
              (sim.tick sim.ms 8 (proc_windows.world scenario.s2))
              (sim.tick sim.ms 8
                 (sim.tick sim.ms 8 (proc_windows.world scenario.s2))))
    as [m' [E _]]; try (vm_compute; reflexivity).
  - cbn. lia.
  - exists m'. exact E.
Defined.

(** X10: the cap bounds what the fetch is asked for, not what the copy loop
    reads: when the fetch reports success with more than 512 items,
    [getCounterArrayData] panics at [counterResults[512]]. *)
Theorem X10_fetch_count_overruns_buffer {W : Type} (os : proc_windows.OS W)
    (c : proc_windows.PDH_HCOUNTER) (m : proc_windows.machine W)
    (r1 s1 n1 r2 s2 n2 : Z)
    (i1 items : list proc_windows.PDH_FMT_COUNTER_VALUE_ITEM_DOUBLE)
    (w1 w2 : W) :
  proc_windows.GetFormattedCounterArray os c 0 0 (proc_windows.world m)
    = ((r1, s1, n1, i1), w1) ->
  uint32 r1 = proc_windows.PDH_MORE_DATA ->
  proc_windows.GetFormattedCounterArray os c (uint32 s1)
    (capped (uint32 n1)) w1 = ((r2, s2, n2, items), w2) ->
  uint32 r2 = 0 ->
  proc_windows.maxQuerySize < uint32 n2 ->
  0 <= capped (uint32 n1) <= proc_windows.maxQuerySize /\
  proc_windows.getCounterArrayData os c m = Panic (IndexOutOfRange 512 512).
Proof.
  intros H1 Hr1 H2 Hr2 Hn. split.
  - unfold capped, proc_windows.maxQuerySize.
    assert (0 <= uint32 n1) by (unfold uint32; apply Z.mod_pos_bound; lia).
    destruct (512 <? uint32 n1) eqn:E; [lia|].
    apply Z.ltb_ge in E. lia.
  - rewrite (getCounterArrayData_fetch os c m _ _ _ _ _ _ _ _ _ _
               H1 Hr1 H2 Hr2).
    cbv zeta. unfold proc_windows.maxQuerySize in Hn.
    rewrite (copy_values_overrun _ (Z.to_nat (uint32 n2)) 0) by lia.
    reflexivity.
Qed.

Lemma X10_witness :
  proc_windows.getCounterArrayData (overreporting 4242 "nats-server.exe") 4
    (sim.boot scenario.rowsA [])
  = Panic (IndexOutOfRange 512 512).
Proof.
  refine (proj2 (X10_fetch_count_overruns_buffer
                   (overreporting 4242 "nats-server.exe") 4
                   (sim.boot scenario.rowsA [])
                   proc_windows.PDH_MORE_DATA (24 * 600) 600
                   0 (24 * 600) 600 [] []
                   (sim.tick sim.ms 0
                      (proc_windows.world (sim.boot scenario.rowsA [])))
                   (sim.tick sim.ms 0
                      (sim.tick sim.ms 0
                         (proc_windows.world (sim.boot scenario.rowsA []))))
                   _ _ _ _ _));
    vm_compute; reflexivity.
Defined.

(** ** CounterSession: what a call costs and what a failure leaves *)

Lemma post_total_partial {W A : Type} (c : proc_windows.St W A)
    (m : proc_windows.machine W) (Q : A -> proc_windows.machine W -> Prop) :
  post False c m Q -> post True c m Q.
Proof.
  unfold post. destruct (c m) as [[a m']|p]; [auto|tauto].
Qed.

Section Quiet.

Context {W : Type} (os : proc_windows.OS W).

Lemma untouched_refl (m : proc_windows.machine W) : untouched m m.
Proof. split; reflexivity. Qed.

Lemma quiet_refl (m : proc_windows.machine W) : quiet 0 m m.
Proof.
  split; [apply untouched_refl|].
  exists []. split; [symmetry; apply app_nil_r|reflexivity].
Qed.

Lemma quiet_trans (a b : nat) (m1 m2 m3 : proc_windows.machine W) :
  quiet a m1 m2 -> quiet b m2 m3 -> quiet (a + b) m1 m3.
Proof.
  intros [[O1 C1] [c1 [E1 L1]]] [[O2 C2] [c2 [E2 L2]]]. split; [split|].
  - congruence.
  - congruence.
  - exists (c1 ++ c2). split.
    + rewrite E2, E1, app_assoc. reflexivity.
    + rewrite length_app. lia.
Qed.

Lemma quiet_weaken (a b : nat) (m m' : proc_windows.machine W) :
  (a <= b)%nat -> quiet a m m' -> quiet b m m'.
Proof.
  intros Hab [U [cs [E L]]]. split; [exact U|].
  exists cs. split; [exact E|lia].
Qed.

(** Closes [quiet k m m'] when [m'] is [m] after explicit calls. *)
Ltac solve_quiet :=
  split;
  [ split; reflexivity
  | eexists; split;
    [ cbn; rewrite <- ?app_assoc;
      first [reflexivity | symmetry; apply app_nil_r]
    | cbn; lia ] ].

Lemma pdhCollectQueryData_quiet (h : proc_windows.PDH_HQUERY)
    (m : proc_windows.machine W) :
  post True (proc_windows.pdhCollectQueryData os h) m
       (fun _ m' => quiet 1 m m').
Proof.
  unfold proc_windows.pdhCollectQueryData. steps; solve_quiet.
Qed.

Lemma uint32_nonneg (z : Z) : 0 <= uint32 z.
Proof. unfold uint32. apply Z.mod_pos_bound. lia. Qed.

Lemma capped_range (z : Z) :
  0 <= z -> 0 <= capped z <= proc_windows.maxQuerySize.
Proof.
  intros Hz. unfold capped, proc_windows.maxQuerySize.
  destruct (512 <? z) eqn:E; [lia|]. apply Z.ltb_ge in E. lia.
Qed.

Lemma getCounterArrayData_bounded (c : proc_windows.PDH_HCOUNTER)
    (m : proc_windows.machine W) :
  post True (proc_windows.getCounterArrayData os c) m
       (fun a m' =>
          (length (fst a) <= 512)%nat /\
          (snd a <> None -> fst a = []) /\
          quiet 2 m m' /\
          grows count_capped m m').
Proof.
  unfold proc_windows.getCounterArrayData,
    proc_windows.pdhGetFormattedCounterArrayDouble.
  steps.
  2-4: cbn [fst snd length]; split; [lia|]; split; [reflexivity|];
       split; [solve_quiet|].
  2-4: eexists; split;
       [ cbn; rewrite <- ?app_assoc; reflexivity
       | repeat constructor; cbn;
         try apply capped_range; try apply uint32_nonneg;
         unfold proc_windows.maxQuerySize; lia ].
  match goal with
  | |- context [proc_windows.copy_values ?b 0 (Z.to_nat (uint32 ?k))] =>
      pose proof (uint32_nonneg k) as Hk;
      change (proc_windows.copy_values b 0 (Z.to_nat (uint32 k)))
        with (proc_windows.copy_values b (Z.of_nat 0) (Z.to_nat (uint32 k)));
      destruct (Z_le_gt_dec (uint32 k) 512) as [Hle|Hgt];
      [ rewrite (copy_values_nth b (Z.to_nat (uint32 k)) 0) by lia
      | rewrite (copy_values_overrun b (Z.to_nat (uint32 k)) 0) by lia;
        exact I ]
  end.
  steps. cbn [fst snd]. rewrite length_map, length_seq.
  split; [lia|]. split; [intros Hn; now contradiction Hn|].
  split; [solve_quiet|].
  eexists; split;
    [ cbn; rewrite <- ?app_assoc; reflexivity
    | repeat constructor; cbn;
      try apply capped_range; try apply uint32_nonneg;
      unfold proc_windows.maxQuerySize; lia ].
Qed.

Lemma initCounters_quiet (m : proc_windows.machine W) :
  post False (proc_windows.initCounters os) m (fun _ m' => quiet 6 m m').
Proof.
  unfold proc_windows.initCounters, proc_windows.pdhOpenQuery,
    proc_windows.pdhAddCounter, proc_windows.pdhCollectQueryData.
  cbv zeta. steps; solve_quiet.
Qed.

(** Runs a callee through its [quiet] lemma and adds up. *)
Ltac call_quiet lem :=
  eapply post_mono; [apply lem|];
  let Q := fresh "Q" in
  intros ? ? Q; cbv beta; cbv beta in Q;
  try match type of Q with
      | _ /\ _ /\ quiet _ _ _ /\ _ =>
          let Q' := fresh "Q" in
          destruct Q as [_ [_ [Q' _]]]
      end;
  try match goal with
      | Qp : quiet ?a ?m1 ?m2, Qn : quiet ?b ?m2 ?m3 |- _ =>
          pose proof (quiet_trans _ _ _ _ _ Qp Qn); clear Qp Qn
      end.

Ltac done_quiet :=
  match goal with
  | Q : quiet ?k ?m ?m' |- _ =>
      let Hk := fresh "Hk" in
      assert (Hk : (k <= 9)%nat) by (cbn; lia);
      destruct (quiet_weaken k 9 m m' Hk Q) as [? ?]
  end.

Lemma sample_quiet (m : proc_windows.machine W) :
  post True (proc_windows.sample os) m
       (fun res m' =>
          at_most 9 m m' /\ (res <> None -> untouched m m')).
Proof.
  unfold proc_windows.sample.
  apply post_bind.
  apply (post_mono True _ m
           (fun res m' =>
              at_most 9 m m' /\ (res <> None -> untouched m m'))).
  2:{ intros res m1 [[cs [E L]] U]. steps. split.
      - exists cs. split; [exact E|exact L].
      - intros Hres. destruct (U Hres) as [O C]. split; assumption. }
  steps. call_quiet pdhCollectQueryData_quiet.
  step; [done_quiet; split; auto|].
  steps. call_quiet getCounterArrayData_bounded.
  steps; [done_quiet; split; auto|].
  call_quiet getCounterArrayData_bounded.
  steps; [done_quiet; split; auto|].
  call_quiet getCounterArrayData_bounded.
  steps; [done_quiet; split; auto|].
  call_quiet getCounterArrayData_bounded.
  steps; [done_quiet; split; auto| |].
  - done_quiet; split; auto.
  - destruct (proc_windows.at_int _ _) as [c|]; [|exact I]. steps.
    destruct (proc_windows.at_int _ _) as [r|]; [|exact I]. steps.
    destruct (proc_windows.at_int _ _) as [v|]; [|exact I]. steps.
    done_quiet. split; [|intros Hn; now contradiction Hn].
    match goal with
    | A : at_most 9 _ _ |- _ => destruct A as [cs [E L]]
    end.
    exists cs. split; [exact E|exact L].
Qed.

Lemma Usage_quiet (m : proc_windows.machine W) :
  post True (proc_windows.Usage os) m
       (fun res m' =>
          at_most 15 m m' /\
          (proc_windows.initialSample (proc_windows.vars m) = false ->
           at_most 9 m m') /\
          (res <> None -> untouched m m')).
Proof.
  unfold proc_windows.Usage. steps.
  - eapply post_mono; [apply post_total_partial, initCounters_quiet|].
    intros [e|] m1 [U1 [c1 [E1 L1]]].
    + split; [|split].
      * exists c1. split; [exact E1|lia].
      * intros Hf. discriminate Hf.
      * intros _. exact U1.
    + steps. eapply post_mono; [apply sample_quiet|].
      intros res m2 [[c2 [E2 L2]] U2]. cbv beta.
      cbn [proc_windows.calls with_vars] in E2.
      split; [|split].
      * exists (c1 ++ c2). split.
        -- rewrite E2, E1, app_assoc. reflexivity.
        -- rewrite length_app. lia.
      * intros Hf. discriminate Hf.
      * intros Hres. destruct (U2 Hres) as [O2 C2]. destruct U1 as [O1 C1].
        cbn [proc_windows.out proc_windows.vars with_vars] in O2, C2.
        split; [congruence|]. etransitivity; [exact C2|exact C1].
  - split; [|split].
    + exists []. split; [symmetry; apply app_nil_r|cbn; lia].
    + intros _. exists []. split; [symmetry; apply app_nil_r|cbn; lia].
    + intros Hn. now contradiction Hn.
  - eapply post_mono; [apply sample_quiet|].
    intros res m2 [[c2 [E2 L2]] U2]. cbv beta. split; [|split].
    + exists c2. split; [exact E2|lia].
    + intros _. exists c2. split; [exact E2|exact L2].
    + exact U2.
Qed.

End Quiet.



(** X12: a [Usage] call that returns an error, from whichever step
    (initialization, collect, an array fetch, the pid search), has stored
    nothing through the caller's pointers and has left the cached snapshot
    as it was. *)
Theorem X12_failure_stores_nothing {W : Type} (os : proc_windows.OS W)
    (m m' : proc_windows.machine W) (e : error) :
  proc_windows.Usage os m = Return (Some e, m') ->
  proc_windows.out m' = proc_windows.out m /\
  cached (proc_windows.vars m') = cached (proc_windows.vars m).
Proof.
  intros Hrun.
  pose proof (post_run _ _ _ _ _ _ (Usage_quiet os m) Hrun) as [_ [_ U]].
  apply U. discriminate.
Qed.

Lemma X12_witness :
  proc_windows.Usage scenario.os miss_call
    = Return (Some "could not find pid in performance counter results",
              after_miss) /\
  proc_windows.out after_miss = proc_windows.out miss_call.
Proof.
  assert (E : proc_windows.Usage scenario.os miss_call
              = Return (Some "could not find pid in performance counter results",
                        after_miss)) by (vm_compute; reflexivity).
  split; [exact E|].
  exact (proj1 (X12_failure_stores_nothing scenario.os miss_call after_miss
                  _ E)).
Defined.

(** X13: a collection that fails still stamps the sample time.  So a
    [Usage] call made less than two seconds after a call whose collection
    failed makes no pdh call and returns, without error, the snapshot cached
    before the failure: the zero snapshot if no collection has succeeded
    yet. *)
Theorem X13_cache_served_after_failed_collection {W : Type}
    (os : proc_windows.OS W) (m m0 m' : proc_windows.machine W) (e : error) :
  collects os m m0 ->
  proc_windows.Usage os m = Return (Some e, m') ->
  forall m2,
    proc_windows.vars m2 = proc_windows.vars m' ->
    time.Since (proc_windows.Now os (proc_windows.world m2))
               (proc_windows.Now os (proc_windows.world m'))
      < 2 * time.Second ->
    proc_windows.Usage os m2
      = Return (None, with_out (cached (proc_windows.vars m)) m2).
Proof.
  intros C Hrun m2 Hv Hlt.
  pose proof (post_run _ _ _ _ _ _ (Usage_quiet os m) Hrun) as [_ [_ U]].
  destruct (U ltac:(discriminate)) as [_ Hc].
  rewrite (Usage_collects os m m0 C) in Hrun.
  pose proof (post_run _ _ _ _ _ _ (sample_frame os m0) Hrun)
    as [[S _] [Ht _]].
  assert (Hi : proc_windows.initialSample (proc_windows.vars m') = false).
  { destruct S as [_ [_ [_ [_ [_ [_ S]]]]]]. rewrite S.
    destruct C as [[Hi [_ ->]]|[_ [m1 [_ ->]]]]; [exact Hi|reflexivity]. }
  rewrite <- Hc, <- Hv. apply Usage_cached.
  - rewrite Hv. exact Hi.
  - rewrite Hv, Ht. exact Hlt.
Qed.

(** The process is listed again half a second after the miss, but the call
    is answered from the cache: success, all zeros. *)
Lemma X13_witness :
  proc_windows.Usage scenario.os retry_call
    = Return (None,
              with_out {| proc_windows.pcpu := 0%float;
                          proc_windows.rss := 0;
                          proc_windows.vss := 0 |} retry_call).
Proof.
  refine (X13_cache_served_after_failed_collection scenario.os miss_call
            (with_vars (proc_windows.set_initialSample false
                          (proc_windows.vars
                             (state_of (proc_windows.initCounters scenario.os
                                          miss_call) miss_call)))
               (state_of (proc_windows.initCounters scenario.os miss_call)
                         miss_call))
            after_miss
            "could not find pid in performance counter results"
            _ _ retry_call _ _).
  - right. split; [reflexivity|]. eexists.
    split; [vm_compute; reflexivity|reflexivity].
  - vm_compute. reflexivity.
  - vm_compute. reflexivity.
  - vm_compute. reflexivity.
Defined.

(** X14: whenever [Usage] returns without error, the caller's three
    locations hold exactly the cached snapshot and the session is marked
    initialized. *)
Theorem X14_success_agrees_with_cache {W : Type} (os : proc_windows.OS W)
    (m m' : proc_windows.machine W) :
  proc_windows.Usage os m = Return (None, m') ->
  proc_windows.out m' = cached (proc_windows.vars m') /\
  proc_windows.initialSample (proc_windows.vars m') = false.
Proof.
  intros Hrun.
  destruct (Usage_ways os m m' None Hrun)
    as [[Hi Hlt]|[[_ [e [_ He]]]|[m0 [C Hs]]]].
  - rewrite (Usage_cached os m Hi Hlt) in Hrun. injection Hrun as <-.
    split; [reflexivity|exact Hi].
  - discriminate He.
  - pose proof (post_run _ _ _ _ _ _ (sample_frame os m0) Hs)
      as [[S _] [_ Hc]].
    split; [symmetry; apply Hc; reflexivity|].
    destruct S as [_ [_ [_ [_ [_ [_ S]]]]]]. rewrite S.
    destruct C as [[Hi [_ ->]]|[_ [m1 [_ ->]]]]; [exact Hi|reflexivity].
Qed.

Lemma X14_witness :
  proc_windows.out scenario.m3 = cached (proc_windows.vars scenario.m3) /\
  proc_windows.initialSample (proc_windows.vars scenario.m3) = false.
Proof.
  apply (X14_success_agrees_with_cache scenario.os scenario.call3).
  vm_compute. reflexivity.
Defined.

(** X15: on an initialized session a [Usage] call never changes the query
    handle, the four counter handles or the recorded process id. *)
Theorem X15_handles_stable {W : Type} (os : proc_windows.OS W)
    (m m' : proc_windows.machine W) (res : option error) :
  proc_windows.initialSample (proc_windows.vars m) = false ->
  proc_windows.Usage os m = Return (res, m') ->
  same_session (proc_windows.vars m) (proc_windows.vars m').
Proof.
  intros Hi Hrun.
  destruct (Usage_ways os m m' res Hrun)
    as [[_ Hlt]|[[Ht _]|[m0 [C Hs]]]].
  - rewrite (Usage_cached os m Hi Hlt) in Hrun. injection Hrun as _ <-.
    apply same_session_refl.
  - congruence.
  - destruct C as [[_ [_ ->]]|[Ht _]]; [|congruence].
    pose proof (post_run _ _ _ _ _ _ (sample_frame os m) Hs) as [[S _] _].
    exact S.
Qed.

Lemma X15_witness :
  same_session (proc_windows.vars scenario.call3)
               (proc_windows.vars scenario.m3).
Proof.
  apply (X15_handles_stable scenario.os scenario.call3 scenario.m3 None).
  - vm_compute. reflexivity.
  - vm_compute. reflexivity.
Defined.

(** X16: the cost of a call is bounded: a [Usage] call makes at most 15 pdh
    calls (six to initialize, one collect, two per array), and at most 9 on
    an initialized session. *)
Theorem X16_calls_bounded {W : Type} (os : proc_windows.OS W)
    (m m' : proc_windows.machine W) (res : option error) :
  proc_windows.Usage os m = Return (res, m') ->
  exists cs,
    proc_windows.calls m' = proc_windows.calls m ++ cs /\
    (length cs <= 15)%nat /\
    (proc_windows.initialSample (proc_windows.vars m) = false ->
     (length cs <= 9)%nat).
Proof.
  intros Hrun.
  pose proof (post_run _ _ _ _ _ _ (Usage_quiet os m) Hrun)
    as [[cs [E L]] [B _]].
  exists cs. split; [exact E|]. split; [exact L|].
  intros Hi. destruct (B Hi) as [cs' [E' L']].
  rewrite E in E'. apply app_inv_head in E'. subst cs'. exact L'.
Qed.

Lemma X16_witness :
  exists cs,
    proc_windows.calls scenario.m1 = proc_windows.calls scenario.call1 ++ cs /\
    (length cs <= 15)%nat.
Proof.
  destruct (X16_calls_bounded scenario.os scenario.call1 scenario.m1 None)
    as [cs [E [L _]]].
  - vm_compute. reflexivity.
  - exists cs. split; assumption.
Defined.

(** ** CounterSession: the image name, continued *)

Lemma string_last_cases (s : string) :
  s = EmptyString \/ exists pre c, s = (pre ++ String c EmptyString)%string.
Proof.
  induction s as [|a s IH]; [left; reflexivity|right].
  destruct IH as [->|[pre [c ->]]].
  - exists EmptyString, a. reflexivity.
  - exists (String a pre), c. reflexivity.
Qed.

Lemma TrimRight_keeps (pre cutset : string) (c : ascii) :
  strings.contains c cutset = false ->
  strings.TrimRight (pre ++ String c EmptyString) cutset
  = (pre ++ String c EmptyString)%string.
Proof.
  intros Hc. induction pre as [|a pre IH].
  - cbn. rewrite Hc. reflexivity.
  - cbn [String.append strings.TrimRight]. rewrite IH.
    destruct (pre ++ String c EmptyString)%string eqn:E; [|reflexivity].
    destruct pre; discriminate.
Qed.

Lemma last_char_app (pre : string) (c : ascii) :
  last_char (pre ++ String c EmptyString) = Some c.
Proof.
  induction pre as [|a pre IH]; [reflexivity|].
  cbn [String.append last_char]. rewrite IH.
  destruct (pre ++ String c EmptyString)%string eqn:E; [|reflexivity].
  destruct pre; discriminate.
Qed.

(** X17: for an image whose base name is [stem ++ ".exe"],
    [getProcessExeName] returns [stem] exactly when [stem] does not itself
    end in '.', 'e' or 'x'; and a base name that ends in none of the three
    is returned as it is. *)
Theorem X17_exe_suffix_removed_exactly {W : Type} (os : proc_windows.OS W) :
  let base := proc_windows.Base os (proc_windows.Args0 os) in
  let name := proc_windows.getProcessExeName os in
  (forall stem,
      base = (stem ++ ".exe")%string ->
      (name = stem <->
       forall pre c, stem = (pre ++ String c EmptyString)%string ->
                     c <> "."%char /\ c <> "e"%char /\ c <> "x"%char)) /\
  (forall pre c,
      base = (pre ++ String c EmptyString)%string ->
      c <> "."%char /\ c <> "e"%char /\ c <> "x"%char ->
      name = base).
Proof.
  intros base name. unfold name, proc_windows.getProcessExeName. fold base.
  assert (Hnot : forall c,
             c <> "."%char /\ c <> "e"%char /\ c <> "x"%char ->
             strings.contains c ".exe" = false).
  { intros c [H1 [H2 H3]].
    destruct (strings.contains c ".exe") eqn:E; [|reflexivity].
    apply contains_exe in E. tauto. }
  split.
  - intros stem E.
    assert (T : strings.TrimRight base ".exe" = strings.TrimRight stem ".exe").
    { rewrite E. apply TrimRight_app. intros d Hd. cbn in Hd.
      apply contains_exe. destruct Hd as [<-|[<-|[<-|[<-|[]]]]]; auto. }
    rewrite T. split.
    + intros Hs pre c Hpre. rewrite Hpre in Hs.
      apply TrimRight_last in Hs.
      repeat split; intros ->; discriminate Hs.
    + intros Hend. destruct (string_last_cases stem) as [->|[pre [c ->]]].
      * reflexivity.
      * apply TrimRight_keeps. apply Hnot. now apply (Hend pre c).
  - intros pre c E Hc. rewrite E. apply TrimRight_keeps. now apply Hnot.
Qed.

Lemma X17_witness :
  proc_windows.getProcessExeName scenario.os = "nats-server".
Proof.
  destruct (X17_exe_suffix_removed_exactly scenario.os) as [H _].
  apply (H "nats-server"); [reflexivity|].
  intros pre c E. apply (f_equal last_char) in E.
  rewrite last_char_app in E. injection E as <-.
  repeat split; discriminate.
Defined.

(** ** The test helper: tolerances *)

(** [d] is within [t] of zero, or is the one int64 whose negation wraps back
    to itself. *)
Lemma magnitude_within (t d : Z) :
  0 <= t <= Int64.max_int -> Int64.in_range d ->
  (t <? proc_test.magnitude d) = false <->
  - t <= d <= t \/ d = Int64.min_int.
Proof.
  unfold proc_test.magnitude, Int64.in_range, Int64.sub, Int64.min_int,
    Int64.max_int.
  intros Ht Hd. destruct (d <? 0) eqn:Hneg.
  - apply Z.ltb_lt in Hneg.
    destruct (Z.eq_dec d (- 2 ^ 63)) as [->|Hne].
    + split; [right; reflexivity|intros _].
      replace (Int64.wrap (0 - - 2 ^ 63)) with (- 2 ^ 63)
        by (vm_compute; reflexivity).
      apply Z.ltb_ge. lia.
    + rewrite wrap_in_range
        by (unfold Int64.in_range, Int64.min_int, Int64.max_int; lia).
      rewrite Z.ltb_ge. lia.
  - apply Z.ltb_ge in Hneg. rewrite Z.ltb_ge. lia.
Qed.

Lemma to_int64_range (f : float) : Int64.in_range (Float64.to_int64 f).
Proof.
  assert (Hmin : Int64.in_range Int64.min_int)
    by (vm_compute; split; discriminate).
  unfold Float64.to_int64.
  destruct (Prim2SF f) as [s| s| |s m e]; try exact Hmin.
  - vm_compute; split; discriminate.
  - cbv zeta.
    set (v := if s then _ else _).
    destruct ((Int64.min_int <=? v) && (v <=? Int64.max_int)) eqn:E;
      [|exact Hmin].
    apply andb_true_iff in E as [E1 E2].
    apply Z.leb_le in E1, E2. split; assumption.
Qed.

(** X18: [checkValues] lets a pair of readings pass exactly when the CPU
    values are equal or their truncated difference is within 30, and the rss
    values differ by at most 1048576 bytes, both bounds included; a
    difference that comes out as the least int64 passes too, because its
    negation is negative again.  For rss values whose difference does not
    wrap, the rss check is |rss - tRss| <= 1048576. *)
Theorem X18_check_tolerances (pcpu tPcpu : float) (rss tRss : Z) :
  let near t d := - t <= d <= t \/ d = Int64.min_int in
  (proc_test.checkValues pcpu tPcpu rss tRss = None <->
   (PrimFloat.eqb pcpu tPcpu = true \/
    near 30 (Float64.to_int64 (PrimFloat.sub pcpu tPcpu))) /\
   near 1048576 (Int64.sub rss tRss)) /\
  (Int64.min_int < rss - tRss <= Int64.max_int ->
   PrimFloat.eqb pcpu tPcpu = true ->
   (proc_test.checkValues pcpu tPcpu rss tRss = None <->
    Z.abs (rss - tRss) <= 1048576)).
Proof.
  intros near.
  assert (Hcpu := magnitude_within 30
                    (Float64.to_int64 (PrimFloat.sub pcpu tPcpu))
                    ltac:(unfold Int64.max_int; lia)
                    (to_int64_range _)).
  assert (Hrss := magnitude_within 1048576 (Int64.sub rss tRss)
                    ltac:(unfold Int64.max_int; lia)
                    (wrap_range _)).
  assert (Hsame : rss = tRss -> near 1048576 (Int64.sub rss tRss)).
  { intros ->. unfold Int64.sub. rewrite Z.sub_diag. left.
    vm_compute. split; discriminate. }
  assert (General :
    proc_test.checkValues pcpu tPcpu rss tRss = None <->
    (PrimFloat.eqb pcpu tPcpu = true \/
     near 30 (Float64.to_int64 (PrimFloat.sub pcpu tPcpu))) /\
    near 1048576 (Int64.sub rss tRss)).
  { unfold proc_test.checkValues. change (1024 * 1024) with 1048576.
    destruct (PrimFloat.eqb pcpu tPcpu) eqn:Eq; cbn [negb].
    - destruct (rss =? tRss) eqn:Er; cbn [negb].
      + apply Z.eqb_eq in Er. split; [|reflexivity].
        intros _. split; [left; reflexivity|now apply Hsame].
      + destruct (1048576 <? proc_test.magnitude (Int64.sub rss tRss)) eqn:Em.
        * split; [discriminate|]. intros [_ Hn]. apply Hrss in Hn. congruence.
        * split; [|reflexivity]. intros _.
          split; [left; reflexivity|now apply Hrss].
    - destruct (30 <? proc_test.magnitude
                        (Float64.to_int64 (PrimFloat.sub pcpu tPcpu))) eqn:Ec.
      + split; [discriminate|]. intros [[Hn|Hn] _]; [discriminate|].
        apply Hcpu in Hn. congruence.
      + destruct (rss =? tRss) eqn:Er; cbn [negb].
        * apply Z.eqb_eq in Er. split; [|reflexivity].
          intros _. split; [right; now apply Hcpu|now apply Hsame].
        * destruct (1048576 <? proc_test.magnitude (Int64.sub rss tRss))
            eqn:Em.
          -- split; [discriminate|]. intros [_ Hn]. apply Hrss in Hn.
             congruence.
          -- split; [|reflexivity]. intros _.
             split; [right; now apply Hcpu|now apply Hrss]. }
  split; [exact General|].
  intros Hd Heq. rewrite General. unfold near, Int64.sub.
  rewrite wrap_in_range by (unfold Int64.in_range; lia).
  unfold Int64.min_int in *. split.
  - intros [_ [H|H]]; lia.
  - intros H. split; [left; exact Heq|left; lia].
Qed.

Lemma X18_witness :
  proc_test.checkValues 12.5%float 12.5%float 9437184 8388608 = None /\
  proc_test.checkValues 12.5%float 12.5%float 9437185 8388608 <> None.
Proof.
  split.
  - apply (X18_check_tolerances 12.5%float 12.5%float 9437184 8388608);
      [vm_compute; split; [reflexivity|discriminate]
      |reflexivity
      |vm_compute; discriminate].
  - intros H.
    apply (X18_check_tolerances 12.5%float 12.5%float 9437185 8388608) in H;
      [vm_compute in H; apply H; reflexivity
      |vm_compute; split; [reflexivity|discriminate]
      |reflexivity].
Defined.

(** ** StatSampler: from the record to the readings *)

Lemma spaceWidth_plain (b : byte) (rest : list byte) :
  plain b -> bytes.spaceWidth (b :: rest) = 0%nat.
Proof.
  intros [Hlt Hsp]. unfold bytes.spaceWidth. rewrite Hsp.
  destruct b; try reflexivity; vm_compute in Hlt; discriminate Hlt.
Qed.

Lemma fieldsFrom_field (f rest : list byte) :
  Forall plain f ->
  forall cur, bytes.fieldsFrom (f ++ rest) 0 cur
              = bytes.fieldsFrom rest 0 (cur ++ f).
Proof.
  induction 1 as [|b f Hb Hf IH]; intros cur.
  - now rewrite app_nil_r.
  - cbn [app]. change (bytes.fieldsFrom (b :: f ++ rest) 0 cur)
      with (match bytes.spaceWidth (b :: f ++ rest) with
            | O => bytes.fieldsFrom (f ++ rest) 0 (cur ++ [b])
            | S k => match cur with
                     | [] => bytes.fieldsFrom (f ++ rest) k []
                     | _ => cur :: bytes.fieldsFrom (f ++ rest) k []
                     end
            end).
    rewrite (spaceWidth_plain b (f ++ rest) Hb), IH, <- app_assoc.
    reflexivity.
Qed.

Lemma fieldsFrom_tail (tail : list byte) :
  Forall (fun b => bytes.asciiSpace b = true) tail ->
  forall cur, bytes.fieldsFrom tail 0 cur
              = match cur with [] => [] | _ => [cur] end.
Proof.
  induction 1 as [|b tail Hb Ht IH]; intros cur; [reflexivity|].
  cbn [bytes.fieldsFrom bytes.spaceWidth]. rewrite Hb.
  destruct cur; rewrite IH; reflexivity.
Qed.

Lemma Fields_join (fields : list (list byte)) (tail : list byte) :
  Forall plain_field fields ->
  Forall (fun b => bytes.asciiSpace b = true) tail ->
  bytes.Fields (join_fields fields ++ tail) = fields.
Proof.
  intros Hf Ht. unfold bytes.Fields.
  induction Hf as [|f rest [Hne Hp] Hrest IH].
  - cbn. now rewrite fieldsFrom_tail.
  - destruct rest as [|g rest].
    + cbn [join_fields]. rewrite fieldsFrom_field by exact Hp.
      rewrite fieldsFrom_tail by exact Ht. cbn [app].
      destruct f; [congruence|reflexivity].
    + change (join_fields (f :: g :: rest))
        with (f ++ bytes_of_string " " ++ join_fields (g :: rest)).
      rewrite <- !app_assoc. rewrite fieldsFrom_field by exact Hp.
      cbn [app]. change (bytes_of_string " ") with [" "%byte].
      cbn [app bytes.fieldsFrom bytes.spaceWidth].
      change (bytes.asciiSpace " "%byte) with true. cbn iota.
      rewrite IH. destruct f; [congruence|reflexivity].
Qed.

Lemma digits_plain (d : list byte) : all_digits d -> Forall plain d.
Proof.
  unfold all_digits. intros H. eapply Forall_impl; [exact H|].
  intros b Hb. unfold is_digit in Hb. unfold plain, bytes.asciiSpace.
  split; [lia|]. cbv zeta.
  apply orb_false_iff. split.
  - apply andb_false_iff. right. apply Z.leb_gt. lia.
  - apply Z.eqb_neq. lia.
Qed.

Lemma itoa_digits (n : Z) :
  0 <= n ->
  all_digits (bytes_of_string (itoa n)) /\ bytes_of_string (itoa n) <> [].
Proof.
  intros Hn. destruct n as [|p|p];
    [|destruct (decimal_of_positive p) as [Ha [Hne _]]; now split|lia].
  split; [|discriminate].
  change (Forall is_digit ["0"%byte]).
  constructor; [|constructor].
  unfold is_digit. vm_compute. split; discriminate.
Qed.

Lemma parseInt64_itoa (n : Z) :
  0 <= n <= Int64.max_int ->
  proc_linux.parseInt64 (bytes_of_string (itoa n)) = n.
Proof.
  intros Hn. destruct n as [|p|p]; [reflexivity| |lia].
  destruct (decimal_of_positive p) as [Ha [Hne Hv]].
  rewrite (parseInt64_wraps_decimal _ Hne Ha), Hv.
  apply wrap_in_range. unfold Int64.in_range, Int64.min_int. lia.
Qed.

(** X19: [bytes.Fields] splits a record back into the fields it was written
    from: for fields that are non-empty and made of ASCII bytes other than
    white space, written with one space between two of them and any run of
    ASCII white space (the final line feed of a stat file, or nothing) at the
    end, the result is the list of these fields, in order. *)
Theorem X19_fields_of_written_record (fields : list (list byte))
    (tail : list byte) :
  Forall plain_field fields ->
  Forall (fun b => bytes.asciiSpace b = true) tail ->
  bytes.Fields (join_fields fields ++ tail) = fields /\
  length (bytes.Fields (join_fields fields ++ tail)) = length fields.
Proof.
  intros Hf Ht. rewrite (Fields_join fields tail Hf Ht). now split.
Qed.

Lemma X19_witness :
  bytes.Fields (bytes_of_string "4242 (proc) S" ++ newline)
  = [bytes_of_string "4242"; bytes_of_string "(proc)"; bytes_of_string "S"].
Proof.
  apply (X19_fields_of_written_record
           [bytes_of_string "4242"; bytes_of_string "(proc)";
            bytes_of_string "S"] newline).
  - repeat constructor; try discriminate;
      vm_compute; reflexivity.
  - repeat constructor.
Defined.

(** X20: from the kernel's record to the caller's readings.  When the stat
    file holds space-separated fields and a final line feed, its 24th field
    is the decimal of a page count below 2^51 and its 23rd the decimal of a
    non-negative int64, [Usage] returns no error, the page count times 4096
    as rss, that 23rd number as vss, and a tenth of the stored CPU estimate
    as pcpu. *)
Theorem X20_readings_of_record (os : proc_linux.OS) (g : proc_linux.globals)
    (out : proc_linux.outputs) (fields : list (list byte)) (pages vsz : Z) :
  proc_linux.ReadFile os (proc_linux.procStatFile g)
  = Success (join_fields fields ++ newline) ->
  Forall plain_field fields ->
  fields !! 23%nat = Some (bytes_of_string (itoa pages)) ->
  fields !! 22%nat = Some (bytes_of_string (itoa vsz)) ->
  0 <= pages < 2 ^ 51 ->
  0 <= vsz <= Int64.max_int ->
  proc_linux.Usage os g out =
    Return (None,
            {| proc_linux.pcpu :=
                 PrimFloat.div (Float64.of_int64 (proc_linux.ipcpu g))
                               Float64.ten;
               proc_linux.rss := pages * 4096;
               proc_linux.vss := vsz |}).
Proof.
  intros Hread Hf Hrss Hvss Hp Hv.
  assert (Hfields : bytes.Fields (join_fields fields ++ newline) = fields).
  { apply Fields_join; [exact Hf|]. repeat constructor. }
  rewrite (linux_Usage_read os g out _
             (bytes_of_string (itoa pages)) (bytes_of_string (itoa vsz))
             Hread);
    try (rewrite Hfields; assumption).
  rewrite !parseInt64_itoa
    by (unfold Int64.max_int in *; lia).
  rewrite shl_12_is_times_page, wrap_in_range; [reflexivity|].
  unfold Int64.in_range, Int64.min_int, Int64.max_int. lia.
Qed.

Lemma X20_witness :
  let numbers := [4242; 0; 0; 1; 4242; 4242; 0; 0; 4194304; 100; 0; 0; 0;
                  150; 50; 0; 0; 20; 0; 5; 0; 12300; 2000000; 300; 0] in
  let record :=
    join_fields (map (fun n => bytes_of_string (itoa n)) numbers) in
  proc_linux.Usage
    (sim_linux.kernel 4242 (Success (record ++ newline)) (Success 125))
    sim_linux.started sim_linux.blank
  = Return (None,
            {| proc_linux.pcpu :=
                 PrimFloat.div
                   (Float64.of_int64 (proc_linux.ipcpu sim_linux.started))
                   Float64.ten;
               proc_linux.rss := 300 * 4096;
               proc_linux.vss := 2000000 |}).
Proof.
  intros numbers record.
  apply (X20_readings_of_record _ sim_linux.started sim_linux.blank
           (map (fun n => bytes_of_string (itoa n)) numbers)).
  - reflexivity.
  - apply Forall_map.
    assert (H0 : Forall (fun n => 0 <= n) numbers)
      by (subst numbers; repeat constructor; lia).
    eapply Forall_impl; [exact H0|]. intros n Hn. cbv beta in *.
    destruct (itoa_digits n Hn) as [Hd Hne].
    split; [exact Hne|now apply digits_plain].
  - reflexivity.
  - reflexivity.
  - lia.
  - unfold Int64.max_int. lia.
Defined.
